(** * ncert-tutor: the tutoring turn, the hint counter and the mastery check

    A shallow embedding of the orchestration code of the repository:

    - [src/lib/llm/evaluate.ts]     ([Evaluate.evaluateAnswer],
                                     [Evaluate.getSolutionExplanation]),
    - the route [POST /api/evaluate] ([Evaluate.POST]),
    - [src/lib/llm/diagnose.ts]     ([Diagnose.diagnoseStudent]),
    - [src/components/TutorChat.tsx] ([TutorChat.handleSubmit],
                                     [TutorChat.handleShowSolution]),
    - [src/app/page.tsx]            ([Home], the handlers of the page).

    JavaScript values are kept dynamic where the code reads untyped JSON
    (the body of a [fetch] response, the text returned by the language
    model); React state is a record, a handler is a function on that
    record, and an [async] handler is cut at its [await] into the part
    that runs on the event and the part that runs when the call
    resolves.  The page is run one event at a time: the calls in flight
    and the callbacks handed to [setTimeout] are part of its state, and
    each resolves or runs as an event of its own, with what its handler
    captured when it was created. *)

From Stdlib Require Import List String Ascii ZArith Bool Lia.
From Stdlib Require Import Sorted.
Import ListNotations.

Set Warnings "-register-all".
Local Open Scope string_scope.
Local Open Scope Z_scope.
Local Open Scope list_scope.

(* ================================================================== *)
(** ** JavaScript values *)

Module JS.

(** What [JSON.parse] and [response.json()] can produce.  A number is
    kept as an integer: the code only ever tests a parsed number for
    truthiness.  The fields of [JObj] are the own properties of the
    object, the first binding of a key being the property. *)
Inductive json : Type :=
| JNull
| JBool (b : bool)
| JNum (n : Z)
| JStr (s : string)
| JArr (items : list json)
| JObj (fields : list (string * json)).

(** A JavaScript value read from a property: [None] is [undefined]. *)
Definition value : Type := option json.

Fixpoint assoc (k : string) (fields : list (string * json)) : value :=
  match fields with
  | [] => None
  | (k', v) :: rest => if String.eqb k k' then Some v else assoc k rest
  end.

(** [o.k] for a value [o] that is not [null] (reading a property of
    [null] throws and is handled where the read happens).  None of the
    property names the code reads exists on a string, number, boolean or
    array, so those give [undefined]. *)
Definition get (k : string) (o : json) : value :=
  match o with
  | JObj fields => assoc k fields
  | _ => None
  end.

(** ToBoolean. *)
Definition truthy (v : value) : bool :=
  match v with
  | None => false
  | Some JNull => false
  | Some (JBool b) => b
  | Some (JNum n) => negb (n =? 0)
  | Some (JStr s) => negb (String.eqb s "")
  | Some (JArr _) => true
  | Some (JObj _) => true
  end.

(** [v === 'lit'] for a string literal. *)
Definition is_str (v : value) (lit : string) : bool :=
  match v with
  | Some (JStr s) => String.eqb s lit
  | _ => false
  end.

(** [a || b] on values. *)
Definition or_else (a b : value) : value := if truthy a then a else b.

(** A JavaScript string is held as the bytes of its UTF-8 encoding.
    [utf8 c] is the encoding of a code point of the Basic Multilingual
    Plane. *)
Definition utf8 (c : N) : string :=
  if (c <? 128)%N then String (ascii_of_N c) EmptyString
  else if (c <? 2048)%N
  then String (ascii_of_N (192 + c / 64))
         (String (ascii_of_N (128 + c mod 64)) EmptyString)
  else String (ascii_of_N (224 + c / 4096))
         (String (ascii_of_N (128 + (c / 64) mod 64))
            (String (ascii_of_N (128 + c mod 64)) EmptyString)).

(** The code points [String.prototype.trim] strips: the white space of
    ECMAScript (TAB, VT, FF, U+FEFF and the space separators) and its
    line terminators (LF, CR, U+2028, U+2029). *)
Definition white_space : list N :=
  [ 9; 10; 11; 12; 13; 32; 160; 5760;
    8192; 8193; 8194; 8195; 8196; 8197; 8198; 8199; 8200; 8201; 8202;
    8232; 8233; 8239; 8287; 12288; 65279 ]%N.

(** [w] is one white space character. *)
Definition is_white (w : string) : bool :=
  existsb (String.eqb w) (map utf8 white_space).

(** [trim_start s]: drop the white space at the start of [s].  A white
    space character takes one, two or three bytes. *)
Fixpoint trim_start (s : string) : string :=
  match s with
  | EmptyString => s
  | String a s1 =>
      if is_white (String a EmptyString) then trim_start s1
      else
        match s1 with
        | EmptyString => s
        | String b s2 =>
            if is_white (String a (String b EmptyString)) then trim_start s2
            else
              match s2 with
              | EmptyString => s
              | String c s3 =>
                  if is_white (String a (String b (String c EmptyString)))
                  then trim_start s3
                  else s
              end
        end
  end.

(** [s] holds white space only (or nothing). *)
Definition all_white (s : string) : bool := String.eqb (trim_start s) "".

(** [trim_end s]: drop the white space at the end of [s], that is, cut
    [s] where what follows is white space only. *)
Fixpoint trim_end (s : string) : string :=
  match s with
  | EmptyString => EmptyString
  | String c rest =>
      if all_white s then EmptyString else String c (trim_end rest)
  end.

(** [String.prototype.trim]. *)
Definition trim (s : string) : string := trim_end (trim_start s).

(** [s] is a sequence of white space characters (or empty). *)
Inductive blank : string -> Prop :=
| blank_empty : blank ""
| blank_white (w s : string) :
    is_white w = true -> blank s -> blank (w ++ s)%string.

(** How a JavaScript function ends: it returns, or it throws (an
    [async] function: its promise resolves, or rejects). *)
Inductive Completion (A : Type) : Type :=
| Return (a : A)
| Throw (msg : string).
Arguments Return {A} a.
Arguments Throw {A} msg.

End JS.

(* ================================================================== *)
(** ** Server side: calls to the model, [try]/[catch], [console.error] *)

Module Srv.
Import JS.

(** What the server side of one request can change: how many calls to
    the language model were made, and what was logged. *)
Record World : Type := mkWorld {
  llm_calls : nat;
  console_error : list string
}.

Definition M (A : Type) : Type := World -> Completion A * World.

Definition ret {A} (a : A) : M A := fun w => (Return a, w).

Definition throw {A} (msg : string) : M A := fun w => (Throw msg, w).

Definition bind {A B} (m : M A) (k : A -> M B) : M B :=
  fun w =>
    match m w with
    | (Return a, w') => k a w'
    | (Throw msg, w') => (Throw msg, w')
    end.

(** [try { body } catch (error) { handler }] *)
Definition try_catch {A} (body : M A) (handler : string -> M A) : M A :=
  fun w =>
    match body w with
    | (Return a, w') => (Return a, w')
    | (Throw msg, w') => handler msg w'
    end.

Definition log_error (line : string) : M unit :=
  fun w => (Return tt, {| llm_calls := llm_calls w;
                          console_error := console_error w ++ [line] |}).

(** The world after one call to the model and one logged line. *)
Definition after_fallback (line : string) (w : World) : World :=
  mkWorld (S (llm_calls w)) (console_error w ++ [line]).

(** What one [openai.chat.completions.create] followed by
    [completion.choices[0].message.content] gives: the call rejects or
    the path does not exist ([LlmThrows]), or the content, [null] or a
    string. *)
Inductive LlmOutcome : Type :=
| LlmThrows
| LlmContent (content : option string).

End Srv.

Declare Scope srv_scope.
Delimit Scope srv_scope with srv.
Notation "x <- m ;; k" := (Srv.bind m (fun x => k))
  (at level 61, m at next level, right associativity) : srv_scope.
Notation "m ;;; k" := (Srv.bind m (fun _ => k))
  (at level 61, right associativity) : srv_scope.

(* ================================================================== *)
(** ** Shared types *)

Module Types.

Inductive Role : Type := student | tutor.

(** A turn as it travels in a request: the role and the text.  The text
    of a tutor turn is whatever the evaluation returned in
    [tutor_message], so it is a JavaScript value. *)
Record Message : Type := mkMessage {
  msg_role : Role;
  msg_text : JS.value
}.

(** Modelled from the spec: the [Problem] type of [lib/types], which is
    not among the sources; the code modelled here reads its [id] and its
    [text]. *)
Record Problem : Type := mkProblem {
  id : string;
  text : string
}.

(** The data a prompt is built from.  The prompt text itself is opaque:
    the model is asked with these data and answers what it answers. *)
Inductive Prompt : Type :=
| EvaluatePrompt (studentAge : option Z) (problem : Problem)
    (conversationHistory : list Message) (studentAnswer : string)
    (hintsUsed : Z)
| SolutionPrompt (problem : Problem)
| DiagnosticPrompt (problem : Problem)
    (conversation_history : list Message) (student_answers : list string)
    (hints_given : Z) (attempts_count : Z).

End Types.

(* ================================================================== *)
(** ** [lib/llm/evaluate.ts] and the route [POST /api/evaluate] *)

Module Evaluate.
Import JS Srv Types.
Local Open Scope srv_scope.

(** The fallback response of [evaluateAnswer]. *)
Definition fallback : json :=
  JObj [ ("response_type", JStr "needs_hint");
         ("tutor_message",
          JStr "I'm having trouble understanding your answer. Could you explain your thinking step by step?");
         ("badge_type", JStr "hint_given");
         ("show_solution_button", JBool false) ].

(** The response of the route to a solution request. *)
Definition solution_response (explanation : string) : json :=
  JObj [ ("response_type", JStr "correct_final");
         ("tutor_message", JStr "Here's how to solve this problem:");
         ("badge_type", JStr "hint_given");
         ("show_solution_button", JBool false);
         ("explanation", JStr explanation) ].

Record HttpResponse : Type := mkHttpResponse {
  status : Z;
  body : json
}.

(** [response.ok] *)
Definition ok (r : HttpResponse) : bool :=
  ((200 <=? status r) && (status r <=? 299))%bool.

(** The body of a request to the route, as the client builds it. *)
Record EvaluateBody : Type := mkEvaluateBody {
  problem_id : string;
  student_answer : string;
  conversation_history : list Message;
  hints_used : Z;
  request_solution : bool
}.

Section WithCollaborators.

(** The collaborators of the module: the language model (the outcome of
    its [n]-th call, asked with the given data), [JSON.parse] ([None]
    when it throws), the problem store and the session (of which only
    the age of the student is used). *)
Variable openai_create : nat -> Prompt -> LlmOutcome.
Variable JSON_parse : string -> option json.
Variable getProblemById : string -> M (option Problem).
Variable getStudentAge : M (option Z).

(** One call to the model. *)
Definition call_model (p : Prompt) : M (option string) :=
  fun w =>
    let w' := {| llm_calls := S (llm_calls w);
                 console_error := console_error w |} in
    match openai_create (llm_calls w) p with
    | LlmThrows => (Throw "openai", w')
    | LlmContent c => (Return c, w')
    end.

(** [!responseText] *)
Definition empty_text (c : option string) : bool :=
  match c with
  | None => true
  | Some s => String.eqb s ""
  end.

(** The [try] block of [evaluateAnswer]. *)
Definition evaluateAnswer_try (p : Prompt) : M json :=
  responseText <- call_model p ;;
  match responseText with
  | None => throw "Empty response from OpenAI"
  | Some s =>
      if String.eqb s "" then throw "Empty response from OpenAI"
      else
        match JSON_parse s with
        | None => throw "SyntaxError"
        | Some JNull => throw "TypeError"
        | Some evaluation =>
            if (negb (truthy (get "response_type" evaluation))
                || negb (truthy (get "tutor_message" evaluation))
                || negb (truthy (get "badge_type" evaluation)))%bool
            then throw "Invalid evaluation response structure"
            else ret evaluation
        end
  end.

Definition evaluateAnswer (problem : Problem)
    (conversationHistory : list Message) (studentAnswer : string)
    (hintsUsed : Z) (studentAge : option Z) : M json :=
  try_catch
    (evaluateAnswer_try
       (EvaluatePrompt studentAge problem conversationHistory
          studentAnswer hintsUsed))
    (fun error => log_error "Error evaluating answer:" ;;; ret fallback).

Definition getSolutionExplanation (problem : Problem) : M string :=
  try_catch
    (content <- call_model (SolutionPrompt problem) ;;
     ret (if empty_text content then "Solution explanation unavailable."
          else match content with Some s => s | None => "" end))
    (fun error =>
       log_error "Error generating solution:" ;;;
       ret "Unable to generate solution explanation at this time.").

Definition error_body (msg : string) : json := JObj [ ("error", JStr msg) ].

(** The route.  [body.hints_used || 0] is [hints_used] itself for a
    number. *)
Definition POST (b : EvaluateBody) : M HttpResponse :=
  try_catch
    (if (String.eqb (problem_id b) "" || String.eqb (student_answer b) "")%bool
     then ret (mkHttpResponse 400
                 (error_body "Missing required fields: problem_id, student_answer"))
     else
       studentAge <- getStudentAge ;;
       problem <- getProblemById (problem_id b) ;;
       match problem with
       | None => ret (mkHttpResponse 404 (error_body "Problem not found"))
       | Some problem =>
           if request_solution b then
             explanation <- getSolutionExplanation problem ;;
             ret (mkHttpResponse 200 (solution_response explanation))
           else
             evaluation <- evaluateAnswer problem (conversation_history b)
                             (student_answer b) (hints_used b) studentAge ;;
             ret (mkHttpResponse 200 evaluation)
       end)
    (fun error =>
       log_error "Evaluation API error:" ;;;
       ret (mkHttpResponse 500
              (JObj [ ("error", JStr "Internal server error");
                      ("message", JStr error) ]))).

End WithCollaborators.

End Evaluate.

(* ================================================================== *)
(** ** [lib/llm/diagnose.ts] *)

Module Diagnose.
Import JS Srv Types.
Local Open Scope srv_scope.

Record DiagnosticRequest : Type := mkDiagnosticRequest {
  problem : Problem;
  conversation_history : list Message;
  student_answers : list string;
  hints_given : Z;
  attempts_count : Z
}.

(** The fallback response of [diagnoseStudent]. *)
Definition fallback : json :=
  JObj [ ("misconception_type", JStr "none");
         ("confidence", JStr "low");
         ("description",
          JStr "Unable to determine specific misconception from available data.");
         ("evidence", JArr [ JStr "Insufficient data for analysis" ]);
         ("recommendations",
          JArr [ JStr "Continue working with the student to gather more information";
                 JStr "Provide additional practice problems to identify patterns" ]) ].

Section WithCollaborators.

Variable openai_create : nat -> Prompt -> LlmOutcome.
Variable JSON_parse : string -> option json.

(** The [try] block of [diagnoseStudent]. *)
Definition diagnoseStudent_try (p : Prompt) : M json :=
  responseText <- Evaluate.call_model openai_create p ;;
  match responseText with
  | None => throw "Empty response from OpenAI"
  | Some s =>
      if String.eqb s "" then throw "Empty response from OpenAI"
      else
        match JSON_parse s with
        | None => throw "SyntaxError"
        | Some JNull => throw "TypeError"
        | Some diagnostic =>
            if (negb (truthy (get "misconception_type" diagnostic))
                || negb (truthy (get "confidence" diagnostic))
                || negb (truthy (get "description" diagnostic)))%bool
            then throw "Invalid diagnostic response structure"
            else ret diagnostic
        end
  end.

Definition diagnoseStudent (request : DiagnosticRequest) : M json :=
  try_catch
    (diagnoseStudent_try
       (DiagnosticPrompt (problem request) (conversation_history request)
          (student_answers request) (hints_given request)
          (attempts_count request)))
    (fun error => log_error "Error diagnosing student:" ;;; ret fallback).

End WithCollaborators.

End Diagnose.

(* ================================================================== *)
(** ** [components/TutorChat.tsx] *)

Module TutorChat.
Import JS Types.

(** [id] is the clock reading whose decimal form is the id of the
    message; [timestamp] the clock reading of its ISO time stamp. *)
Record ChatMessage : Type := mkChatMessage {
  id : Z;
  role : Role;
  text : value;
  timestamp : Z;
  badge_type : value
}.

(** The state of the component ([useState]).  [hintsUsed] is a
    JavaScript number that only ever holds a small natural number. *)
Record State : Type := mkState {
  messages : list ChatMessage;
  input : string;
  isLoading : bool;
  hintsUsed : Z;
  showSolutionButton : bool
}.

Definition initial : State := mkState [] "" false 0 false.

Definition set_messages (f : list ChatMessage -> list ChatMessage)
    (st : State) : State :=
  mkState (f (messages st)) (input st) (isLoading st) (hintsUsed st)
    (showSolutionButton st).

Definition set_input (s : string) (st : State) : State :=
  mkState (messages st) s (isLoading st) (hintsUsed st)
    (showSolutionButton st).

Definition set_isLoading (b : bool) (st : State) : State :=
  mkState (messages st) (input st) b (hintsUsed st) (showSolutionButton st).

Definition set_hintsUsed (f : Z -> Z) (st : State) : State :=
  mkState (messages st) (input st) (isLoading st) (f (hintsUsed st))
    (showSolutionButton st).

Definition set_showSolutionButton (b : bool) (st : State) : State :=
  mkState (messages st) (input st) (isLoading st) (hintsUsed st) b.

(** What [await fetch(...)] followed by [await response.json()] gives:
    the call rejects, or a response with its [ok] flag and its body
    ([None] when the body is not JSON and [response.json()] rejects). *)
Inductive FetchOutcome : Type :=
| FetchRejects
| FetchResponse (ok : bool) (body : option json).

Definition of_http (r : Evaluate.HttpResponse) : FetchOutcome :=
  FetchResponse (Evaluate.ok r) (Some (Evaluate.body r)).

(** [messages.map(m => ({ role: m.role, text: m.text }))] *)
Definition history (ms : list ChatMessage) : list Message :=
  map (fun m => mkMessage (role m) (text m)) ms.

(** The tutor turn [handleSubmit] appends for [result]. *)
Definition tutor_turn (now : Z) (result : json) : ChatMessage :=
  mkChatMessage (now + 1) tutor (get "tutor_message" result) now
    (get "badge_type" result).

(** [result.badge_type === 'hint_given'] *)
Definition hint_given (result : json) : bool :=
  is_str (get "badge_type" result) "hint_given".

(** 1 for a result whose badge is [hint_given], 0 otherwise. *)
Definition hint_of (result : json) : Z := if hint_given result then 1 else 0.

(** How many of the results carry the badge [hint_given]. *)
Definition hints_in (results : list json) : Z :=
  Z.of_nat (List.length (filter hint_given results)).

(** [result.show_solution_button], as a condition. *)
Definition offers_solution (result : json) : bool :=
  truthy (get "show_solution_button" result).

(** [result.response_type === 'correct_final'] *)
Definition correct_final (result : json) : bool :=
  is_str (get "response_type" result) "correct_final".

Section Component.

(** The type of the callbacks the parent passes in. *)
Variable CB : Type.

Record Props : Type := mkProps {
  problemId : string;
  problemText : string;
  isMasteryCheck : bool;
  onCorrectAnswer : option CB;
  onMasteryFailed : option CB
}.

Variable props : Props.

(** [handleSubmit] up to its [await]: the guard, the student turn, and
    the request that is sent.  [now] is the clock. *)
Definition handleSubmit_begin (now : Z) (st : State)
  : Completion (State * option Evaluate.EvaluateBody) :=
  if (String.eqb (trim (input st)) "" || isLoading st)%bool
  then Return (st, None)
  else
    let studentMessage :=
      mkChatMessage now student (Some (JStr (trim (input st)))) now None in
    let st1 := set_messages (fun prev => prev ++ [studentMessage]) st in
    let st2 := set_input "" st1 in
    let st3 := set_isLoading true st2 in
    Return (st3,
            Some (Evaluate.mkEvaluateBody (problemId props)
                    (trim (input st)) (history (messages st))
                    (hintsUsed st) false)).

(** The [catch] block of [handleSubmit]. *)
Definition handleSubmit_catch (now : Z) (st : State) : State :=
  let errorMessage :=
    mkChatMessage (now + 1) tutor
      (Some (JStr "Sorry, I had trouble understanding that. Could you try again?"))
      now None in
  set_messages (fun prev => prev ++ [errorMessage]) st.

(** The [try] block of [handleSubmit] after the response has been read
    as [result]: the state updates, and the callbacks handed to
    [setTimeout], in the order they are scheduled. *)
Definition handleSubmit_evaluated (now : Z) (result : json) (st : State)
  : State * list CB :=
  let tutorMessage := tutor_turn now result in
  let st1 := set_messages (fun prev => prev ++ [tutorMessage]) st in
  let st2 :=
    if hint_given result
    then set_hintsUsed (fun prev => prev + 1) st1
    else st1 in
  let '(st3, failed) :=
    if offers_solution result
    then (set_showSolutionButton true st2,
          match isMasteryCheck props, onMasteryFailed props with
          | true, Some cb => [cb]
          | _, _ => []
          end)
    else (st2, []) in
  let correct :=
    match correct_final result, onCorrectAnswer props with
    | true, Some cb => [cb]
    | _, _ => []
    end in
  (st3, failed ++ correct).

(** [handleSubmit] from the point where the call resolves. *)
Definition handleSubmit_resume (now : Z) (r : FetchOutcome) (st : State)
  : State * list CB :=
  let '(st', timers) :=
    match r with
    | FetchResponse true (Some JNull) => (handleSubmit_catch now st, [])
    | FetchResponse true (Some result) => handleSubmit_evaluated now result st
    | _ => (handleSubmit_catch now st, [])
    end in
  (set_isLoading false st', timers).

(** [handleShowSolution] up to its [await]. *)
Definition handleShowSolution_begin (st : State)
  : State * Evaluate.EvaluateBody :=
  (set_isLoading true st,
   Evaluate.mkEvaluateBody (problemId props) "show solution"
     (history (messages st)) (hintsUsed st) true).

(** [handleShowSolution] from the point where the call resolves.  There
    is no test of [response.ok] here. *)
Definition handleShowSolution_resume (now : Z) (r : FetchOutcome) (st : State)
  : State * list CB :=
  let st' :=
    match r with
    | FetchResponse _ (Some JNull) => st
    | FetchResponse _ (Some result) =>
        let solutionMessage :=
          mkChatMessage now tutor
            (or_else (get "explanation" result) (get "tutor_message" result))
            now None in
        set_showSolutionButton false
          (set_messages (fun prev => prev ++ [solutionMessage]) st)
    | _ => st
    end in
  (set_isLoading false st', []).

(** What the rendered form allows: the text input and the solution
    button are disabled while loading, the send button while loading or
    while the input is blank; the solution button is rendered when the
    offer is on. *)
Definition input_disabled (st : State) : bool := isLoading st.

Definition send_disabled (st : State) : bool :=
  (isLoading st || String.eqb (trim (input st)) "")%bool.

Definition solution_button_enabled (st : State) : bool :=
  (showSolutionButton st && negb (isLoading st))%bool.

(** *** The component under its events, calls in flight made explicit *)

Inductive Pending : Type :=
| PendingEvaluate (request : Evaluate.EvaluateBody)
| PendingSolution (request : Evaluate.EvaluateBody).

Record Running : Type := mkRunning {
  chat : State;
  inflight : list Pending
}.

(** What can happen to a mounted component: the learner types, submits
    the form, clicks the solution button, or the oldest call in flight
    resolves. *)
Inductive Event : Type :=
| TypeInput (s : string)
| Submit (now : Z)
| ClickShowSolution
| Resolve (now : Z) (r : FetchOutcome).

Definition step (ev : Event) (s : Running) : Running :=
  match ev with
  | TypeInput v =>
      if input_disabled (chat s) then s
      else mkRunning (set_input v (chat s)) (inflight s)
  | Submit now =>
      match handleSubmit_begin now (chat s) with
      | Return (st, Some request) =>
          mkRunning st (inflight s ++ [PendingEvaluate request])
      | Return (st, None) => mkRunning st (inflight s)
      | Throw _ => s
      end
  | ClickShowSolution =>
      if solution_button_enabled (chat s)
      then
        let '(st, request) := handleShowSolution_begin (chat s) in
        mkRunning st (inflight s ++ [PendingSolution request])
      else s
  | Resolve now r =>
      match inflight s with
      | [] => s
      | PendingEvaluate _ :: rest =>
          mkRunning (fst (handleSubmit_resume now r (chat s))) rest
      | PendingSolution _ :: rest =>
          mkRunning (fst (handleShowSolution_resume now r (chat s))) rest
      end
  end.

Definition run (evs : list Event) (s : Running) : Running :=
  fold_left (fun acc ev => step ev acc) evs s.

Definition mounted : Running := mkRunning initial [].

(** Exactly one call is in flight while the component is loading, and
    none otherwise. *)
Definition one_in_flight (s : Running) : Prop :=
  (inflight s = [] /\ isLoading (chat s) = false)
  \/ (exists q, inflight s = [q] /\ isLoading (chat s) = true).

(** *** Whole turns *)

(** One learner turn from submission to resolution. *)
Definition submit_turn (now : Z) (r : FetchOutcome) (st : State)
  : State * list CB :=
  match handleSubmit_begin now st with
  | Return (st1, Some _) => handleSubmit_resume now r st1
  | Return (st1, None) => (st1, [])
  | Throw _ => (st, [])
  end.

(** A sequence of evaluated tutor turns: each element is the [result]
    the evaluation call of that turn resolved with. *)
Definition evaluated_turns (now : Z) (results : list json) (st : State)
  : State :=
  fold_left (fun acc result => fst (handleSubmit_evaluated now result acc))
    results st.

End Component.

Arguments problemId {CB} _.
Arguments problemText {CB} _.
Arguments isMasteryCheck {CB} _.
Arguments onCorrectAnswer {CB} _.
Arguments onMasteryFailed {CB} _.
Arguments mkProps {CB} _ _ _ _ _.
Arguments mounted : clear implicits.

End TutorChat.

(* ================================================================== *)
(** ** [app/page.tsx] *)

Module Home.
Import JS Types.

Inductive CelebrationType : Type := mastery_passed | mastery_failed.

Record State : Type := mkState {
  currentProblem : option Problem;
  originalProblem : option Problem;
  isMasteryCheck : bool;
  showMasteryCheckModal : bool;
  showCelebrationModal : bool;
  celebrationType : CelebrationType;
  isGeneratingMastery : bool
}.

Definition initial : State :=
  mkState None None false false false mastery_passed false.

(** The final statuses an attempt can be stored with
    ([updateProblemAttempt] of [lib/db]). *)
Inductive FinalStatus : Type := mastered | incomplete | struggling.

(** What a handler does to the outside: the requests it sends, what it
    logs, and the writes of the persistence layer ([createProblemAttempt]
    and [updateProblemAttempt] of [lib/db]), which are the only code of
    the repository that creates an attempt record or sets its
    [final_status]. *)
Inductive Effect : Type :=
| FetchGenerateSimilar (problem_id : string) (count : Z)
    (difficulty_adjustment : string)
| FetchEvaluate (request : Evaluate.EvaluateBody)
| ConsoleError (line : string)
| CreateProblemAttempt (problemId : string) (isMasteryCheck : bool)
| UpdateProblemAttempt (final_status : FinalStatus).

Definition is_generation (e : Effect) : bool :=
  match e with
  | FetchGenerateSimilar _ _ _ => true
  | _ => false
  end.

Definition is_solution_request (e : Effect) : bool :=
  match e with
  | FetchEvaluate request => Evaluate.request_solution request
  | _ => false
  end.


Definition handleProblemSelected (problem : Problem) (st : State) : State :=
  mkState (Some problem) None false false false (celebrationType st)
    (isGeneratingMastery st).

Definition handleOriginalCorrectAnswer (st : State) : State :=
  mkState (currentProblem st) (originalProblem st) (isMasteryCheck st)
    true (showCelebrationModal st) (celebrationType st)
    (isGeneratingMastery st).

Definition handleSkipMasteryCheck (st : State) : State :=
  mkState None None (isMasteryCheck st) false (showCelebrationModal st)
    (celebrationType st) (isGeneratingMastery st).

Definition handleMasteryCorrectAnswer (st : State) : State :=
  mkState (currentProblem st) (originalProblem st) (isMasteryCheck st)
    (showMasteryCheckModal st) true mastery_passed (isGeneratingMastery st).

Definition handleMasteryFailed (st : State) : State :=
  mkState (currentProblem st) (originalProblem st) (isMasteryCheck st)
    (showMasteryCheckModal st) true mastery_failed (isGeneratingMastery st).

Definition handleCelebrationContinue (st : State) : State :=
  mkState None None false (showMasteryCheckModal st) false
    (celebrationType st) (isGeneratingMastery st).

Definition handleTryAnother (st : State) : State :=
  mkState None None false false false (celebrationType st)
    (isGeneratingMastery st).

(** The body of the response of [/api/generate-similar] as the page
    reads it: [result.problems], [None] when the property is missing. *)
Record GenerateResult : Type := mkGenerateResult {
  problems : option (list Problem)
}.

(** What [await fetch('/api/generate-similar')] followed by
    [await response.json()] gives; the body is [None] when it cannot be
    read. *)
Inductive GenerateOutcome : Type :=
| GenerateRejects
| GenerateResponse (ok : bool) (body : option GenerateResult).

(** [handleStartMasteryCheck] up to its [await].  [currentProblem!.id]
    is read inside the [try] block: without a current problem the read
    throws and no request is sent. *)
Definition handleStartMasteryCheck_begin (st : State)
  : State * list Effect :=
  let st1 :=
    mkState (currentProblem st) (originalProblem st) (isMasteryCheck st)
      false (showCelebrationModal st) (celebrationType st) true in
  (st1,
   match currentProblem st with
   | Some p => [FetchGenerateSimilar (id p) 1 "same"]
   | None => []
   end).

(** The [catch] block. *)
Definition handleStartMasteryCheck_catch (st : State) : State * list Effect :=
  (mkState None (originalProblem st) (isMasteryCheck st)
     (showMasteryCheckModal st) (showCelebrationModal st)
     (celebrationType st) (isGeneratingMastery st),
   [ConsoleError "Error generating mastery check:"]).

(** The first problem of a usable response, if the response is one. *)
Definition first_problem (r : GenerateOutcome) : option Problem :=
  match r with
  | GenerateResponse true (Some result) =>
      match problems result with
      | Some (masteryProblem :: _) => Some masteryProblem
      | _ => None
      end
  | _ => None
  end.

(** [handleStartMasteryCheck] from the point where the call resolves;
    [captured] is the [currentProblem] of the render in which the
    handler was created. *)
Definition handleStartMasteryCheck_resume (captured : option Problem)
    (r : GenerateOutcome) (st : State) : State * list Effect :=
  let '(st', effects) :=
    match captured, first_problem r with
    | Some _, Some masteryProblem =>
        (mkState (Some masteryProblem) captured true
           (showMasteryCheckModal st) (showCelebrationModal st)
           (celebrationType st) (isGeneratingMastery st), [])
    | _, _ => handleStartMasteryCheck_catch st
    end in
  (mkState (currentProblem st') (originalProblem st') (isMasteryCheck st')
     (showMasteryCheckModal st') (showCelebrationModal st')
     (celebrationType st') false,
   effects).

(** The whole handler. *)
Definition handleStartMasteryCheck (r : GenerateOutcome) (st : State)
  : State * list Effect :=
  let '(st1, sent) := handleStartMasteryCheck_begin st in
  let '(st2, logged) :=
    handleStartMasteryCheck_resume (currentProblem st) r st1 in
  (st2, sent ++ logged).

(** The callbacks the page hands to [TutorChat]. *)
Inductive Callback : Type :=
| OriginalCorrectAnswer
| MasteryCorrectAnswer
| MasteryFailed.

Definition call (cb : Callback) (st : State) : State :=
  match cb with
  | OriginalCorrectAnswer => handleOriginalCorrectAnswer st
  | MasteryCorrectAnswer => handleMasteryCorrectAnswer st
  | MasteryFailed => handleMasteryFailed st
  end.

Definition call_all (cbs : list Callback) (st : State) : State :=
  fold_left (fun acc cb => call cb acc) cbs st.

(** The props of [<TutorChat ... />] in a render with state [st]. *)
Definition chat_props (problem : Problem) (st : State)
  : TutorChat.Props Callback :=
  TutorChat.mkProps (id problem) (text problem) (isMasteryCheck st)
    (Some (if isMasteryCheck st then MasteryCorrectAnswer
           else OriginalCorrectAnswer))
    (Some MasteryFailed).

(** *** The page with its chat component, its calls and its timers *)

(** A call in flight, with what the handler awaiting it holds in its
    closure.  A call of the chat belongs to the chat that made it
    ([owner]: the chats are numbered as they are mounted), and
    [handleSubmit] resumes with the props of the render in which the
    form was submitted; [handleStartMasteryCheck] resumes with the
    [currentProblem] of the render in which the learner clicked. *)
Inductive Call : Type :=
| EvaluateCall (owner : nat) (props : TutorChat.Props Callback)
| SolutionCall (owner : nat)
| GenerateCall (captured : Problem).

(** The chat component is mounted exactly while there is a current
    problem; it stays mounted, with its state, when one problem replaces
    another.  [mounts] counts the chats mounted so far, [calls] are the
    calls in flight, [timers] the callbacks handed to [setTimeout] that
    have not run yet, oldest first (they all have the same delay, so
    they run in this order). *)
Record App : Type := mkApp {
  home : State;
  chat : option TutorChat.State;
  mounts : nat;
  calls : list Call;
  timers : list Callback
}.

Definition start : App := mkApp initial None 0 [] [].

(** What can happen, one event at a time and in any order: the picker
    hands over a problem (it does so when its own request resolves,
    which can be long after the picker is gone, since a second request
    can be sent with the Enter key while the first is in flight); the
    learner types, submits, asks for the solution or clicks a button
    that is rendered; the call at position [i] of the calls in flight
    resolves; the oldest timer runs. *)
Inductive Event : Type :=
| SelectProblem (problem : Problem)
| ChatType (s : string)
| ChatSubmit (now : Z)
| ChatShowSolution
| EvaluateResolves (i : nat) (now : Z) (r : TutorChat.FetchOutcome)
| GenerateResolves (i : nat) (r : GenerateOutcome)
| TimerFires
| ClickStartMasteryCheck
| ClickSkip
| ClickCelebrationContinue
| ClickTryAnother.

(** Mounting and unmounting after a change of the page state. *)
Definition reconcile (h : State) (a : App) : App :=
  match currentProblem h, chat a with
  | None, _ => mkApp h None (mounts a) (calls a) (timers a)
  | Some _, Some st => mkApp h (Some st) (mounts a) (calls a) (timers a)
  | Some _, None =>
      mkApp h (Some TutorChat.initial) (S (mounts a)) (calls a) (timers a)
  end.

Definition with_chat (st : TutorChat.State) (a : App) : App :=
  mkApp (home a) (Some st) (mounts a) (calls a) (timers a).

Definition add_call (c : Call) (a : App) : App :=
  mkApp (home a) (chat a) (mounts a) (calls a ++ [c]) (timers a).

Definition drop_call (i : nat) (a : App) : App :=
  mkApp (home a) (chat a) (mounts a)
    (firstn i (calls a) ++ skipn (S i) (calls a)) (timers a).

Definition add_timers (cbs : list Callback) (a : App) : App :=
  mkApp (home a) (chat a) (mounts a) (calls a) (timers a ++ cbs).

(** The state of chat number [owner], while that chat is the one
    mounted.  The state updates of a component that has been unmounted
    are dropped. *)
Definition mounted_chat (owner : nat) (a : App) : option TutorChat.State :=
  if Nat.eqb owner (mounts a) then chat a else None.

Definition step (ev : Event) (a : App) : App * list Effect :=
  let h := home a in
  match ev with
  | SelectProblem problem =>
      (reconcile (handleProblemSelected problem h) a, [])
  | ChatType s =>
      match chat a with
      | Some st =>
          if TutorChat.input_disabled st then (a, [])
          else (with_chat (TutorChat.set_input s st) a, [])
      | None => (a, [])
      end
  | ChatSubmit now =>
      match currentProblem h, chat a with
      | Some problem, Some st =>
          let props := chat_props problem h in
          match TutorChat.handleSubmit_begin Callback props now st with
          | Return (st1, Some request) =>
              (add_call (EvaluateCall (mounts a) props) (with_chat st1 a),
               [FetchEvaluate request])
          | _ => (a, [])
          end
      | _, _ => (a, [])
      end
  | ChatShowSolution =>
      match currentProblem h, chat a with
      | Some problem, Some st =>
          if TutorChat.solution_button_enabled st
          then
            let '(st1, request) :=
              TutorChat.handleShowSolution_begin Callback
                (chat_props problem h) st in
            (add_call (SolutionCall (mounts a)) (with_chat st1 a),
             [FetchEvaluate request])
          else (a, [])
      | _, _ => (a, [])
      end
  | EvaluateResolves i now r =>
      match nth_error (calls a) i with
      | Some (EvaluateCall owner props) =>
          match mounted_chat owner a with
          | Some st =>
              let '(st1, cbs) :=
                TutorChat.handleSubmit_resume Callback props now r st in
              (add_timers cbs (with_chat st1 (drop_call i a)), [])
          | None =>
              (* the handler still runs to its end and schedules its
                 callbacks, which do not depend on the state *)
              (add_timers
                 (snd (TutorChat.handleSubmit_resume Callback props now r
                         TutorChat.initial))
                 (drop_call i a), [])
          end
      | Some (SolutionCall owner) =>
          match mounted_chat owner a with
          | Some st =>
              let '(st1, cbs) :=
                TutorChat.handleShowSolution_resume Callback now r st in
              (add_timers cbs (with_chat st1 (drop_call i a)), [])
          | None => (drop_call i a, [])
          end
      | _ => (a, [])
      end
  | GenerateResolves i r =>
      match nth_error (calls a) i with
      | Some (GenerateCall captured) =>
          let '(h', effects) :=
            handleStartMasteryCheck_resume (Some captured) r h in
          (reconcile h' (drop_call i a), effects)
      | _ => (a, [])
      end
  | TimerFires =>
      match timers a with
      | cb :: rest =>
          (reconcile (call cb h)
             (mkApp h (chat a) (mounts a) (calls a) rest), [])
      | [] => (a, [])
      end
  | ClickStartMasteryCheck =>
      if showMasteryCheckModal h
      then
        match currentProblem h with
        | Some p =>
            let '(h1, sent) := handleStartMasteryCheck_begin h in
            (add_call (GenerateCall p) (reconcile h1 a), sent)
        | None =>
            (* [currentProblem!.id] throws before anything is awaited:
               the handler runs to its end at once *)
            let '(h', effects) := handleStartMasteryCheck GenerateRejects h in
            (reconcile h' a, effects)
        end
      else (a, [])
  | ClickSkip =>
      if showMasteryCheckModal h
      then (reconcile (handleSkipMasteryCheck h) a, [])
      else (a, [])
  | ClickCelebrationContinue =>
      if showCelebrationModal h
      then (reconcile (handleCelebrationContinue h) a, [])
      else (a, [])
  | ClickTryAnother =>
      match currentProblem h with
      | Some _ =>
          if isMasteryCheck h then (a, [])
          else (reconcile (handleTryAnother h) a, [])
      | None => (a, [])
      end
  end.

(** Running a sequence of events, collecting the effects. *)
Fixpoint run (evs : list Event) (a : App) : App * list Effect :=
  match evs with
  | [] => (a, [])
  | ev :: rest =>
      let '(a1, e1) := step ev a in
      let '(a2, e2) := run rest a1 in
      (a2, e1 ++ e2)
  end.

(** A callback of an attempt outside a mastery check. *)
Definition of_original (cb : Callback) : bool :=
  match cb with
  | OriginalCorrectAnswer => true
  | _ => false
  end.

(** One of the callbacks a call in flight can still schedule is one of
    an attempt outside a mastery check. *)
Definition holds_original (c : Call) : bool :=
  match c with
  | EvaluateCall _ props =>
      existsb of_original
        (match TutorChat.onMasteryFailed props with
         | Some cb => [cb]
         | None => []
         end
         ++ match TutorChat.onCorrectAnswer props with
            | Some cb => [cb]
            | None => []
            end)
  | _ => false
  end.

(** A mastery check that is running with the offer closed and with
    nothing left over from before it began: no timer and no call in
    flight holds [handleOriginalCorrectAnswer]. *)
Definition clean_mastery_check (a : App) : Prop :=
  isMasteryCheck (home a) = true
  /\ showMasteryCheckModal (home a) = false
  /\ existsb of_original (timers a) = false
  /\ existsb holds_original (calls a) = false.

(** The page is in a mastery check after each of the events [evs]. *)
Fixpoint lasting (evs : list Event) (a : App) : Prop :=
  match evs with
  | [] => True
  | ev :: rest =>
      isMasteryCheck (home (fst (step ev a))) = true
      /\ lasting rest (fst (step ev a))
  end.

End Home.

(* ================================================================== *)
(** ** The client and the server together *)

Module System.
Import JS Srv Types.

(** The attempt as the browser holds it (the page and the chat
    component: conversation, hint counter, solution offer), and the
    server side. *)
Record System : Type := mkSystem {
  page : Home.State;
  attempt : TutorChat.State;
  server : World
}.

Section WithCollaborators.

Variable openai_create : nat -> Prompt -> LlmOutcome.
Variable JSON_parse : string -> option json.
Variable getProblemById : string -> M (option Problem).
Variable getStudentAge : M (option Z).

(** [fetch('/api/evaluate', ...)] answered by the route. *)
Definition evaluate_call (request : Evaluate.EvaluateBody) (w : World)
  : TutorChat.FetchOutcome * World :=
  match Evaluate.POST openai_create JSON_parse getProblemById getStudentAge
          request w with
  | (Return response, w') => (TutorChat.of_http response, w')
  | (Throw _, w') => (TutorChat.FetchRejects, w')
  end.

Section Chat.

Variable CB : Type.
Variable props : TutorChat.Props CB.

(** A submission of the learner, answered by the route. *)
Definition chat_submit (now : Z) (sys : System) : System * list CB :=
  match TutorChat.handleSubmit_begin CB props now (attempt sys) with
  | Return (st1, Some request) =>
      let '(r, w') := evaluate_call request (server sys) in
      let '(st2, timers) := TutorChat.handleSubmit_resume CB props now r st1 in
      (mkSystem (page sys) st2 w', timers)
  | _ => (sys, [])
  end.

(** A click on the solution button, answered by the route. *)
Definition chat_show_solution (now : Z) (sys : System) : System * list CB :=
  let '(st1, request) :=
    TutorChat.handleShowSolution_begin CB props (attempt sys) in
  let '(r, w') := evaluate_call request (server sys) in
  let '(st2, timers) := TutorChat.handleShowSolution_resume CB now r st1 in
  (mkSystem (page sys) st2 w', timers).

End Chat.

(** A call of [diagnoseStudent]: it is handed the request and runs on
    the server. *)
Definition diagnose (request : Diagnose.DiagnosticRequest) (sys : System)
  : Completion json * System :=
  let '(c, w') :=
    Diagnose.diagnoseStudent openai_create JSON_parse request (server sys) in
  (c, mkSystem (page sys) (attempt sys) w').

End WithCollaborators.

End System.

(* ================================================================== *)
(** ** Concrete data *)

Module Sample.
Import JS Srv Types.

Definition problem : Problem := mkProblem "problem_00001" "Add 111 to 678.".

Definition sibling : Problem := mkProblem "generated" "Add 222 to 345.".

(** A model that cannot be reached, and a model that always says [s]. *)
Definition model_down : nat -> Prompt -> LlmOutcome := fun _ _ => LlmThrows.

Definition model_says (s : string) : nat -> Prompt -> LlmOutcome :=
  fun _ _ => LlmContent (Some s).

(** [JSON.parse] on the texts used below; it throws on any other. *)
Definition parse (s : string) : option json :=
  if String.eqb s "{}" then Some (JObj [])
  else if String.eqb s "null" then Some JNull
  else None.

Definition store (id : string) : M (option Problem) :=
  ret (if String.eqb id "problem_00001" then Some problem else None).

Definition no_session : M (option Z) := ret None.

Definition world0 : World := mkWorld 0 [].

(** A chat on the original problem, as the page renders it. *)
Definition original_props : TutorChat.Props Home.Callback :=
  Home.chat_props problem Home.initial.

(** A page in a mastery check on [sibling]. *)
Definition in_mastery_check : Home.State :=
  Home.mkState (Some sibling) (Some problem) true false false
    Home.mastery_passed false.

(** Results of the evaluation call. *)
Definition result (response_type badge : string) (offer : bool) : json :=
  JObj [ ("response_type", JStr response_type);
         ("tutor_message", JStr "Think about the place values.");
         ("badge_type", JStr badge);
         ("show_solution_button", JBool offer) ].

Definition answered (body : json) : TutorChat.FetchOutcome :=
  TutorChat.of_http (Evaluate.mkHttpResponse 200 body).

(** The learner types an answer and sends it, and the call resolves
    with [body]. *)
Definition turn (now : Z) (body : json) : list TutorChat.Event :=
  [ TutorChat.TypeInput "500"; TutorChat.Submit now;
    TutorChat.Resolve (now + 5) (answered body) ].

(** The learner solves the original problem, the offer opens, and the
    learner starts the mastery check; [r] is what the generation call
    resolves with. *)
Definition solve_then_start (r : Home.GenerateOutcome) : list Home.Event :=
  [ Home.SelectProblem problem;
    Home.ChatType "789";
    Home.ChatSubmit 10;
    Home.EvaluateResolves 0 15
      (answered (result "correct_final" "partial_progress" false));
    Home.TimerFires;
    Home.ClickStartMasteryCheck;
    Home.GenerateResolves 0 r ].

Definition generated : Home.GenerateOutcome :=
  Home.GenerateResponse true (Some (Home.mkGenerateResult (Some [sibling]))).

(** The generation route answered with an error status. *)
Definition generation_failed : Home.GenerateOutcome :=
  Home.GenerateResponse false None.

(** In the mastery check, the learner sends an answer and the result
    carries [show_solution_button]. *)
Definition gate_opens_in_mastery_check : list Home.Event :=
  solve_then_start generated
  ++ [ Home.ChatType "500";
       Home.ChatSubmit 30;
       Home.EvaluateResolves 0 35
         (answered (result "needs_hint" "hint_given" true));
       Home.TimerFires ].

(** The learner solves the original problem and, before the offer
    opens, sends the answer once more; the offer opens, the learner
    starts the mastery check and the generation call resolves; only
    then does the second evaluation call resolve, and its delayed
    callback runs. *)
Definition late_reply_in_mastery_check : list Home.Event :=
  [ Home.SelectProblem problem;
    Home.ChatType "789";
    Home.ChatSubmit 10;
    Home.EvaluateResolves 0 15
      (answered (result "correct_final" "partial_progress" false));
    Home.ChatType "789";
    Home.ChatSubmit 16;
    Home.TimerFires;
    Home.ClickStartMasteryCheck;
    Home.GenerateResolves 1 generated;
    Home.EvaluateResolves 0 40
      (answered (result "correct_final" "partial_progress" false));
    Home.TimerFires ].

Definition second_sibling : Problem :=
  mkProblem "generated again" "Add 333 to 456.".

(** The learner solves the problem and clicks 'Choose Different Problem'
    before the delayed callback runs. *)
Definition leaves_before_the_offer : list Home.Event :=
  [ Home.SelectProblem problem;
    Home.ChatType "789";
    Home.ChatSubmit 10;
    Home.EvaluateResolves 0 15
      (answered (result "correct_final" "partial_progress" false));
    Home.ClickTryAnother;
    Home.TimerFires ].

Definition fallback_turns (n : nat) : list TutorChat.Event :=
  List.concat (map (fun i => turn (Z.of_nat i * 10) Evaluate.fallback) (seq 1 n)).

End Sample.

(* ================================================================== *)
(** ** [lib/llm/generate-similar.ts] and the route [POST /api/generate-similar] *)

Module GenerateSimilar.
Import JS Srv Types.
Local Open Scope srv_scope.

Inductive Difficulty : Type := easier | same | harder.

Definition difficulty_name (d : Difficulty) : string :=
  match d with
  | easier => "easier"
  | same => "same"
  | harder => "harder"
  end.

Record GenerateSimilarRequest : Type := mkGenerateSimilarRequest {
  original_problem : Problem;
  count : Z;
  difficulty_adjustment : option Difficulty
}.

(** [Array.isArray(v)] *)
Definition isArray (v : value) : bool :=
  match v with
  | Some (JArr _) => true
  | _ => false
  end.

(** The keys the generator looks under, in this order. *)
Definition possibleKeys : list string :=
  [ "problems"; "similar_problems"; "generated_problems"; "items"; "data" ].

(** The own properties of an object, each key once (the first binding
    of a key is the property), in the order the fields are listed. *)
Fixpoint own_properties (fields : list (string * json))
  : list (string * json) :=
  match fields with
  | [] => []
  | (k, v) :: rest =>
      (k, v) :: filter (fun kv => negb (String.eqb (fst kv) k))
                  (own_properties rest)
  end.

(** [Object.values(parsed)] *)
Definition values (fields : list (string * json)) : list json :=
  map snd (own_properties fields).

(** The loop over [possibleKeys]: the value under the first key that
    holds an array. *)
Fixpoint first_keyed_array (keys : list string)
    (fields : list (string * json)) : option (list json) :=
  match keys with
  | [] => None
  | key :: rest =>
      match assoc key fields with
      | Some (JArr items) => Some items
      | _ => first_keyed_array rest fields
      end
  end.

(** [values.find(v => Array.isArray(v))] *)
Fixpoint first_array (vs : list json) : option (list json) :=
  match vs with
  | [] => None
  | JArr items :: _ => Some items
  | _ :: rest => first_array rest
  end.

(** Where the array of problems is taken from in the parsed response:
    [Throw] when reading a key of [null] throws, [None] when no array is
    found. *)
Definition find_problems_array (parsed : json)
  : Completion (option (list json)) :=
  match parsed with
  | JArr items => Return (Some items)
  | JNull => Throw "TypeError"
  | JObj fields =>
      match first_keyed_array possibleKeys fields with
      | Some items => Return (Some items)
      | None => Return (first_array (values fields))
      end
  | _ => Return None
  end.

(** The test of the validation loop, negated: the problem has a text,
    an expected answer and an explanation. *)
Definition valid_problem (problem : json) : bool :=
  (truthy (get "text" problem)
   && truthy (get "expected_answer" problem)
   && truthy (get "explanation" problem))%bool.

(** The validation loop: it stops at the first problem that is [null]
    (reading its text throws) or lacks one of the three properties. *)
Fixpoint validate (problems : list json) : Completion unit :=
  match problems with
  | [] => Return tt
  | JNull :: _ => Throw "TypeError"
  | problem :: rest =>
      if valid_problem problem then validate rest
      else Throw "Invalid problem structure in response"
  end.

(** [items.slice(0, count)] for an integer [count]. *)
Definition slice0 (items : list json) (count : Z) : list json :=
  if count <? 0
  then firstn (Z.to_nat (Z.max 0 (Z.of_nat (List.length items) + count))) items
  else firstn (Z.to_nat count) items.

Section WithCollaborators.

(** The model asked for problems (the outcome of its [n]-th call, asked
    with the request), [JSON.parse], and the problem store. *)
Variable openai_create : nat -> GenerateSimilarRequest -> LlmOutcome.
Variable JSON_parse : string -> option json.
Variable getProblemById : string -> M (option Problem).

(** One call to the model. *)
Definition call_model (request : GenerateSimilarRequest) : M (option string) :=
  fun w =>
    let w' := {| llm_calls := S (llm_calls w);
                 console_error := console_error w |} in
    match openai_create (llm_calls w) request with
    | LlmThrows => (Throw "openai", w')
    | LlmContent c => (Return c, w')
    end.

(** The [try] block of [generateSimilarProblems]. *)
Definition generateSimilarProblems_try (request : GenerateSimilarRequest)
  : M (list json) :=
  responseText <- call_model request ;;
  match responseText with
  | None => throw "Empty response from OpenAI"
  | Some s =>
      if String.eqb s "" then throw "Empty response from OpenAI"
      else
        match JSON_parse s with
        | None => throw "SyntaxError"
        | Some parsed =>
            match find_problems_array parsed with
            | Throw msg => throw msg
            | Return None =>
                log_error "Unable to parse GPT response:" ;;;
                throw "Response does not contain an array of problems"
            | Return (Some []) =>
                log_error "Unable to parse GPT response:" ;;;
                throw "Response does not contain an array of problems"
            | Return (Some problems) =>
                match validate problems with
                | Throw msg => throw msg
                | Return _ => ret (slice0 problems (count request))
                end
            end
        end
  end.

(** [generateSimilarProblems]: the [catch] block logs and throws
    again. *)
Definition generateSimilarProblems (request : GenerateSimilarRequest)
  : M (list json) :=
  try_catch (generateSimilarProblems_try request)
    (fun error =>
       log_error "Error generating similar problems:" ;;;
       throw (String.append "Failed to generate similar problems: " error)).

(** The body of a request to the route; [count] is [None] when the
    property is missing. *)
Record GenerateBody : Type := mkGenerateBody {
  problem_id : string;
  body_count : option Z;
  body_difficulty : option Difficulty
}.

(** [body.count || 3] *)
Definition effective_count (b : GenerateBody) : Z :=
  match body_count b with
  | None => 3
  | Some c => if c =? 0 then 3 else c
  end.

(** [body.difficulty_adjustment || 'same'] *)
Definition effective_difficulty (b : GenerateBody) : Difficulty :=
  match body_difficulty b with
  | None => same
  | Some d => d
  end.

(** The route. *)
Definition POST (b : GenerateBody) : M Evaluate.HttpResponse :=
  try_catch
    (if String.eqb (problem_id b) ""
     then ret (Evaluate.mkHttpResponse 400
                 (Evaluate.error_body "Missing required field: problem_id"))
     else if ((effective_count b <? 1) || (5 <? effective_count b))%bool
     then ret (Evaluate.mkHttpResponse 400
                 (Evaluate.error_body "count must be between 1 and 5"))
     else
       originalProblem <- getProblemById (problem_id b) ;;
       match originalProblem with
       | None =>
           ret (Evaluate.mkHttpResponse 404
                  (Evaluate.error_body "Problem not found"))
       | Some originalProblem =>
           generatedProblems <-
             generateSimilarProblems
               (mkGenerateSimilarRequest originalProblem (effective_count b)
                  (Some (effective_difficulty b))) ;;
           ret (Evaluate.mkHttpResponse 200
                  (JObj [ ("original_problem_id", JStr (problem_id b));
                          ("count",
                           JNum (Z.of_nat (List.length generatedProblems)));
                          ("difficulty_adjustment",
                           JStr (difficulty_name (effective_difficulty b)));
                          ("problems", JArr generatedProblems) ]))
       end)
    (fun error =>
       log_error "Generate similar API error:" ;;;
       ret (Evaluate.mkHttpResponse 500
              (JObj [ ("error", JStr "Internal server error");
                      ("message", JStr error) ]))).

End WithCollaborators.

(** The request [handleStartMasteryCheck] of the page sends for the
    problem with this id. *)
Definition mastery_request (id : string) : GenerateBody :=
  mkGenerateBody id (Some 1) (Some same).

End GenerateSimilar.

(* ================================================================== *)
(** ** [getRecommendedPractice] and the route [POST /api/diagnose] *)

Module DiagnoseRoute.
Import JS Srv Types.
Local Open Scope srv_scope.

(** What [getRecommendedPractice] returns without asking the model. *)
Definition keep_going : json :=
  JArr [ JStr "Continue with similar problems to build confidence";
         JStr "Try slightly harder problems to advance" ].

Section WithCollaborators.

(** The model asked for a diagnostic, the model asked for practice
    recommendations (with the diagnostic and the problem), [JSON.parse]
    and the problem store. *)
Variable openai_create : nat -> Prompt -> LlmOutcome.
Variable openai_practice : nat -> json -> Problem -> LlmOutcome.
Variable JSON_parse : string -> option json.
Variable getProblemById : string -> M (option Problem).

Definition call_practice (diagnostic : json) (originalProblem : Problem)
  : M (option string) :=
  fun w =>
    let w' := {| llm_calls := S (llm_calls w);
                 console_error := console_error w |} in
    match openai_practice (llm_calls w) diagnostic originalProblem with
    | LlmThrows => (Throw "openai", w')
    | LlmContent c => (Return c, w')
    end.

(** [getRecommendedPractice].  The first test reads a property of
    [diagnostic] outside the [try] block. *)
Definition getRecommendedPractice (diagnostic : json)
    (originalProblem : Problem) : M value :=
  match diagnostic with
  | JNull => throw "TypeError"
  | _ =>
      if (is_str (get "misconception_type" diagnostic) "none"
          || is_str (get "misconception_type" diagnostic) "careless_error")%bool
      then ret (Some keep_going)
      else
        try_catch
          (responseText <- call_practice diagnostic originalProblem ;;
           match responseText with
           | None => ret (get "recommendations" diagnostic)
           | Some s =>
               if String.eqb s "" then ret (get "recommendations" diagnostic)
               else
                 match JSON_parse s with
                 | None => throw "SyntaxError"
                 | Some JNull => throw "TypeError"
                 | Some parsed =>
                     ret (or_else (get "recommendations" parsed)
                            (get "recommendations" diagnostic))
                 end
           end)
          (fun error =>
             log_error "Error getting practice recommendations:" ;;;
             ret (get "recommendations" diagnostic))
  end.

(** The body of a request to the route; a property that is missing is
    [None]. *)
Record DiagnoseBody : Type := mkDiagnoseBody {
  problem_id : string;
  conversation_history : option (list Message);
  student_answers : option (list string);
  hints_given : option Z;
  get_practice_recommendations : bool
}.

(** The properties of a response body; one that is [undefined] is left
    out of the JSON. *)
Definition with_optional (fields : list (string * json)) (k : string)
    (v : value) : list (string * json) :=
  match v with
  | Some j => fields ++ [(k, j)]
  | None => fields
  end.

(** The route. *)
Definition POST (b : DiagnoseBody) : M Evaluate.HttpResponse :=
  try_catch
    (match student_answers b with
     | Some (first :: others) =>
         if String.eqb (problem_id b) ""
         then ret (Evaluate.mkHttpResponse 400
                     (Evaluate.error_body
                        "Missing required fields: problem_id, student_answers"))
         else
           let answers := first :: others in
           problem <- getProblemById (problem_id b) ;;
           match problem with
           | None =>
               ret (Evaluate.mkHttpResponse 404
                      (Evaluate.error_body "Problem not found"))
           | Some problem =>
               let diagnosticRequest :=
                 Diagnose.mkDiagnosticRequest problem
                   (match conversation_history b with
                    | Some h => h
                    | None => []
                    end)
                   answers
                   (match hints_given b with
                    | Some h => h
                    | None => 0
                    end)
                   (Z.of_nat (List.length answers)) in
               diagnostic <-
                 Diagnose.diagnoseStudent openai_create JSON_parse
                   diagnosticRequest ;;
               practiceRecommendations <-
                 (if get_practice_recommendations b
                  then getRecommendedPractice diagnostic problem
                  else ret None) ;;
               ret (Evaluate.mkHttpResponse 200
                      (JObj (with_optional
                               [ ("problem_id", JStr (problem_id b));
                                 ("attempts_analyzed",
                                  JNum (Z.of_nat (List.length answers)));
                                 ("diagnostic", diagnostic) ]
                               "practice_recommendations"
                               practiceRecommendations)))
           end
     | _ =>
         ret (Evaluate.mkHttpResponse 400
                (Evaluate.error_body
                   "Missing required fields: problem_id, student_answers"))
     end)
    (fun error =>
       log_error "Diagnose API error:" ;;;
       ret (Evaluate.mkHttpResponse 500
              (JObj [ ("error", JStr "Internal server error");
                      ("message", JStr error) ]))).

End WithCollaborators.

End DiagnoseRoute.

(* ================================================================== *)
(** ** The badges of [components/TutorChat.tsx] *)

Module Badge.
Import JS.

(** [getBadgeColor]: the classes of the pill. *)
Definition getBadgeColor (badgeType : value) : string :=
  if is_str badgeType "partial_progress"
  then "bg-green-100 text-green-800 border-green-200"
  else if is_str badgeType "hint_given"
  then "bg-yellow-100 text-yellow-800 border-yellow-200"
  else if is_str badgeType "corrective_feedback"
  then "bg-blue-100 text-blue-800 border-blue-200"
  else "".

(** [getBadgeLabel]: the text of the pill. *)
Definition getBadgeLabel (badgeType : value) : string :=
  if is_str badgeType "partial_progress" then "Great Progress!"
  else if is_str badgeType "hint_given" then "Hint"
  else if is_str badgeType "corrective_feedback" then "Let's Try This"
  else "".

(** [message.badge_type && (...)]: the pill is rendered. *)
Definition badge_rendered (m : TutorChat.ChatMessage) : bool :=
  truthy (TutorChat.badge_type m).

(** The badge is one of the three the component has a label for. *)
Definition known_badge (badgeType : value) : bool :=
  (is_str badgeType "partial_progress"
   || is_str badgeType "hint_given"
   || is_str badgeType "corrective_feedback")%bool.

End Badge.

(* ================================================================== *)
(** ** What an evaluation or a diagnostic that is returned holds *)

Module Contract.
Import JS.

(** The three properties [evaluateAnswer] tests for. *)
Definition complete_evaluation (evaluation : json) : bool :=
  (truthy (get "response_type" evaluation)
   && truthy (get "tutor_message" evaluation)
   && truthy (get "badge_type" evaluation))%bool.

(** The three properties [diagnoseStudent] tests for. *)
Definition complete_diagnostic (diagnostic : json) : bool :=
  (truthy (get "misconception_type" diagnostic)
   && truthy (get "confidence" diagnostic)
   && truthy (get "description" diagnostic))%bool.

End Contract.

(* ================================================================== *)
(** ** The page asking the generation route *)

Module MasteryFlow.
Import JS Srv Types.

Section WithCollaborators.

Variable openai_create
  : nat -> GenerateSimilar.GenerateSimilarRequest -> LlmOutcome.
Variable JSON_parse : string -> option json.
Variable getProblemById : string -> M (option Problem).

(** How the page reads the body of the response as a result with its
    [problems]; [None] when the body cannot be read. *)
Variable read_result : json -> option Home.GenerateResult.



End WithCollaborators.


End MasteryFlow.

(* ================================================================== *)
(** ** What the page keeps true *)

Module PageInvariant.
Import Home.

(** The call was made by chat number [owner]. *)
Definition made_by (owner : nat) (c : Call) : bool :=
  match c with
  | EvaluateCall o _ | SolutionCall o => Nat.eqb o owner
  | GenerateCall _ => false
  end.

(** The calls in flight of the chat that is mounted. *)
Definition own_calls (a : App) : list Call :=
  filter (made_by (mounts a)) (calls a).

(** The call was made by one of the first [n] chats. *)
Definition owner_known (n : nat) (c : Call) : Prop :=
  match c with
  | EvaluateCall o _ | SolutionCall o => (o <= n)%nat
  | GenerateCall _ => True
  end.

Definition is_generate (c : Call) : bool :=
  match c with
  | GenerateCall _ => true
  | _ => false
  end.

(** The relations between the page, its chat and the calls in flight
    that hold in every state, whatever the order in which calls resolve
    and timers run. *)
Record consistent (a : App) : Prop := mkConsistent {
  chat_mounted :
    chat a = None <-> currentProblem (home a) = None;
  calls_known :
    Forall (owner_known (mounts a)) (calls a);
  one_call_per_chat :
    forall st, chat a = Some st ->
      (own_calls a = [] /\ TutorChat.isLoading st = false)
      \/ (exists c, own_calls a = [c] /\ TutorChat.isLoading st = true);
  original_in_mastery :
    originalProblem (home a) <> None -> isMasteryCheck (home a) = true;
  overlay_has_call :
    isGeneratingMastery (home a) = true ->
    existsb is_generate (calls a) = true
}.

End PageInvariant.

(* ================================================================== *)
(** ** The chapters of a class: [GET /api/problems/chapters] and
       [getChaptersByClass] of [lib/db/problems.ts] *)

Module Chapters.
Import JS Srv.
Local Open Scope srv_scope.

(** [[...new Set(xs)]]: each value once, in the order of the first
    occurrences. *)
Fixpoint unique (xs : list Z) : list Z :=
  match xs with
  | [] => []
  | x :: rest => x :: filter (fun y => negb (y =? x)) (unique rest)
  end.

Fixpoint insert (x : Z) (sorted : list Z) : list Z :=
  match sorted with
  | [] => [x]
  | y :: rest => if x <=? y then x :: sorted else y :: insert x rest
  end.

(** [xs.sort((a, b) => a - b)]: the values in ascending order. *)
Fixpoint sort (xs : list Z) : list Z :=
  match xs with
  | [] => []
  | x :: rest => insert x (sort rest)
  end.

(** What a query of the store resolves with: an error, or the rows
    (here the chapter of each row). *)
Inductive Selected : Type :=
| SelectError (message : string)
| SelectRows (chapters : list Z).

Section WithStore.

(** The query for the rows of a class, given the class as it was
    passed. *)
Variable select_chapters : string -> M Selected.

(** The route; [classLevel] is the [class] parameter of the URL, [None]
    when it is absent. *)
Definition GET (classLevel : option string) : M Evaluate.HttpResponse :=
  try_catch
    (match classLevel with
     | None =>
         ret (Evaluate.mkHttpResponse 400
                (Evaluate.error_body "Class parameter is required"))
     | Some c =>
         if String.eqb c ""
         then ret (Evaluate.mkHttpResponse 400
                     (Evaluate.error_body "Class parameter is required"))
         else
           selected <- select_chapters c ;;
           match selected with
           | SelectError _ =>
               log_error "Chapters query error:" ;;;
               ret (Evaluate.mkHttpResponse 500
                      (Evaluate.error_body "Failed to fetch chapters"))
           | SelectRows data =>
               ret (Evaluate.mkHttpResponse 200
                      (JObj [ ("chapters",
                               JArr (map JNum (sort (unique data)))) ]))
           end
     end)
    (fun error =>
       log_error "Chapters API error:" ;;;
       ret (Evaluate.mkHttpResponse 500
              (Evaluate.error_body "Internal server error"))).

(** [getChaptersByClass]: the store is asked for the rows in ascending
    order of chapter; the function itself does not sort. *)
Definition getChaptersByClass (classNum : string) : M (list Z) :=
  selected <- select_chapters classNum ;;
  match selected with
  | SelectError _ => log_error "Error fetching chapters:" ;;; ret []
  | SelectRows data => ret (unique data)
  end.

End WithStore.

End Chapters.

(** More concrete data. *)
Module Sample2.
Import JS Srv Types.

(** A generator that cannot be reached, and a model asked for practice
    recommendations that cannot be reached. *)
Definition no_generator
  : nat -> GenerateSimilar.GenerateSimilarRequest -> LlmOutcome :=
  fun _ _ => LlmThrows.

Definition no_practice : nat -> json -> Problem -> LlmOutcome :=
  fun _ _ _ => LlmThrows.


(** A model that returns the text [s] whatever it is asked, for the
    generator, and a reader of a few texts standing for [JSON.parse]. *)
Definition generator_says (s : string)
  : nat -> GenerateSimilar.GenerateSimilarRequest -> LlmOutcome :=
  fun _ _ => LlmContent (Some s).

Definition generated_problem (text : string) : json :=
  JObj [ ("text", JStr text);
         ("expected_answer", JStr "567");
         ("explanation", JStr "Add the hundreds, the tens and the ones.");
         ("complexity", JStr "easy") ].

Definition evaluation_with_odd_type : json :=
  JObj [ ("response_type", JStr "almost_there");
         ("tutor_message", JStr "Check the tens.");
         ("badge_type", JStr "encouragement") ].

Definition parse2 (s : string) : option json :=
  if String.eqb s "<evaluation>" then Some evaluation_with_odd_type
  else if String.eqb s "<two problems>"
  then Some (JObj [ ("problems",
                     JArr [ generated_problem "Add 222 to 345.";
                            generated_problem "Add 301 to 266." ]) ])
  else if String.eqb s "<one problem without a text>"
  then Some (JObj [ ("problems",
                     JArr [ generated_problem "Add 222 to 345.";
                            JObj [ ("expected_answer", JStr "567");
                                   ("explanation", JStr "Add.") ] ]) ])
  else if String.eqb s "<empty problems, then items>"
  then Some (JObj [ ("problems", JArr []);
                    ("items", JArr [ generated_problem "Add 222 to 345." ]) ])
  else if String.eqb s "<recommendations>"
  then Some (JObj [ ("recommendations",
                     JArr [ JStr "Practise carrying over into the tens." ]) ])
  else None.

(** A model asked for practice recommendations that answers [s]. *)
Definition practice_says (s : string) : nat -> json -> Problem -> LlmOutcome :=
  fun _ _ _ => LlmContent (Some s).

Definition one_sibling : GenerateSimilar.GenerateSimilarRequest :=
  GenerateSimilar.mkGenerateSimilarRequest Sample.problem 1
    (Some GenerateSimilar.same).

(** A store of chapters that holds the rows of one class. *)
Definition rows_of_class_5 (c : string) : M Chapters.Selected :=
  ret (if String.eqb c "5" then Chapters.SelectRows [3; 1; 3; 2; 1]
       else Chapters.SelectRows []).

End Sample2.

(* ================================================================== *)
(** * Properties *)

(** ** One evaluated turn of the chat *)

Module TutorChatFacts.
Import JS Types TutorChat.

Section OneTurn.

Variable CB : Type.
Variable props : Props CB.

Lemma evaluated_state (now : Z) (result : json) (st : State) :
  fst (handleSubmit_evaluated CB props now result st) =
  mkState (messages st ++ [tutor_turn now result]) (input st) (isLoading st)
    (hintsUsed st + hint_of result)
    (offers_solution result || showSolutionButton st).
Proof.
  unfold handleSubmit_evaluated, hint_of.
  destruct st as [ms inp ld h sb]; cbn.
  destruct (hint_given result); destruct (offers_solution result); cbn;
    rewrite ?Z.add_0_r; reflexivity.
Qed.

Lemma hint_of_range (result : json) : 0 <= hint_of result <= 1.
Proof. unfold hint_of; destruct (hint_given result); lia. Qed.

(** The two ways a turn ends: evaluated, or through the [catch] block. *)
Lemma resume_cases (now : Z) (r : FetchOutcome) (st : State) :
  (exists result,
      r = FetchResponse true (Some result) /\ result <> JNull /\
      handleSubmit_resume CB props now r st =
      (set_isLoading false (fst (handleSubmit_evaluated CB props now result st)),
       snd (handleSubmit_evaluated CB props now result st)))
  \/ handleSubmit_resume CB props now r st =
     (set_isLoading false (handleSubmit_catch now st), []).
Proof.
  unfold handleSubmit_resume.
  destruct r as [ | [ | ] [ result | ] ]; auto.
  destruct result; auto; left; eexists; (split; [reflexivity | ]);
    (split; [discriminate | ]);
    destruct (handleSubmit_evaluated CB props now _ st); reflexivity.
Qed.

Lemma resume_state (now : Z) (r : FetchOutcome) (st : State) :
  exists m offered,
    fst (handleSubmit_resume CB props now r st) =
    mkState (messages st ++ [m]) (input st) false
      (hintsUsed st + (if is_str (badge_type m) "hint_given" then 1 else 0))
      (offered || showSolutionButton st)
    /\ role m = tutor.
Proof.
  destruct (resume_cases now r st) as [(result & _ & _ & E) | E]; rewrite E; cbn.
  - rewrite evaluated_state; cbn.
    exists (tutor_turn now result), (offers_solution result).
    split; reflexivity.
  - eexists (mkChatMessage _ _ _ _ None); exists false; cbn.
    rewrite Z.add_0_r. split; reflexivity.
Qed.

(** [handleSubmit] up to its [await]: ignored, or begun. *)
Lemma begin_cases (now : Z) (st : State) :
  ((String.eqb (trim (input st)) "" || isLoading st)%bool = true /\
   handleSubmit_begin CB props now st = Return (st, None))
  \/ (isLoading st = false /\
      exists m request,
        handleSubmit_begin CB props now st =
        Return (mkState (messages st ++ [m]) "" true (hintsUsed st)
                  (showSolutionButton st), Some request)
        /\ role m = student).
Proof.
  unfold handleSubmit_begin.
  destruct (String.eqb (trim (input st)) "" || isLoading st)%bool eqn:G.
  - left; auto.
  - right. apply orb_false_iff in G as [_ L]. split; [exact L | ].
    eexists; eexists; split; [ reflexivity | reflexivity ].
Qed.

Lemma begin_while_loading (now : Z) (st : State) :
  isLoading st = true ->
  handleSubmit_begin CB props now st = Return (st, None).
Proof.
  intros L; unfold handleSubmit_begin; rewrite L, orb_true_r; reflexivity.
Qed.

(** Whatever body the solution call resolves with, if it is a value
    other than [null]: one tutor turn without a badge is appended, the
    offer is switched off, the counter is kept, nothing is scheduled. *)
Lemma show_solution_any_body (now : Z) (ok : bool) (result : json)
    (st : State) :
  result <> JNull ->
  handleShowSolution_resume CB now (FetchResponse ok (Some result)) st
  = (mkState
       (messages st
        ++ [mkChatMessage now tutor
              (or_else (get "explanation" result) (get "tutor_message" result))
              now None])
       (input st) false (hintsUsed st) false,
     []).
Proof.
  intros N; unfold handleShowSolution_resume.
  destruct result; try reflexivity. congruence.
Qed.

Lemma show_solution_resume_hints (now : Z) (r : FetchOutcome) (st : State) :
  hintsUsed (fst (handleShowSolution_resume CB now r st)) = hintsUsed st.
Proof.
  unfold handleShowSolution_resume.
  destruct r as [ | ok [ [] | ] ]; reflexivity.
Qed.

(** A step of the component moves the hint counter by 0 or by 1. *)
Lemma step_hints (ev : Event) (s : Running) :
  hintsUsed (chat s) <= hintsUsed (chat (step CB props ev s))
  <= hintsUsed (chat s) + 1.
Proof.
  destruct ev as [v | now | | now r]; unfold step.
  - destruct (input_disabled (chat s)); cbn; lia.
  - destruct (begin_cases now (chat s)) as [[_ E] | (_ & m & q & E & _)];
      rewrite E; cbn; lia.
  - destruct (solution_button_enabled (chat s)); cbn; lia.
  - destruct (inflight s) as [ | [q | q] rest]; cbn [chat]; try lia.
    + destruct (resume_state now r (chat s)) as (m & o & E & _).
      rewrite E; cbn. destruct (is_str (badge_type m) "hint_given"); lia.
    + rewrite show_solution_resume_hints; lia.
Qed.

Lemma run_snoc (evs : list Event) (ev : Event) (s : Running) :
  run CB props (evs ++ [ev]) s = step CB props ev (run CB props evs s).
Proof. unfold run; rewrite fold_left_app; reflexivity. Qed.

Lemma run_hints_nonneg (evs : list Event) :
  0 <= hintsUsed (chat (run CB props evs mounted)).
Proof.
  induction evs as [ | ev evs IH] using rev_ind.
  - cbn; lia.
  - rewrite run_snoc.
    pose proof (step_hints ev (run CB props evs mounted)); lia.
Qed.

(** No sequence of events makes the hint counter go down. *)
Lemma run_hints_monotone (evs : list Event) (s : Running) :
  hintsUsed (chat s) <= hintsUsed (chat (run CB props evs s)).
Proof.
  induction evs as [ | ev evs IH] using rev_ind.
  - cbn; lia.
  - rewrite run_snoc.
    pose proof (step_hints ev (run CB props evs s)); lia.
Qed.

(** The state after a sequence of evaluated turns. *)
Lemma evaluated_turns_state (now : Z) (results : list json) (st : State) :
  evaluated_turns CB props now results st =
  mkState (messages st ++ map (tutor_turn now) results) (input st)
    (isLoading st)
    (hintsUsed st + fold_right (fun r acc => hint_of r + acc) 0 results)
    (existsb offers_solution results || showSolutionButton st).
Proof.
  unfold evaluated_turns.
  revert st; induction results as [ | result results IH]; intros st; cbn.
  - rewrite app_nil_r, Z.add_0_r. destruct st; reflexivity.
  - rewrite IH, evaluated_state; cbn.
    rewrite <- app_assoc, Z.add_assoc.
    f_equal.
    destruct (offers_solution result), (existsb offers_solution results);
      reflexivity.
Qed.

Lemma step_one_in_flight (ev : Event) (s : Running) :
  one_in_flight s -> one_in_flight (step CB props ev s).
Proof.
  intros I. destruct ev as [v | now | | now r]; unfold step.
  - unfold input_disabled.
    destruct (isLoading (chat s)) eqn:L; [exact I | ].
    destruct I as [[Q _] | (q & _ & L')]; [ | congruence].
    left; cbn; auto.
  - destruct (begin_cases now (chat s)) as [[_ E] | (L & m & q & E & _)];
      rewrite E.
    + destruct s; exact I.
    + destruct I as [[Q _] | (q' & _ & L')]; [ | congruence].
      right; exists (PendingEvaluate q); cbn; rewrite Q; auto.
  - destruct (solution_button_enabled (chat s)) eqn:G; [ | exact I].
    apply andb_true_iff in G as [_ L]. apply negb_true_iff in L.
    destruct I as [[Q _] | (q' & _ & L')]; [ | congruence].
    right; eexists; cbn; rewrite Q; split; reflexivity.
  - destruct I as [[Q L] | (q & Q & L)]; rewrite Q.
    + left; auto.
    + left; destruct q; cbn [inflight chat]; (split; [reflexivity | ]).
      * destruct (resume_state now r (chat s)) as (m & o & E & _).
        rewrite E; reflexivity.
      * unfold handleShowSolution_resume.
        destruct r as [ | ok [ [] | ] ]; reflexivity.
Qed.

Lemma run_one_in_flight (evs : list Event) :
  one_in_flight (run CB props evs mounted).
Proof.
  induction evs as [ | ev evs IH] using rev_ind.
  - left; split; reflexivity.
  - rewrite run_snoc. apply step_one_in_flight, IH.
Qed.

End OneTurn.


Lemma sum_hint_of (results : list json) :
  fold_right (fun r acc => hint_of r + acc) 0 results = hints_in results.
Proof.
  unfold hints_in, hint_of.
  induction results as [ | r results IH]; cbn; [reflexivity | ].
  rewrite IH. destruct (hint_given r); cbn [List.length]; lia.
Qed.

(** C7.  On every tutor turn appended by a submission (the evaluated
    turn, and the apology of the [catch] block alike), the hint counter
    goes up by one in that turn exactly when the appended turn carries
    the badge [hint_given], and stays as it is exactly when it does
    not. *)
Theorem hint_badge_iff_increment (CB : Type) (props : Props CB) (now : Z)
    (r : FetchOutcome) (st : State) :
  exists m,
    messages (fst (handleSubmit_resume CB props now r st)) = messages st ++ [m]
    /\ role m = tutor
    /\ (is_str (badge_type m) "hint_given" = true <->
        hintsUsed (fst (handleSubmit_resume CB props now r st))
        = hintsUsed st + 1)
    /\ (is_str (badge_type m) "hint_given" = false <->
        hintsUsed (fst (handleSubmit_resume CB props now r st))
        = hintsUsed st).
Proof.
  destruct (resume_state CB props now r st) as (m & o & E & R).
  exists m. rewrite E; cbn.
  repeat split; auto; destruct (is_str (badge_type m) "hint_given");
    intros; try reflexivity; try discriminate; lia.
Qed.

Lemma hint_badge_iff_increment_witness :
  exists m,
    messages (fst (handleSubmit_resume _ Sample.original_props 15
                     (Sample.answered Evaluate.fallback) initial)) = [m]
    /\ role m = tutor
    /\ (is_str (badge_type m) "hint_given" = true <->
        hintsUsed (fst (handleSubmit_resume _ Sample.original_props 15
                          (Sample.answered Evaluate.fallback) initial)) = 1)
    /\ (is_str (badge_type m) "hint_given" = false <->
        hintsUsed (fst (handleSubmit_resume _ Sample.original_props 15
                          (Sample.answered Evaluate.fallback) initial)) = 0).
Proof.
  exact (hint_badge_iff_increment _ Sample.original_props 15
           (Sample.answered Evaluate.fallback) initial).
Defined.

(** C1, as the code has it.  The hint counter of a freshly mounted
    chat is 0; the counter is never negative and never decreases,
    whatever the state the events start from, and moves by at most 1 in
    a step of the component; over a sequence of evaluated turns it grows
    by exactly the number of turns whose badge is [hint_given], from
    whatever value it had when the sequence began (an attempt that
    starts in a chat that is already in use starts from the value that
    chat holds); and a [hint_given] turn adds 1 whatever the counter is:
    there is no ceiling at 3. *)
Theorem hint_counter_counts_hint_badges (CB : Type) (props : Props CB) :
  hintsUsed initial = 0
  /\ (forall evs, 0 <= hintsUsed (chat (run CB props evs mounted)))
  /\ (forall evs s,
        hintsUsed (chat s) <= hintsUsed (chat (run CB props evs s)))
  /\ (forall ev s,
        hintsUsed (chat s) <= hintsUsed (chat (step CB props ev s))
        <= hintsUsed (chat s) + 1)
  /\ (forall now results st,
        hintsUsed (evaluated_turns CB props now results st)
        = hintsUsed st + hints_in results)
  /\ (forall now result st,
        hint_given result = true ->
        hintsUsed (fst (handleSubmit_evaluated CB props now result st))
        = hintsUsed st + 1).
Proof.
  split; [reflexivity | split; [ | split; [ | split; [ | split]]]].
  - apply run_hints_nonneg.
  - apply run_hints_monotone.
  - intros ev s; apply step_hints.
  - intros now results st. rewrite evaluated_turns_state; cbn.
    rewrite sum_hint_of. reflexivity.
  - intros now result st H. rewrite evaluated_state; cbn.
    unfold hint_of; rewrite H; reflexivity.
Qed.

Lemma hint_counter_counts_hint_badges_witness :
  hint_given Evaluate.fallback = true /\
  hintsUsed
    (fst (handleSubmit_evaluated _ Sample.original_props 15 Evaluate.fallback
            (mkState [] "" false 3 false))) = 3 + 1.
Proof.
  split; [reflexivity | ].
  apply (proj2 (proj2 (proj2 (proj2 (proj2
           (hint_counter_counts_hint_badges _ Sample.original_props)))))).
  reflexivity.
Defined.

(** C1 as stated fails: four turns answered with the fallback of
    [evaluateAnswer] (badge [hint_given]) take the counter to 4. *)
Lemma hint_counter_exceeds_three :
  hintsUsed
    (chat (run _ Sample.original_props (Sample.fallback_turns 4) mounted)) = 4.
Proof. vm_compute. reflexivity. Qed.

(** C2, as the code has it.  The solution offer is whatever the
    evaluation results said: after a sequence of evaluated turns it is
    on exactly when it was on when the sequence began (it is off in a
    freshly mounted chat) or one of the results carried a true
    [show_solution_button]; a later submission never takes it back; and
    over a sequence of turns that all carry the badge [hint_given],
    whatever else the results hold, the counter grows by the number of
    turns. *)
Theorem solution_offer_follows_gateway_flag (CB : Type) (props : Props CB) :
  showSolutionButton initial = false
  /\ (forall now results st,
        showSolutionButton (evaluated_turns CB props now results st) = true
        <-> (showSolutionButton st = true
             \/ exists result,
                  In result results /\ offers_solution result = true))
  /\ (forall now r st,
        showSolutionButton st = true ->
        showSolutionButton (fst (handleSubmit_resume CB props now r st)) = true)
  /\ (forall now results st,
        Forall (fun result => hint_given result = true) results ->
        hintsUsed (evaluated_turns CB props now results st)
        = hintsUsed st + Z.of_nat (List.length results)).
Proof.
  split; [reflexivity | split; [ | split]].
  - intros now results st. rewrite evaluated_turns_state; cbn.
    rewrite orb_true_iff, existsb_exists. tauto.
  - intros now r st H.
    destruct (resume_state CB props now r st) as (m & o & E & _).
    rewrite E; cbn. rewrite H; apply orb_true_r.
  - intros now results st H. rewrite evaluated_turns_state; cbn.
    rewrite sum_hint_of. unfold hints_in. do 2 f_equal.
    induction H as [ | result results Hr _ IH]; cbn; [reflexivity | ].
    rewrite Hr; cbn; rewrite IH; reflexivity.
Qed.

Lemma solution_offer_follows_gateway_flag_witness :
  Forall (fun result => hint_given result = true)
    [ Evaluate.fallback; Sample.result "needs_hint" "hint_given" true ]
  /\ hintsUsed
       (evaluated_turns _ Sample.original_props 15
          [ Evaluate.fallback; Sample.result "needs_hint" "hint_given" true ]
          (mkState [] "" false 2 false)) = 2 + 2.
Proof.
  assert (H : Forall (fun result => hint_given result = true)
                [ Evaluate.fallback;
                  Sample.result "needs_hint" "hint_given" true ]).
  { repeat constructor. }
  split; [exact H | ].
  exact (proj2 (proj2 (proj2
           (solution_offer_follows_gateway_flag _ Sample.original_props)))
           15 _ (mkState [] "" false 2 false) H).
Defined.

(** C2 as stated fails, both ways: after three turns answered with the
    fallback the counter is 3 and no solution is offered; and a first
    turn whose result carries [show_solution_button] opens the offer at
    counter 0. *)
Lemma solution_offer_not_tied_to_count :
  (hintsUsed
     (chat (run _ Sample.original_props (Sample.fallback_turns 3) mounted)) = 3
   /\ showSolutionButton
        (chat (run _ Sample.original_props (Sample.fallback_turns 3) mounted))
      = false)
  /\ (hintsUsed
        (chat (run _ Sample.original_props
                 (Sample.turn 10
                    (Sample.result "conceptual_error" "corrective_feedback" true))
                 mounted)) = 0
      /\ showSolutionButton
           (chat (run _ Sample.original_props
                    (Sample.turn 10
                       (Sample.result "conceptual_error" "corrective_feedback"
                          true))
                    mounted)) = true).
Proof. vm_compute. repeat split. Qed.

(** C8, as the code has it.  While a call is in flight the component is
    loading: the input and the send button are disabled, and a
    submission returns at the guard, leaving the state as it is,
    sending no request and throwing nothing; so at most one call is in
    flight at any time. *)
Theorem one_call_in_flight (CB : Type) (props : Props CB)
    (evs : list Event) (now : Z) :
  (List.length (inflight (run CB props evs mounted)) <= 1)%nat
  /\ (inflight (run CB props evs mounted) <> [] ->
      input_disabled (chat (run CB props evs mounted)) = true
      /\ send_disabled (chat (run CB props evs mounted)) = true
      /\ handleSubmit_begin CB props now (chat (run CB props evs mounted))
         = Return (chat (run CB props evs mounted), None)
      /\ step CB props (Submit now) (run CB props evs mounted)
         = run CB props evs mounted).
Proof.
  destruct (run_one_in_flight CB props evs) as [[Q L] | (q & Q & L)].
  - rewrite Q; split; [cbn; lia | ]. intros H; congruence.
  - split; [rewrite Q; cbn; lia | ]. intros _.
    pose proof (begin_while_loading CB props now _ L) as B.
    unfold input_disabled, send_disabled. rewrite L.
    split; [reflexivity | split; [reflexivity | split; [exact B | ]]].
    unfold step; rewrite B. destruct (run CB props evs mounted); reflexivity.
Qed.

Lemma one_call_in_flight_witness :
  inflight (run _ Sample.original_props [TypeInput "500"; Submit 10] mounted)
  <> []
  /\ step _ Sample.original_props (Submit 11)
       (run _ Sample.original_props [TypeInput "500"; Submit 10] mounted)
     = run _ Sample.original_props [TypeInput "500"; Submit 10] mounted.
Proof.
  assert (H : inflight (run _ Sample.original_props
                          [TypeInput "500"; Submit 10] mounted) <> [])
    by (vm_compute; discriminate).
  split; [exact H | ].
  exact (proj2 (proj2 (proj2 (proj2 (one_call_in_flight _ Sample.original_props
                                       [TypeInput "500"; Submit 10] 11) H)))).
Defined.

(** C8 as stated fails: a submission made while the first call is in
    flight is not rejected with an error.  [handleSubmit] returns
    normally, and the conversation holds the one student turn and no
    error turn. *)
Lemma second_submission_returns_silently :
  handleSubmit_begin _ Sample.original_props 11
    (chat (run _ Sample.original_props [TypeInput "500"; Submit 10] mounted))
  = Return
      (mkState [mkChatMessage 10 student (Some (JStr "500")) 10 None] ""
         true 0 false,
       None).
Proof. vm_compute. reflexivity. Qed.

End TutorChatFacts.

(* ================================================================== *)
(** ** The evaluation and the diagnostic on the server *)

Module ServerFacts.
Import JS Srv Types.

Section WithModel.

Variable openai_create : nat -> Prompt -> LlmOutcome.
Variable JSON_parse : string -> option json.

Lemma call_model_content (p : Prompt) (w : World) (c : option string) :
  openai_create (llm_calls w) p = LlmContent c ->
  Evaluate.call_model openai_create p w
  = (Return c, mkWorld (S (llm_calls w)) (console_error w)).
Proof. intros H; unfold Evaluate.call_model; rewrite H; reflexivity. Qed.

Lemma call_model_throws (p : Prompt) (w : World) :
  openai_create (llm_calls w) p = LlmThrows ->
  Evaluate.call_model openai_create p w
  = (Throw "openai", mkWorld (S (llm_calls w)) (console_error w)).
Proof. intros H; unfold Evaluate.call_model; rewrite H; reflexivity. Qed.

(** The [try] block of [evaluateAnswer] makes one call, and logs
    nothing. *)
Lemma evaluateAnswer_try_world (p : Prompt) (w : World) :
  snd (Evaluate.evaluateAnswer_try openai_create JSON_parse p w)
  = mkWorld (S (llm_calls w)) (console_error w).
Proof.
  unfold Evaluate.evaluateAnswer_try, bind, Evaluate.call_model.
  destruct (openai_create (llm_calls w) p) as [ | [s | ]]; cbn;
    try reflexivity.
  destruct (String.eqb s ""); [reflexivity | ].
  destruct (JSON_parse s) as [v | ]; [ | reflexivity].
  destruct v; try reflexivity;
    match goal with
    | |- context [if ?c then _ else _] => destruct c; reflexivity
    end.
Qed.

Lemma diagnoseStudent_try_world (p : Prompt) (w : World) :
  snd (Diagnose.diagnoseStudent_try openai_create JSON_parse p w)
  = mkWorld (S (llm_calls w)) (console_error w).
Proof.
  unfold Diagnose.diagnoseStudent_try, bind, Evaluate.call_model.
  destruct (openai_create (llm_calls w) p) as [ | [s | ]]; cbn;
    try reflexivity.
  destruct (String.eqb s ""); [reflexivity | ].
  destruct (JSON_parse s) as [v | ]; [ | reflexivity].
  destruct v; try reflexivity;
    match goal with
    | |- context [if ?c then _ else _] => destruct c; reflexivity
    end.
Qed.

(** A [try] block that throws is answered by the fallback. *)
Lemma try_catch_throw {A} (body : M A) (line : string) (fb : A)
    (w w1 : World) (msg : string) :
  body w = (Throw msg, w1) ->
  try_catch body (fun _ => Srv.bind (log_error line) (fun _ => ret fb)) w
  = (Return fb, mkWorld (llm_calls w1) (console_error w1 ++ [line])).
Proof. intros H; unfold try_catch; rewrite H; reflexivity. Qed.

(** [getSolutionExplanation] always returns a text, and never the empty
    one. *)
Lemma getSolutionExplanation_returns (problem : Problem) (w : World) :
  exists e w',
    Evaluate.getSolutionExplanation openai_create problem w = (Return e, w')
    /\ String.eqb e "" = false.
Proof.
  unfold Evaluate.getSolutionExplanation, try_catch, bind, Evaluate.call_model.
  destruct (openai_create (llm_calls w) (SolutionPrompt problem))
    as [ | [s | ]]; cbn.
  - eexists; eexists; split; reflexivity.
  - destruct (String.eqb s "") eqn:E.
    + eexists; eexists; split; reflexivity.
    + eexists; eexists; split; [reflexivity | exact E].
  - eexists; eexists; split; reflexivity.
Qed.

End WithModel.

(** C5.  When the text the model returned is empty, cannot be parsed,
    or lacks a (truthy) [response_type], [tutor_message] or
    [badge_type], [evaluateAnswer] returns, after that one call to the
    model, the fixed fallback: [needs_hint] with the badge [hint_given];
    and the turn the client appends for it takes the hint counter up by
    exactly one. *)
Theorem malformed_evaluation_falls_back
    (openai_create : nat -> Prompt -> LlmOutcome)
    (JSON_parse : string -> option json)
    (problem : Problem) (conversationHistory : list Message)
    (studentAnswer : string) (hintsUsed : Z) (studentAge : option Z)
    (w : World) (c : option string) :
  openai_create (llm_calls w)
    (EvaluatePrompt studentAge problem conversationHistory studentAnswer
       hintsUsed) = LlmContent c ->
  (c = None \/ c = Some ""
   \/ (exists s, c = Some s /\ JSON_parse s = None)
   \/ (exists s v,
         c = Some s /\ JSON_parse s = Some v /\
         (truthy (get "response_type" v) = false
          \/ truthy (get "tutor_message" v) = false
          \/ truthy (get "badge_type" v) = false))) ->
  Evaluate.evaluateAnswer openai_create JSON_parse problem
    conversationHistory studentAnswer hintsUsed studentAge w
  = (Return Evaluate.fallback, after_fallback "Error evaluating answer:" w)
  /\ get "response_type" Evaluate.fallback = Some (JStr "needs_hint")
  /\ get "badge_type" Evaluate.fallback = Some (JStr "hint_given")
  /\ (forall CB (props : TutorChat.Props CB) now st,
        TutorChat.hintsUsed
          (fst (TutorChat.handleSubmit_resume CB props now
                  (TutorChat.of_http
                     (Evaluate.mkHttpResponse 200 Evaluate.fallback)) st))
        = TutorChat.hintsUsed st + 1).
Proof.
  intros Hc Hbad.
  split; [ | split; [reflexivity | split; [reflexivity | ]]].
  - unfold Evaluate.evaluateAnswer.
    set (p := EvaluatePrompt _ _ _ _ _) in *.
    pose proof (evaluateAnswer_try_world openai_create JSON_parse p w) as Hw.
    assert (Ht : exists msg,
               fst (Evaluate.evaluateAnswer_try openai_create JSON_parse p w)
               = Throw msg).
    { unfold Evaluate.evaluateAnswer_try, bind.
      rewrite (call_model_content _ _ _ _ Hc).
      destruct Hbad as [-> | [-> | [(s & -> & Hp) | (s & v & -> & Hp & Hm)]]];
        try (eexists; reflexivity).
      - destruct (String.eqb s ""); [eexists; reflexivity | ].
        rewrite Hp; eexists; reflexivity.
      - destruct (String.eqb s ""); [eexists; reflexivity | ].
        rewrite Hp.
        destruct v; try (eexists; reflexivity).
        destruct Hm as [H | [H | H]]; rewrite H; cbn;
          rewrite ?orb_true_r; eexists; reflexivity. }
    destruct Ht as (msg & Ht).
    destruct (Evaluate.evaluateAnswer_try openai_create JSON_parse p w)
      as [res w1] eqn:E.
    cbn in Ht, Hw; subst res w1.
    rewrite (try_catch_throw _ _ _ _ _ _ E). reflexivity.
  - intros CB props now st.
    change (TutorChat.handleSubmit_resume CB props now
              (TutorChat.of_http
                 (Evaluate.mkHttpResponse 200 Evaluate.fallback)) st)
      with (let '(st', timers) :=
              TutorChat.handleSubmit_evaluated CB props now Evaluate.fallback st
            in (TutorChat.set_isLoading false st', timers)).
    pose proof (TutorChatFacts.evaluated_state CB props now
                  Evaluate.fallback st) as E.
    destruct (TutorChat.handleSubmit_evaluated CB props now Evaluate.fallback st)
      as [st' timers].
    cbn in E; subst st'; reflexivity.
Qed.

Lemma malformed_evaluation_falls_back_witness :
  Evaluate.evaluateAnswer (Sample.model_says "{}") Sample.parse Sample.problem
    [] "500" 0 None Sample.world0
  = (Return Evaluate.fallback, mkWorld 1 ["Error evaluating answer:"]).
Proof.
  apply (malformed_evaluation_falls_back (Sample.model_says "{}") Sample.parse
           Sample.problem [] "500" 0 None Sample.world0 (Some "{}")).
  - reflexivity.
  - right; right; right. exists "{}", (JObj []).
    split; [reflexivity | split; [reflexivity | left; reflexivity]].
Defined.

End ServerFacts.

(* ================================================================== *)
(** ** The diagnostic and the solution request against the attempt *)

Module SystemFacts.
Import JS Srv Types System.

(** C9.  [diagnoseStudent] always returns and never throws; it makes
    one call to the model; when the call throws, or its text is empty,
    cannot be parsed, or lacks a (truthy) [misconception_type],
    [confidence] or [description], the value returned is the fixed
    fallback: misconception [none], confidence [low], two generic
    recommendations; and whatever happens, the page, the conversation,
    the hint counter and the solution offer of the attempt are as they
    were. *)
Theorem diagnoseStudent_total_and_read_only
    (openai_create : nat -> Prompt -> LlmOutcome)
    (JSON_parse : string -> option json)
    (request : Diagnose.DiagnosticRequest) (sys : System) :
  let prompt :=
    DiagnosticPrompt (Diagnose.problem request)
      (Diagnose.conversation_history request)
      (Diagnose.student_answers request) (Diagnose.hints_given request)
      (Diagnose.attempts_count request) in
  exists v w',
    diagnose openai_create JSON_parse request sys
    = (Return v, mkSystem (page sys) (attempt sys) w')
    /\ llm_calls w' = S (llm_calls (server sys))
    /\ ((openai_create (llm_calls (server sys)) prompt = LlmThrows
         \/ openai_create (llm_calls (server sys)) prompt = LlmContent None
         \/ openai_create (llm_calls (server sys)) prompt
            = LlmContent (Some "")
         \/ (exists s,
               openai_create (llm_calls (server sys)) prompt
               = LlmContent (Some s) /\ JSON_parse s = None)
         \/ (exists s d,
               openai_create (llm_calls (server sys)) prompt
               = LlmContent (Some s) /\ JSON_parse s = Some d /\
               (truthy (get "misconception_type" d) = false
                \/ truthy (get "confidence" d) = false
                \/ truthy (get "description" d) = false))) ->
        v = Diagnose.fallback)
    /\ get "misconception_type" Diagnose.fallback = Some (JStr "none")
    /\ get "confidence" Diagnose.fallback = Some (JStr "low")
    /\ exists first second,
         get "recommendations" Diagnose.fallback
         = Some (JArr [JStr first; JStr second]).
Proof.
  intros prompt.
  unfold diagnose, Diagnose.diagnoseStudent. fold prompt.
  pose proof (ServerFacts.diagnoseStudent_try_world openai_create JSON_parse
                prompt (server sys)) as Hw.
  destruct (Diagnose.diagnoseStudent_try openai_create JSON_parse prompt
              (server sys)) as [res w1] eqn:E.
  cbn in Hw; subst w1.
  assert (Hfacts :
    get "misconception_type" Diagnose.fallback = Some (JStr "none")
    /\ get "confidence" Diagnose.fallback = Some (JStr "low")
    /\ exists first second,
         get "recommendations" Diagnose.fallback
         = Some (JArr [JStr first; JStr second])).
  { split; [reflexivity | split; [reflexivity | ]].
    eexists; eexists; reflexivity. }
  destruct res as [d | msg].
  - exists d; eexists. unfold try_catch; rewrite E.
    split; [reflexivity | split; [reflexivity | split; [ | exact Hfacts]]].
    intros Hbad. exfalso.
    revert E. unfold Diagnose.diagnoseStudent_try, bind.
    destruct Hbad as [H | [H | [H | [(s & H & Hp) | (s & d' & H & Hp & Hm)]]]].
    + rewrite (ServerFacts.call_model_throws _ _ _ H); discriminate.
    + rewrite (ServerFacts.call_model_content _ _ _ _ H); discriminate.
    + rewrite (ServerFacts.call_model_content _ _ _ _ H); discriminate.
    + rewrite (ServerFacts.call_model_content _ _ _ _ H).
      destruct (String.eqb s ""); [discriminate | ].
      rewrite Hp; discriminate.
    + rewrite (ServerFacts.call_model_content _ _ _ _ H).
      destruct (String.eqb s ""); [discriminate | ].
      rewrite Hp.
      destruct d'; try discriminate.
      destruct Hm as [Hm | [Hm | Hm]]; rewrite Hm; cbn;
        rewrite ?orb_true_r; discriminate.
  - exists Diagnose.fallback; eexists.
    rewrite (ServerFacts.try_catch_throw _ _ _ _ _ _ E).
    split; [reflexivity | split; [reflexivity | split; [ | exact Hfacts]]].
    reflexivity.
Qed.

Lemma diagnoseStudent_total_and_read_only_witness :
  exists v w',
    diagnose Sample.model_down Sample.parse
      (Diagnose.mkDiagnosticRequest Sample.problem [] ["500"] 3 1)
      (mkSystem Sample.in_mastery_check
         (TutorChat.mkState [] "" false 3 true) Sample.world0)
    = (Return v,
       mkSystem Sample.in_mastery_check
         (TutorChat.mkState [] "" false 3 true) w')
    /\ v = Diagnose.fallback.
Proof.
  destruct (diagnoseStudent_total_and_read_only Sample.model_down Sample.parse
              (Diagnose.mkDiagnosticRequest Sample.problem [] ["500"] 3 1)
              (mkSystem Sample.in_mastery_check
                 (TutorChat.mkState [] "" false 3 true) Sample.world0))
    as (v & w' & E & _ & F & _).
  exists v, w'. split; [exact E | ].
  apply F. left; reflexivity.
Defined.

(** C10, as the code has it.  Whatever the solution call resolves
    with, and whatever the state of the chat: the hint counter, the
    input and the turns that were there are as they were, at most one
    turn is appended, a tutor turn without a badge, and no callback of
    the page is scheduled.  When the call resolves with the solution
    response of the route, exactly one tutor turn is appended, its text
    is the explanation, and the solution offer is switched off,
    although that response carries [correct_final] and [hint_given].
    When the call fails (it rejects, or its body cannot be read or is
    [null]), nothing is appended and the solution offer is as it was.
    And the route does answer with its solution response, with an
    explanation that is not empty, when it finds the problem. *)
Theorem show_solution_frame
    (openai_create : nat -> Prompt -> LlmOutcome)
    (JSON_parse : string -> option json)
    (getProblemById : string -> M (option Problem))
    (getStudentAge : M (option Z))
    (CB : Type) (props : TutorChat.Props CB) (now : Z) :
  (forall r st,
      let after :=
        TutorChat.handleShowSolution_resume CB now r
          (fst (TutorChat.handleShowSolution_begin CB props st)) in
      TutorChat.hintsUsed (fst after) = TutorChat.hintsUsed st
      /\ TutorChat.input (fst after) = TutorChat.input st
      /\ TutorChat.isLoading (fst after) = false
      /\ snd after = []
      /\ (TutorChat.messages (fst after) = TutorChat.messages st
          \/ exists m,
               TutorChat.messages (fst after) = TutorChat.messages st ++ [m]
               /\ TutorChat.role m = tutor
               /\ TutorChat.badge_type m = None))
  /\ (forall e st,
        e <> "" ->
        fst (TutorChat.handleShowSolution_resume CB now
               (TutorChat.of_http
                  (Evaluate.mkHttpResponse 200 (Evaluate.solution_response e)))
               (fst (TutorChat.handleShowSolution_begin CB props st)))
        = TutorChat.mkState
            (TutorChat.messages st
             ++ [TutorChat.mkChatMessage now tutor (Some (JStr e)) now None])
            (TutorChat.input st) false (TutorChat.hintsUsed st) false
        /\ TutorChat.correct_final (Evaluate.solution_response e) = true
        /\ TutorChat.hint_given (Evaluate.solution_response e) = true)
  /\ (forall r st,
        (r = TutorChat.FetchRejects
         \/ (exists ok, r = TutorChat.FetchResponse ok None)
         \/ (exists ok, r = TutorChat.FetchResponse ok (Some JNull))) ->
        fst (TutorChat.handleShowSolution_resume CB now r
               (fst (TutorChat.handleShowSolution_begin CB props st)))
        = TutorChat.set_isLoading false st)
  /\ (forall sys problem age w1 w2,
        String.eqb (TutorChat.problemId props) "" = false ->
        getStudentAge (server sys) = (Return age, w1) ->
        getProblemById (TutorChat.problemId props) w1
        = (Return (Some problem), w2) ->
        exists e w',
          e <> ""
          /\ evaluate_call openai_create JSON_parse getProblemById
               getStudentAge
               (snd (TutorChat.handleShowSolution_begin CB props (attempt sys)))
               (server sys)
             = (TutorChat.of_http
                  (Evaluate.mkHttpResponse 200 (Evaluate.solution_response e)),
                w')
          /\ chat_show_solution openai_create JSON_parse getProblemById
               getStudentAge CB props now sys
             = (mkSystem (page sys)
                  (TutorChat.mkState
                     (TutorChat.messages (attempt sys)
                      ++ [TutorChat.mkChatMessage now tutor (Some (JStr e))
                            now None])
                     (TutorChat.input (attempt sys)) false
                     (TutorChat.hintsUsed (attempt sys)) false)
                  w',
                [])).
Proof.
  split; [ | split; [ | split]].
  - intros r st. cbn zeta.
    unfold TutorChat.handleShowSolution_begin,
      TutorChat.handleShowSolution_resume.
    destruct st as [ms inp ld h sb].
    destruct r as [ | ok [ result | ] ]; cbn;
      try (repeat split; left; reflexivity).
    destruct result; cbn;
      try (repeat split; left; reflexivity);
      (repeat split; right; eexists; repeat split).
  - intros e st Hne.
    unfold TutorChat.handleShowSolution_begin,
      TutorChat.handleShowSolution_resume, or_else.
    destruct st as [ms inp ld h sb]; cbn.
    assert (T : negb (String.eqb e "") = true).
    { apply negb_true_iff, String.eqb_neq, Hne. }
    rewrite T. repeat split.
  - intros r st F.
    unfold TutorChat.handleShowSolution_begin,
      TutorChat.handleShowSolution_resume.
    destruct st as [ms inp ld h sb].
    destruct F as [-> | [(ok & ->) | (ok & ->)]]; reflexivity.
  - intros sys problem age w1 w2 Hid Hage Hdb.
    destruct (ServerFacts.getSolutionExplanation_returns openai_create
                problem w2) as (e & w' & He & Hne).
    exists e, w'.
    assert (Hcall :
      evaluate_call openai_create JSON_parse getProblemById getStudentAge
        (snd (TutorChat.handleShowSolution_begin CB props (attempt sys)))
        (server sys)
      = (TutorChat.of_http
           (Evaluate.mkHttpResponse 200 (Evaluate.solution_response e)), w')).
    { unfold evaluate_call, Evaluate.POST, try_catch, bind; cbn.
      rewrite Hid; cbn. rewrite Hage, Hdb, He. reflexivity. }
    split; [ | split; [exact Hcall | ]].
    + intros ->. discriminate.
    + unfold chat_show_solution.
      destruct (TutorChat.handleShowSolution_begin CB props (attempt sys))
        as [st1 request] eqn:Eb.
      cbn in Hcall. rewrite Hcall.
      unfold TutorChat.handleShowSolution_begin in Eb.
      injection Eb as <- _.
      cbn. unfold or_else; cbn. rewrite Hne; cbn. reflexivity.
Qed.

Lemma show_solution_frame_witness :
  exists e w',
    chat_show_solution (Sample.model_says "Add the hundreds first.")
      Sample.parse Sample.store Sample.no_session _ Sample.original_props 40
      (mkSystem Home.initial (TutorChat.mkState [] "" false 3 true)
         Sample.world0)
    = (mkSystem Home.initial
         (TutorChat.mkState
            [TutorChat.mkChatMessage 40 tutor (Some (JStr e)) 40 None]
            "" false 3 false)
         w',
       []).
Proof.
  destruct (proj2 (proj2 (proj2
              (show_solution_frame
                 (Sample.model_says "Add the hundreds first.")
                 Sample.parse Sample.store Sample.no_session _
                 Sample.original_props 40)))
              (mkSystem Home.initial (TutorChat.mkState [] "" false 3 true)
                 Sample.world0)
              Sample.problem None Sample.world0 Sample.world0
              eq_refl eq_refl eq_refl)
    as (e & w' & _ & _ & E).
  exists e, w'. exact E.
Defined.

(** C10 as stated fails: when the solution call rejects, the learner
    has asked for the solution and no turn is appended; the solution
    offer is still on. *)
Lemma rejected_solution_call_changes_nothing :
  fst (TutorChat.handleShowSolution_resume Home.Callback 40
         TutorChat.FetchRejects
         (fst (TutorChat.handleShowSolution_begin _ Sample.original_props
                 (TutorChat.mkState
                    [TutorChat.mkChatMessage 10 student (Some (JStr "500"))
                       10 None]
                    "" false 3 true))))
  = TutorChat.mkState
      [TutorChat.mkChatMessage 10 student (Some (JStr "500")) 10 None]
      "" false 3 true.
Proof. reflexivity. Qed.

End SystemFacts.

(* ================================================================== *)
(** ** The page: mastery check *)

Module HomeFacts.
Import JS Types Home.

(** The callbacks one evaluated turn schedules, in order. *)
Lemma evaluated_timers (CB : Type) (props : TutorChat.Props CB) (now : Z)
    (result : json) (st : TutorChat.State) :
  snd (TutorChat.handleSubmit_evaluated CB props now result st) =
  (if TutorChat.offers_solution result
   then match TutorChat.isMasteryCheck props, TutorChat.onMasteryFailed props with
        | true, Some cb => [cb]
        | _, _ => []
        end
   else [])
  ++ match TutorChat.correct_final result, TutorChat.onCorrectAnswer props with
     | true, Some cb => [cb]
     | _, _ => []
     end.
Proof.
  unfold TutorChat.handleSubmit_evaluated.
  destruct (TutorChat.hint_given result), (TutorChat.offers_solution result);
    reflexivity.
Qed.

Lemma home_reconcile (h : State) (a : App) : home (reconcile h a) = h.
Proof. unfold reconcile; destruct (currentProblem h), (chat a); reflexivity. Qed.

(** C6 fails on the code.  The learner solves the original problem and
    sends the answer once more before the offer opens; the offer opens,
    the mastery check is started and its problem arrives; then the
    second evaluation call resolves.  Its handler was created outside
    the mastery check and holds [handleOriginalCorrectAnswer], so the
    offer of a mastery check opens during the mastery check; a click on
    it sends a generation request for the mastery problem, and when
    that resolves the page is in a mastery check of the mastery
    problem. *)
Theorem late_reply_nests_mastery_check :
  isMasteryCheck
    (home (fst (run Sample.late_reply_in_mastery_check start))) = true
  /\ showMasteryCheckModal
       (home (fst (run Sample.late_reply_in_mastery_check start))) = true
  /\ snd (step ClickStartMasteryCheck
            (fst (run Sample.late_reply_in_mastery_check start)))
     = [FetchGenerateSimilar "generated" 1 "same"]
  /\ originalProblem
       (home (fst (run (Sample.late_reply_in_mastery_check
                        ++ [ ClickStartMasteryCheck;
                             GenerateResolves 0
                               (GenerateResponse true
                                  (Some (mkGenerateResult
                                           (Some [Sample.second_sibling])))) ])
                     start)))
     = Some Sample.sibling
  /\ isMasteryCheck
       (home (fst (run (Sample.late_reply_in_mastery_check
                        ++ [ ClickStartMasteryCheck;
                             GenerateResolves 0
                               (GenerateResponse true
                                  (Some (mkGenerateResult
                                           (Some [Sample.second_sibling])))) ])
                     start)))
     = true.
Proof. vm_compute. repeat split. Qed.

(** C3, as the code has it.  In a mastery check, after an evaluated
    turn and the callbacks it schedules: a [correct_final] result
    records [mastery_passed]; a result that is not [correct_final] and
    carries [show_solution_button] records [mastery_failed], at once,
    without the learner asking for the solution; any other result
    leaves the page as it was; and asking for the solution schedules no
    callback, so it records nothing. *)
Theorem mastery_classification (h : State) (problem : Problem) (now : Z)
    (result : json) (st : TutorChat.State) :
  isMasteryCheck h = true ->
  (TutorChat.correct_final result = true ->
   celebrationType
     (call_all (snd (TutorChat.handleSubmit_evaluated Callback
                       (chat_props problem h) now result st)) h)
   = mastery_passed
   /\ showCelebrationModal
        (call_all (snd (TutorChat.handleSubmit_evaluated Callback
                          (chat_props problem h) now result st)) h)
      = true)
  /\ (TutorChat.correct_final result = false ->
      TutorChat.offers_solution result = true ->
      celebrationType
        (call_all (snd (TutorChat.handleSubmit_evaluated Callback
                          (chat_props problem h) now result st)) h)
      = mastery_failed
      /\ showCelebrationModal
           (call_all (snd (TutorChat.handleSubmit_evaluated Callback
                             (chat_props problem h) now result st)) h)
         = true)
  /\ (TutorChat.correct_final result = false ->
      TutorChat.offers_solution result = false ->
      call_all (snd (TutorChat.handleSubmit_evaluated Callback
                       (chat_props problem h) now result st)) h
      = h)
  /\ (forall r st1,
        call_all (snd (TutorChat.handleShowSolution_resume Callback now r st1)) h
        = h).
Proof.
  intros M. rewrite evaluated_timers; cbn. rewrite M.
  destruct (TutorChat.correct_final result),
    (TutorChat.offers_solution result); cbn;
    repeat split; intros; try discriminate; reflexivity.
Qed.

Lemma mastery_classification_witness :
  celebrationType
    (call_all
       (snd (TutorChat.handleSubmit_evaluated Callback
               (chat_props Sample.sibling Sample.in_mastery_check) 30
               (Sample.result "correct_final" "partial_progress" false)
               TutorChat.initial))
       Sample.in_mastery_check)
  = mastery_passed.
Proof.
  apply (mastery_classification Sample.in_mastery_check Sample.sibling 30
           (Sample.result "correct_final" "partial_progress" false)
           TutorChat.initial eq_refl).
  reflexivity.
Defined.

(** C3 as stated fails: in a mastery check, a turn whose result carries
    [show_solution_button] records [mastery_failed] although the learner
    has not asked for the solution (no request sent was a solution
    request). *)
Lemma gate_opening_fails_mastery_check :
  isMasteryCheck
    (home (fst (run Sample.gate_opens_in_mastery_check start))) = true
  /\ celebrationType
       (home (fst (run Sample.gate_opens_in_mastery_check start)))
     = mastery_failed
  /\ showCelebrationModal
       (home (fst (run Sample.gate_opens_in_mastery_check start))) = true
  /\ existsb is_solution_request
       (snd (run Sample.gate_opens_in_mastery_check start)) = false.
Proof. vm_compute. repeat split. Qed.




End HomeFacts.

(* ================================================================== *)
(** ** More on the evaluation: what is returned, and the route *)

Module EvaluateMore.
Import JS Srv Types Contract.

Section WithCollaborators.

Variable openai_create : nat -> Prompt -> LlmOutcome.
Variable JSON_parse : string -> option json.
Variable getProblemById : string -> M (option Problem).
Variable getStudentAge : M (option Z).

Lemma incomplete_evaluation_test (v : json) :
  (negb (truthy (get "response_type" v))
   || negb (truthy (get "tutor_message" v))
   || negb (truthy (get "badge_type" v)))%bool
  = negb (complete_evaluation v).
Proof.
  unfold complete_evaluation.
  destruct (truthy (get "response_type" v)), (truthy (get "tutor_message" v)),
    (truthy (get "badge_type" v)); reflexivity.
Qed.

(** When the [try] block of [evaluateAnswer] returns, it returns the
    parsed text of the model, and that value passed the test. *)
Lemma evaluateAnswer_try_return (p : Prompt) (w w1 : World) (v : json) :
  Evaluate.evaluateAnswer_try openai_create JSON_parse p w = (Return v, w1) ->
  exists s,
    openai_create (llm_calls w) p = LlmContent (Some s)
    /\ String.eqb s "" = false
    /\ JSON_parse s = Some v
    /\ complete_evaluation v = true.
Proof.
  unfold Evaluate.evaluateAnswer_try, bind, Evaluate.call_model.
  destruct (openai_create (llm_calls w) p) as [ | [s | ]]; cbn;
    try discriminate.
  destruct (String.eqb s "") eqn:Es; [discriminate | ].
  destruct (JSON_parse s) as [v' | ] eqn:Ep; [ | discriminate].
  intros E. exists s.
  destruct v'; try discriminate;
    rewrite incomplete_evaluation_test in E;
    match type of E with
    | context [complete_evaluation ?x] =>
        destruct (complete_evaluation x) eqn:C; cbn in E; try discriminate
    end;
    injection E as <- _; auto.
Qed.

Lemma evaluateAnswer_try_accepts (p : Prompt) (w : World) (s : string)
    (v : json) :
  openai_create (llm_calls w) p = LlmContent (Some s) ->
  String.eqb s "" = false ->
  JSON_parse s = Some v ->
  complete_evaluation v = true ->
  Evaluate.evaluateAnswer_try openai_create JSON_parse p w
  = (Return v, mkWorld (S (llm_calls w)) (console_error w)).
Proof.
  intros Ho Es Ep C.
  unfold Evaluate.evaluateAnswer_try, bind, Evaluate.call_model.
  rewrite Ho; cbn. rewrite Es, Ep.
  destruct v; try (rewrite incomplete_evaluation_test, C; reflexivity).
  discriminate.
Qed.

End WithCollaborators.

(** X1.  When the text of the model parses to a value whose
    [response_type], [tutor_message] and [badge_type] are all truthy,
    [evaluateAnswer] returns that value as it is: nothing is checked
    against the lists of response types and badges, nothing is added or
    removed, and [show_solution_button] may be missing.  One call is
    made and nothing is logged. *)
Theorem evaluateAnswer_passes_complete_response
    (openai_create : nat -> Prompt -> LlmOutcome)
    (JSON_parse : string -> option json)
    (problem : Problem) (conversationHistory : list Message)
    (studentAnswer : string) (hintsUsed : Z) (studentAge : option Z)
    (w : World) (s : string) (v : json) :
  openai_create (llm_calls w)
    (EvaluatePrompt studentAge problem conversationHistory studentAnswer
       hintsUsed) = LlmContent (Some s) ->
  String.eqb s "" = false ->
  JSON_parse s = Some v ->
  complete_evaluation v = true ->
  Evaluate.evaluateAnswer openai_create JSON_parse problem
    conversationHistory studentAnswer hintsUsed studentAge w
  = (Return v, mkWorld (S (llm_calls w)) (console_error w)).
Proof.
  intros Ho Es Ep C. unfold Evaluate.evaluateAnswer, try_catch.
  rewrite (evaluateAnswer_try_accepts _ _ _ _ _ _ Ho Es Ep C). reflexivity.
Qed.

Lemma evaluateAnswer_passes_complete_response_witness :
  Evaluate.evaluateAnswer (Sample.model_says "<evaluation>") Sample2.parse2
    Sample.problem [] "500" 0 None Sample.world0
  = (Return Sample2.evaluation_with_odd_type, mkWorld 1 []).
Proof.
  apply (evaluateAnswer_passes_complete_response
           (Sample.model_says "<evaluation>") Sample2.parse2 Sample.problem
           [] "500" 0 None Sample.world0 "<evaluation>"
           Sample2.evaluation_with_odd_type);
    reflexivity.
Defined.

(** What [evaluateAnswer] does, whatever the model does. *)
Lemma evaluateAnswer_outcome
    (openai_create : nat -> Prompt -> LlmOutcome)
    (JSON_parse : string -> option json)
    (problem : Problem) (conversationHistory : list Message)
    (studentAnswer : string) (hintsUsed : Z) (studentAge : option Z)
    (w : World) :
  exists v w',
    Evaluate.evaluateAnswer openai_create JSON_parse problem
      conversationHistory studentAnswer hintsUsed studentAge w
    = (Return v, w')
    /\ complete_evaluation v = true
    /\ llm_calls w' = S (llm_calls w)
    /\ ((exists s,
           openai_create (llm_calls w)
             (EvaluatePrompt studentAge problem conversationHistory
                studentAnswer hintsUsed) = LlmContent (Some s)
           /\ JSON_parse s = Some v
           /\ console_error w' = console_error w)
        \/ (v = Evaluate.fallback
            /\ console_error w'
               = console_error w ++ ["Error evaluating answer:"])).
Proof.
  unfold Evaluate.evaluateAnswer.
  set (p := EvaluatePrompt _ _ _ _ _).
  pose proof (ServerFacts.evaluateAnswer_try_world openai_create JSON_parse
                p w) as Hw.
  destruct (Evaluate.evaluateAnswer_try openai_create JSON_parse p w)
    as [[v | msg] w1] eqn:E; cbn in Hw; subst w1.
  - destruct (evaluateAnswer_try_return _ _ _ _ _ _ E) as (s & Ho & _ & Ep & C).
    exists v; eexists. unfold try_catch; rewrite E.
    split; [reflexivity | split; [exact C | split; [reflexivity | ]]].
    left; exists s; auto.
  - exists Evaluate.fallback; eexists.
    rewrite (ServerFacts.try_catch_throw _ _ _ _ _ _ E).
    split; [reflexivity | split; [reflexivity | split; [reflexivity | ]]].
    right; split; reflexivity.
Qed.

(** X2.  Whatever the model does, [evaluateAnswer] returns (it never
    throws) after exactly one call to the model, and the value returned
    always has a truthy [response_type], [tutor_message] and
    [badge_type]: it is the text of the model, parsed, or it is the
    fallback, and a line is logged exactly in the second case. *)
Theorem evaluateAnswer_always_complete
    (openai_create : nat -> Prompt -> LlmOutcome)
    (JSON_parse : string -> option json)
    (problem : Problem) (conversationHistory : list Message)
    (studentAnswer : string) (hintsUsed : Z) (studentAge : option Z)
    (w : World) :
  exists v w',
    Evaluate.evaluateAnswer openai_create JSON_parse problem
      conversationHistory studentAnswer hintsUsed studentAge w
    = (Return v, w')
    /\ complete_evaluation v = true
    /\ llm_calls w' = S (llm_calls w)
    /\ ((exists s,
           openai_create (llm_calls w)
             (EvaluatePrompt studentAge problem conversationHistory
                studentAnswer hintsUsed) = LlmContent (Some s)
           /\ JSON_parse s = Some v
           /\ console_error w' = console_error w)
        \/ (v = Evaluate.fallback
            /\ console_error w'
               = console_error w ++ ["Error evaluating answer:"])).
Proof. apply evaluateAnswer_outcome. Qed.

Lemma evaluateAnswer_always_complete_witness :
  exists v w',
    Evaluate.evaluateAnswer Sample.model_down Sample.parse Sample.problem
      [] "500" 0 None Sample.world0
    = (Return v, w')
    /\ complete_evaluation v = true.
Proof.
  destruct (evaluateAnswer_always_complete Sample.model_down Sample.parse
              Sample.problem [] "500" 0 None Sample.world0)
    as (v & w' & E & C & _).
  exists v, w'. split; [exact E | exact C].
Defined.

(** X3.  [getSolutionExplanation] always returns a text, after one
    call to the model, and never an empty one: the text of the model
    when that is not empty, and one of its two fixed sentences when the
    text is empty or missing or the call throws. *)
Theorem solution_explanation_never_empty
    (openai_create : nat -> Prompt -> LlmOutcome) (problem : Problem)
    (w : World) :
  exists e w',
    Evaluate.getSolutionExplanation openai_create problem w = (Return e, w')
    /\ String.eqb e "" = false
    /\ llm_calls w' = S (llm_calls w)
    /\ (forall s,
          openai_create (llm_calls w) (SolutionPrompt problem)
          = LlmContent (Some s) ->
          String.eqb s "" = false -> e = s)
    /\ (openai_create (llm_calls w) (SolutionPrompt problem) = LlmThrows ->
        e = "Unable to generate solution explanation at this time.")
    /\ (openai_create (llm_calls w) (SolutionPrompt problem) = LlmContent None
        \/ openai_create (llm_calls w) (SolutionPrompt problem)
           = LlmContent (Some "") ->
        e = "Solution explanation unavailable.").
Proof.
  unfold Evaluate.getSolutionExplanation, try_catch, bind,
    Evaluate.call_model.
  destruct (openai_create (llm_calls w) (SolutionPrompt problem))
    as [ | [s | ]]; cbn.
  - eexists; eexists; split; [reflexivity | ].
    repeat split; try reflexivity; try discriminate.
    intros [H | H]; discriminate.
  - destruct (String.eqb s "") eqn:E.
    + eexists; eexists; split; [reflexivity | ].
      repeat split; try reflexivity; try discriminate.
      intros s' H; injection H as <-. congruence.
    + eexists; eexists; split; [reflexivity | ].
      repeat split; try reflexivity; try discriminate; try exact E.
      * intros s' H; injection H as <-. reflexivity.
      * intros [H | H]; [discriminate | ].
        injection H as ->. discriminate.
  - eexists; eexists; split; [reflexivity | ].
    repeat split; try reflexivity; try discriminate.
Qed.

Lemma solution_explanation_never_empty_witness :
  exists e w',
    Evaluate.getSolutionExplanation (Sample.model_says "") Sample.problem
      Sample.world0
    = (Return e, w')
    /\ e = "Solution explanation unavailable.".
Proof.
  destruct (solution_explanation_never_empty (Sample.model_says "")
              Sample.problem Sample.world0)
    as (e & w' & E & _ & _ & _ & _ & F).
  exists e, w'. split; [exact E | ].
  apply F. right; reflexivity.
Defined.

End EvaluateMore.

(* ================================================================== *)
(** ** The route [POST /api/evaluate] *)

Module EvaluateRoute.
Import JS Srv Types Contract.

Section WithCollaborators.

Variable openai_create : nat -> Prompt -> LlmOutcome.
Variable JSON_parse : string -> option json.
Variable getProblemById : string -> M (option Problem).
Variable getStudentAge : M (option Z).

(** The route, case by case. *)
Lemma evaluate_POST_cases (b : Evaluate.EvaluateBody) (w : World) :
  exists r w',
    Evaluate.POST openai_create JSON_parse getProblemById getStudentAge b w
    = (Return r, w')
    /\ ((Evaluate.status r = 400 /\ w' = w
         /\ (String.eqb (Evaluate.problem_id b) ""
             || String.eqb (Evaluate.student_answer b) "")%bool = true)
        \/ (Evaluate.status r = 500
            /\ ((exists msg, fst (getStudentAge w) = Throw msg)
                \/ (exists msg,
                      fst (getProblemById (Evaluate.problem_id b)
                             (snd (getStudentAge w))) = Throw msg)))
        \/ (Evaluate.status r = 404
            /\ Evaluate.body r = Evaluate.error_body "Problem not found"
            /\ w' = snd (getProblemById (Evaluate.problem_id b)
                           (snd (getStudentAge w)))
            /\ fst (getProblemById (Evaluate.problem_id b)
                      (snd (getStudentAge w))) = Return None)
        \/ (Evaluate.status r = 200
            /\ Evaluate.request_solution b = true
            /\ exists e,
                 Evaluate.body r = Evaluate.solution_response e
                 /\ String.eqb e "" = false)
        \/ (Evaluate.status r = 200
            /\ Evaluate.request_solution b = false
            /\ complete_evaluation (Evaluate.body r) = true)).
Proof.
  unfold Evaluate.POST, try_catch, bind.
  destruct (String.eqb (Evaluate.problem_id b) ""
            || String.eqb (Evaluate.student_answer b) "")%bool eqn:G.
  { eexists; eexists; split; [reflexivity | ]. left; auto. }
  destruct (getStudentAge w) as [[age | msg] w1] eqn:Ea; cbn [fst snd].
  2:{ eexists; eexists; split; [reflexivity | ].
      right; left; split; [reflexivity | left; eauto]. }
  destruct (getProblemById (Evaluate.problem_id b) w1)
    as [[[problem | ] | msg] w2] eqn:Ep; cbn [fst snd].
  3:{ eexists; eexists; split; [reflexivity | ].
      right; left; split; [reflexivity | right; eauto]. }
  2:{ eexists; eexists; split; [reflexivity | ].
      right; right; left; auto. }
  destruct (Evaluate.request_solution b) eqn:Rs.
  - destruct (ServerFacts.getSolutionExplanation_returns openai_create
                problem w2) as (e & w3 & He & Hne).
    rewrite He. eexists; eexists; split; [reflexivity | ].
    right; right; right; left. split; [reflexivity | split; [reflexivity | ]].
    exists e; auto.
  - destruct (EvaluateMore.evaluateAnswer_outcome openai_create JSON_parse
                problem (Evaluate.conversation_history b)
                (Evaluate.student_answer b) (Evaluate.hints_used b) age w2)
      as (v & w3 & He & C & _).
    rewrite He. eexists; eexists; split; [reflexivity | ].
    right; right; right; right. auto.
Qed.

End WithCollaborators.

(** X4.  The route never throws and answers with status 200, 400, 404
    or 500.  With status 200 the body is the solution response with a
    text that is not empty (for a solution request), or an evaluation
    with a truthy [response_type], [tutor_message] and [badge_type]
    (otherwise): a model that is down or returns malformed text never
    makes the route fail. *)
Theorem evaluate_route_total
    (openai_create : nat -> Prompt -> LlmOutcome)
    (JSON_parse : string -> option json)
    (getProblemById : string -> M (option Problem))
    (getStudentAge : M (option Z))
    (b : Evaluate.EvaluateBody) (w : World) :
  exists r w',
    Evaluate.POST openai_create JSON_parse getProblemById getStudentAge b w
    = (Return r, w')
    /\ (Evaluate.status r = 200 \/ Evaluate.status r = 400
        \/ Evaluate.status r = 404 \/ Evaluate.status r = 500)
    /\ (Evaluate.status r = 200 ->
        if Evaluate.request_solution b
        then exists e,
               Evaluate.body r = Evaluate.solution_response e
               /\ String.eqb e "" = false
        else complete_evaluation (Evaluate.body r) = true).
Proof.
  destruct (evaluate_POST_cases openai_create JSON_parse getProblemById getStudentAge
              b w) as (r & w' & E & H).
  exists r, w'. split; [exact E | ].
  destruct H as [(S & _) | [(S & _) | [(S & _) | [(S & R & H) | (S & R & H)]]]];
    rewrite S; (split; [auto | ]); intros H'; try discriminate;
    rewrite R; exact H.
Qed.

Lemma evaluate_route_total_witness :
  exists r w',
    Evaluate.POST Sample.model_down Sample.parse Sample.store
      Sample.no_session
      (Evaluate.mkEvaluateBody "problem_00001" "500" [] 0 false)
      Sample.world0
    = (Return r, w')
    /\ (Evaluate.status r = 200 \/ Evaluate.status r = 400
        \/ Evaluate.status r = 404 \/ Evaluate.status r = 500).
Proof.
  destruct (evaluate_route_total Sample.model_down Sample.parse Sample.store
              Sample.no_session
              (Evaluate.mkEvaluateBody "problem_00001" "500" [] 0 false)
              Sample.world0)
    as (r & w' & E & S & _).
  exists r, w'. split; [exact E | exact S].
Defined.

(** X5.  A request without a problem id or without an answer is
    answered with status 400 before anything else happens: the session
    is not read, the store is not asked, the model is not called. *)
Theorem evaluate_route_rejects_empty_fields
    (openai_create : nat -> Prompt -> LlmOutcome)
    (JSON_parse : string -> option json)
    (getProblemById : string -> M (option Problem))
    (getStudentAge : M (option Z))
    (b : Evaluate.EvaluateBody) (w : World) :
  Evaluate.problem_id b = "" \/ Evaluate.student_answer b = "" ->
  Evaluate.POST openai_create JSON_parse getProblemById getStudentAge b w
  = (Return
       (Evaluate.mkHttpResponse 400
          (Evaluate.error_body
             "Missing required fields: problem_id, student_answer")),
     w).
Proof.
  intros H. unfold Evaluate.POST, try_catch.
  assert (G : (String.eqb (Evaluate.problem_id b) ""
               || String.eqb (Evaluate.student_answer b) "")%bool = true).
  { destruct H as [-> | ->]; cbn; [reflexivity | apply orb_true_r]. }
  rewrite G. reflexivity.
Qed.

Lemma evaluate_route_rejects_empty_fields_witness :
  Evaluate.POST Sample.model_down Sample.parse Sample.store Sample.no_session
    (Evaluate.mkEvaluateBody "" "500" [] 0 false) Sample.world0
  = (Return
       (Evaluate.mkHttpResponse 400
          (Evaluate.error_body
             "Missing required fields: problem_id, student_answer")),
     Sample.world0).
Proof.
  apply (evaluate_route_rejects_empty_fields Sample.model_down Sample.parse
           Sample.store Sample.no_session
           (Evaluate.mkEvaluateBody "" "500" [] 0 false) Sample.world0).
  left; reflexivity.
Defined.

End EvaluateRoute.

(* ================================================================== *)
(** ** More on the chat: what a submission appends, failures, blanks *)

Module TutorChatMore.
Import JS Types TutorChat.

(** *** White space *)

Lemma is_white_cases (w : string) :
  is_white w = true -> In w (map utf8 white_space).
Proof.
  unfold is_white. intros H. apply existsb_exists in H as (x & I & E).
  apply String.eqb_eq in E. subst; exact I.
Qed.

Lemma trim_start_white (w s : string) :
  is_white w = true -> trim_start (w ++ s)%string = trim_start s.
Proof.
  intros H. apply is_white_cases in H. cbn in H.
  repeat (destruct H as [<- | H]; [reflexivity | ]). destruct H.
Qed.

Lemma blank_trim_start (s : string) : blank s -> trim_start s = "".
Proof.
  induction 1 as [ | w s W B IH]; [reflexivity | ].
  rewrite trim_start_white; assumption.
Qed.

(** One step of [trim_start]: a white space character is dropped, or
    the string is returned as it is. *)
Lemma trim_start_step (s : string) :
  (exists w t, s = (w ++ t)%string /\ is_white w = true
               /\ trim_start s = trim_start t
               /\ (String.length t < String.length s)%nat)
  \/ trim_start s = s.
Proof.
  destruct s as [ | a s1]; [right; reflexivity | ].
  cbn [trim_start].
  destruct (is_white (String a "")) eqn:W1.
  { left. exists (String a ""), s1. cbn. repeat split; auto. }
  destruct s1 as [ | b s2]; [right; reflexivity | ].
  destruct (is_white (String a (String b ""))) eqn:W2.
  { left. exists (String a (String b "")), s2. cbn. repeat split; auto. }
  destruct s2 as [ | c s3]; [right; reflexivity | ].
  destruct (is_white (String a (String b (String c "")))) eqn:W3.
  { left. exists (String a (String b (String c ""))), s3. cbn.
    repeat split; auto. }
  right; reflexivity.
Qed.

Lemma append_empty (s : string) : (s ++ "")%string = s.
Proof. induction s; cbn; congruence. Qed.

Lemma append_assoc (u v w : string) :
  ((u ++ v) ++ w)%string = (u ++ (v ++ w))%string.
Proof. induction u; cbn; congruence. Qed.

(** [trim_start] takes a sequence of white space characters off the
    head, and what it returns starts with none. *)
Lemma trim_start_spec (s : string) :
  exists ws, blank ws /\ s = (ws ++ trim_start s)%string
             /\ trim_start (trim_start s) = trim_start s.
Proof.
  remember (String.length s) as n eqn:L.
  revert s L. induction n as [n IH] using lt_wf_ind. intros s L.
  destruct (trim_start_step s) as [(w & t & E & W & T & Lt) | E].
  - destruct (IH (String.length t) ltac:(lia) t eq_refl) as (ws & B & E1 & I).
    exists (w ++ ws)%string. split; [constructor; assumption | ].
    rewrite T. split; [ | exact I].
    rewrite append_assoc, <- E1. exact E.
  - exists "". split; [constructor | ].
    rewrite E. split; [reflexivity | exact E].
Qed.

Lemma trim_start_blank (s : string) : trim_start s = "" <-> blank s.
Proof.
  split; [ | apply blank_trim_start].
  intros E. destruct (trim_start_spec s) as (ws & B & Es & _).
  rewrite E, append_empty in Es. rewrite Es. exact B.
Qed.

Lemma trim_end_empty (t : string) : trim_end t = "" <-> trim_start t = "".
Proof.
  destruct t as [ | c rest]; cbn [trim_end]; [split; reflexivity | ].
  unfold all_white.
  destruct (String.eqb (trim_start (String c rest)) "") eqn:E.
  - apply String.eqb_eq in E. split; auto.
  - apply String.eqb_neq in E. split; [discriminate | intros; contradiction].
Qed.

Lemma trim_end_spec (t : string) :
  exists ws, blank ws /\ t = (trim_end t ++ ws)%string.
Proof.
  induction t as [ | c rest IH]; [exists ""; split; [constructor | reflexivity] | ].
  cbn [trim_end]. unfold all_white.
  destruct (String.eqb (trim_start (String c rest)) "") eqn:E.
  - apply String.eqb_eq, trim_start_blank in E.
    exists (String c rest). split; [exact E | reflexivity].
  - destruct IH as (ws & B & E1). exists ws. split; [exact B | ].
    cbn. rewrite <- E1. reflexivity.
Qed.

(** What [trim] returns is the string without a sequence of white space
    characters at its head and one at its end. *)
Lemma trim_spec (s : string) :
  exists before after,
    blank before /\ blank after
    /\ s = (before ++ trim s ++ after)%string.
Proof.
  destruct (trim_start_spec s) as (before & B1 & E1 & _).
  destruct (trim_end_spec (trim_start s)) as (after & B2 & E2).
  exists before, after. split; [exact B1 | split; [exact B2 | ]].
  unfold trim. rewrite <- E2. exact E1.
Qed.

Lemma trim_start_length (s : string) :
  (String.length (trim_start s) <= String.length s)%nat.
Proof.
  remember (String.length s) as n eqn:L.
  revert s L. induction n as [n IH] using lt_wf_ind. intros s L.
  destruct (trim_start_step s) as [(w & t & E & W & T & Lt) | E].
  - rewrite T. specialize (IH (String.length t) ltac:(lia) t eq_refl). lia.
  - rewrite E. lia.
Qed.

Lemma append_length (u v : string) :
  String.length (u ++ v)%string = (String.length u + String.length v)%nat.
Proof. induction u; cbn; congruence. Qed.

(** What [trim_start] returns does not start with white space. *)
Lemma trim_start_head (s w x : string) :
  is_white w = true -> trim_start s <> (w ++ x)%string.
Proof.
  intros W E.
  destruct (trim_start_spec s) as (_ & _ & _ & I).
  rewrite E in I at 1. rewrite trim_start_white in I by exact W.
  pose proof (trim_start_length x) as Lx. rewrite I, E in Lx.
  rewrite append_length in Lx.
  destruct w; [discriminate | cbn in Lx; lia].
Qed.

(** What [trim_end] returns does not end with white space. *)
Lemma trim_end_last (t x w : string) :
  is_white w = true -> trim_end t <> (x ++ w)%string.
Proof.
  intros W. revert x. induction t as [ | c rest IH]; intros x E.
  - cbn in E. destruct x; [ | discriminate].
    cbn in E. subst w. discriminate.
  - cbn [trim_end] in E. unfold all_white in E.
    destruct (String.eqb (trim_start (String c rest)) "") eqn:A.
    + destruct x; [ | discriminate]. cbn in E; subst w; discriminate.
    + destruct x as [ | d x'].
      * cbn in E.
        destruct (trim_end_spec (String c rest)) as (ws & B & E1).
        cbn [trim_end] in E1. unfold all_white in E1. rewrite A in E1.
        rewrite E in E1.
        apply String.eqb_neq in A. apply A, trim_start_blank.
        rewrite E1. constructor; assumption.
      * cbn in E. injection E as _ E. exact (IH x' E).
Qed.

(** What [trim] returns neither starts nor ends with white space. *)
Lemma trim_tight (s w x : string) :
  is_white w = true ->
  trim s <> (w ++ x)%string /\ trim s <> (x ++ w)%string.
Proof.
  intros W. split; [ | apply trim_end_last; exact W].
  unfold trim. intros E.
  destruct (trim_end_spec (trim_start s)) as (ws & _ & E1).
  rewrite E, append_assoc in E1.
  exact (trim_start_head s w _ W E1).
Qed.

(** The guard of [handleSubmit]: [trim] gives the empty string exactly
    on a sequence of white space characters. *)
Lemma trim_blank (s : string) : trim s = "" <-> blank s.
Proof.
  unfold trim. rewrite trim_end_empty.
  destruct (trim_start_spec s) as (_ & _ & _ & I). rewrite I.
  apply trim_start_blank.
Qed.

Section Component.

Variable CB : Type.
Variable props : Props CB.

(** The apology turn of the [catch] block. *)
Lemma resume_failed (now : Z) (r : FetchOutcome) (st : State) :
  (r = FetchRejects
   \/ (exists body, r = FetchResponse false body)
   \/ r = FetchResponse true None
   \/ r = FetchResponse true (Some JNull)) ->
  handleSubmit_resume CB props now r st
  = (mkState
       (messages st
        ++ [mkChatMessage (now + 1) tutor
              (Some (JStr "Sorry, I had trouble understanding that. Could you try again?"))
              now None])
       (input st) false (hintsUsed st) (showSolutionButton st),
     []).
Proof.
  intros [-> | [(body & ->) | [-> | ->]]]; try reflexivity.
Qed.

End Component.

(** X6.  A submission is sent exactly when the input is not blank and
    no call is in flight.  A blank input (empty, or white space only:
    spaces, tabs, line ends, and the other white space characters of
    JavaScript such as the no-break space) changes nothing: no student
    turn, no request.  Whether an input is blank is decided by
    [all_white]. *)
Theorem blank_input_is_not_submitted (CB : Type) (props : Props CB)
    (now : Z) (st : State) :
  (blank (input st) ->
   handleSubmit_begin CB props now st = Return (st, None))
  /\ ((exists st' request,
         handleSubmit_begin CB props now st = Return (st', Some request))
      <-> (~ blank (input st) /\ isLoading st = false))
  /\ (all_white (input st) = true <-> blank (input st)).
Proof.
  split; [ | split].
  3:{ unfold all_white. rewrite <- trim_start_blank. apply String.eqb_eq. }
  - intros B. apply trim_blank in B.
    unfold handleSubmit_begin. rewrite B. reflexivity.
  - unfold handleSubmit_begin.
    destruct (String.eqb (trim (input st)) "") eqn:T.
    + apply String.eqb_eq, trim_blank in T. cbn.
      split; [intros (st' & q & E); discriminate | intros [H _]; contradiction].
    + apply String.eqb_neq in T. cbn.
      destruct (isLoading st).
      * split; [intros (st' & q & E); discriminate
               | intros [_ H]; discriminate].
      * split; [ | intros _; eexists; eexists; reflexivity].
        intros _. split; [ | reflexivity].
        intros B. apply T, trim_blank, B.
Qed.

Lemma blank_input_is_not_submitted_witness :
  blank (" " ++ utf8 160)%string
  /\ handleSubmit_begin _ Sample.original_props 10
       (mkState [] (" " ++ utf8 160)%string false 0 false)
     = Return (mkState [] (" " ++ utf8 160)%string false 0 false, None).
Proof.
  assert (B : blank (" " ++ utf8 160)%string).
  { apply (blank_white " " (utf8 160) eq_refl).
    apply (blank_white (utf8 160) "" eq_refl). constructor. }
  split; [exact B | ].
  apply (proj1 (blank_input_is_not_submitted _ Sample.original_props 10
                  (mkState [] (" " ++ utf8 160)%string false 0 false))).
  exact B.
Defined.

(** X7.  A submission that is accepted always gets exactly one reply:
    whatever the call resolves with, the conversation grows by the
    student turn followed by one tutor turn, the input is cleared, and
    the component is no longer loading.  The text of the student turn
    is the trimmed input: the input without the white space before and
    after it, which neither starts nor ends with white space and is
    not empty. *)
Theorem accepted_submission_gets_one_reply (CB : Type) (props : Props CB)
    (now : Z) (r : FetchOutcome) (st : State) :
  String.eqb (trim (input st)) "" = false ->
  isLoading st = false ->
  exists reply,
    messages (fst (submit_turn CB props now r st))
    = messages st
      ++ [ mkChatMessage now student (Some (JStr (trim (input st)))) now None;
           reply ]
    /\ role reply = tutor
    /\ input (fst (submit_turn CB props now r st)) = ""
    /\ isLoading (fst (submit_turn CB props now r st)) = false
    /\ (exists before after,
          blank before /\ blank after
          /\ input st = (before ++ trim (input st) ++ after)%string)
    /\ (forall w x,
          is_white w = true ->
          trim (input st) <> (w ++ x)%string
          /\ trim (input st) <> (x ++ w)%string).
Proof.
  intros T L. unfold submit_turn, handleSubmit_begin. rewrite T, L; cbn.
  match goal with
  | |- context [handleSubmit_resume CB props now r ?s] =>
      destruct (TutorChatFacts.resume_state CB props now r s)
        as (m & o & E & R)
  end.
  exists m. rewrite E; cbn. rewrite <- app_assoc.
  split; [reflexivity | split; [exact R | split; [reflexivity | ]]].
  split; [reflexivity | split; [apply trim_spec | ]].
  intros w x W. apply trim_tight, W.
Qed.

Lemma accepted_submission_gets_one_reply_witness :
  exists reply,
    messages (fst (submit_turn _ Sample.original_props 10 FetchRejects
                     (mkState [] (" 500" ++ utf8 160)%string false 0 false)))
    = [ mkChatMessage 10 student (Some (JStr "500")) 10 None; reply ]
    /\ role reply = tutor.
Proof.
  destruct (accepted_submission_gets_one_reply _ Sample.original_props 10
              FetchRejects
              (mkState [] (" 500" ++ utf8 160)%string false 0 false)
              eq_refl eq_refl) as (reply & E & R & _).
  exists reply. split; [exact E | exact R].
Defined.

(** X8.  When the evaluation call fails (it rejects, the status is not
    ok, the body is not JSON, or the body is [null]), the turn ends in
    the fixed apology: a tutor turn without a badge; the hint counter
    and the solution offer are as they were, and no callback of the page
    is scheduled. *)
Theorem failed_evaluation_costs_no_hint (CB : Type) (props : Props CB)
    (now : Z) (r : FetchOutcome) (st : State) :
  (r = FetchRejects
   \/ (exists body, r = FetchResponse false body)
   \/ r = FetchResponse true None
   \/ r = FetchResponse true (Some JNull)) ->
  exists apology,
    handleSubmit_resume CB props now r st
    = (mkState (messages st ++ [apology]) (input st) false (hintsUsed st)
         (showSolutionButton st), [])
    /\ role apology = tutor
    /\ badge_type apology = None
    /\ text apology
       = Some (JStr "Sorry, I had trouble understanding that. Could you try again?").
Proof.
  intros F. rewrite (resume_failed CB props now r st F).
  eexists; repeat split.
Qed.

Lemma failed_evaluation_costs_no_hint_witness :
  hintsUsed
    (fst (handleSubmit_resume _ Sample.original_props 15
            (FetchResponse false (Some (Evaluate.error_body "Problem not found")))
            (mkState [] "" true 2 true))) = 2.
Proof.
  destruct (failed_evaluation_costs_no_hint _ Sample.original_props 15
              (FetchResponse false
                 (Some (Evaluate.error_body "Problem not found")))
              (mkState [] "" true 2 true)) as (a & E & _).
  - right; left; eexists; reflexivity.
  - rewrite E; reflexivity.
Defined.

(** X9.  When the solution call fails (it rejects, the body is not
    JSON, or the body is [null]), nothing is appended and the offer is
    kept: the chat is as it was before the click, so the learner can ask
    again. *)
Theorem failed_solution_request_keeps_offer (CB : Type) (props : Props CB)
    (now : Z) (r : FetchOutcome) (st : State) :
  (r = FetchRejects
   \/ (exists ok, r = FetchResponse ok None)
   \/ (exists ok, r = FetchResponse ok (Some JNull))) ->
  isLoading st = false ->
  handleShowSolution_resume CB now r
    (fst (handleShowSolution_begin CB props st))
  = (st, []).
Proof.
  intros F L. destruct st as [ms inp ld h sb]; cbn in L; subst ld.
  destruct F as [-> | [(ok & ->) | (ok & ->)]]; reflexivity.
Qed.

Lemma failed_solution_request_keeps_offer_witness :
  handleShowSolution_resume Home.Callback 40 FetchRejects
    (fst (handleShowSolution_begin _ Sample.original_props
            (mkState [] "" false 3 true)))
  = (mkState [] "" false 3 true, []).
Proof.
  apply (failed_solution_request_keeps_offer _ Sample.original_props 40
           FetchRejects (mkState [] "" false 3 true)).
  - left; reflexivity.
  - reflexivity.
Defined.

(** X10.  The conversation only grows: after any sequence of events,
    the turns that were there are still there, in the same order and
    unchanged, at the head of the conversation. *)
Theorem conversation_is_append_only (CB : Type) (props : Props CB)
    (evs : list Event) (s : Running) :
  exists added,
    messages (chat (run CB props evs s)) = messages (chat s) ++ added.
Proof.
  revert s. induction evs as [ | ev evs IH]; intros s.
  - exists []. cbn. rewrite app_nil_r. reflexivity.
  - change (run CB props (ev :: evs) s)
      with (run CB props evs (step CB props ev s)).
    destruct (IH (step CB props ev s)) as (more & E). rewrite E.
    assert (H : exists one,
               messages (chat (step CB props ev s))
               = messages (chat s) ++ one).
    { destruct ev as [v | now | | now r]; unfold step.
      - destruct (input_disabled (chat s)); exists []; cbn;
          rewrite app_nil_r; reflexivity.
      - destruct (TutorChatFacts.begin_cases CB props now (chat s))
          as [[_ B] | (_ & m & q & B & _)]; rewrite B; cbn.
        + exists []; rewrite app_nil_r; reflexivity.
        + exists [m]; reflexivity.
      - destruct (solution_button_enabled (chat s)); exists []; cbn;
          rewrite app_nil_r; reflexivity.
      - destruct (inflight s) as [ | [q | q] rest]; cbn [chat].
        + exists []; rewrite app_nil_r; reflexivity.
        + destruct (TutorChatFacts.resume_state CB props now r (chat s))
            as (m & o & R & _).
          rewrite R; cbn. exists [m]; reflexivity.
        + unfold handleShowSolution_resume.
          destruct r as [ | ok [ [] | ] ]; cbn;
            try (exists []; rewrite app_nil_r; reflexivity);
            eexists [_]; reflexivity. }
    destruct H as (one & H). rewrite H.
    exists (one ++ more). rewrite app_assoc. reflexivity.
Qed.

Lemma conversation_is_append_only_witness :
  exists added,
    messages (chat (run _ Sample.original_props (Sample.fallback_turns 2)
                      mounted))
    = [] ++ added.
Proof.
  exact (conversation_is_append_only _ Sample.original_props
           (Sample.fallback_turns 2) mounted).
Defined.

End TutorChatMore.

(* ================================================================== *)
(** ** The generation of similar problems *)

Module GenerateSimilarFacts.
Import JS Srv Types GenerateSimilar.

Lemma validate_valid (problems : list json) :
  validate problems = Return tt <->
  Forall (fun p => p <> JNull /\ valid_problem p = true) problems.
Proof.
  induction problems as [ | p ps IH]; cbn.
  - split; [constructor | reflexivity].
  - destruct p;
      try (destruct (valid_problem _) eqn:V;
           [ rewrite IH; split;
             [ intros H; constructor; [split; [discriminate | exact V] | exact H]
             | intros H; inversion H; assumption ]
           | split; [discriminate | intros H; inversion H as [ | ? ? [_ V'] _];
                                    congruence] ]).
    split; [discriminate | ].
    intros H; inversion H as [ | ? ? [N _] _]; congruence.
Qed.

Lemma validate_throws (problems : list json) :
  existsb (fun p => negb (valid_problem p)) problems = true ->
  exists msg, validate problems = Throw msg.
Proof.
  induction problems as [ | p ps IH]; cbn; [discriminate | ].
  intros H.
  destruct p; try (eexists; reflexivity);
    destruct (valid_problem _) eqn:V; cbn in H;
    try (eexists; reflexivity); apply IH; exact H.
Qed.

Lemma slice0_facts (problems : list json) (count : Z) :
  1 <= count ->
  problems <> [] ->
  slice0 problems count = firstn (Z.to_nat count) problems
  /\ slice0 problems count <> []
  /\ Z.of_nat (List.length (slice0 problems count)) <= count
  /\ (Z.of_nat (List.length problems) <= count ->
      slice0 problems count = problems)
  /\ (count = 1 -> exists p, slice0 problems count = [p]).
Proof.
  intros C N. unfold slice0.
  destruct (count <? 0) eqn:L; [apply Z.ltb_lt in L; lia | ].
  split; [reflexivity | ].
  destruct (Z.to_nat count) as [ | n] eqn:E; [lia | ].
  destruct problems as [ | p ps]; [congruence | ].
  split; [cbn; discriminate | split; [ | split]].
  - rewrite length_firstn. lia.
  - intros H. apply firstn_all2. lia.
  - intros ->. exists p. cbn in E.
    assert (n = 0%nat) by lia. subst n. reflexivity.
Qed.

Section WithCollaborators.

Variable openai_create : nat -> GenerateSimilarRequest -> LlmOutcome.
Variable JSON_parse : string -> option json.
Variable getProblemById : string -> M (option Problem).

Lemma try_calls (request : GenerateSimilarRequest) (w : World) :
  llm_calls (snd (generateSimilarProblems_try openai_create JSON_parse
                    request w)) = S (llm_calls w).
Proof.
  unfold generateSimilarProblems_try, bind, call_model.
  destruct (openai_create (llm_calls w) request) as [ | [s | ]]; cbn;
    try reflexivity.
  destruct (String.eqb s ""); [reflexivity | ].
  destruct (JSON_parse s) as [parsed | ]; [ | reflexivity].
  destruct (find_problems_array parsed) as [[[ | p ps] | ] | msg];
    try reflexivity.
  destruct (validate (p :: ps)); reflexivity.
Qed.

(** When the [try] block returns, it returns the head of an array that
    was found in the parsed text and passed the validation loop. *)
Lemma try_return (request : GenerateSimilarRequest) (w w1 : World)
    (generated : list json) :
  generateSimilarProblems_try openai_create JSON_parse request w
  = (Return generated, w1) ->
  exists s parsed problems,
    openai_create (llm_calls w) request = LlmContent (Some s)
    /\ JSON_parse s = Some parsed
    /\ find_problems_array parsed = Return (Some problems)
    /\ problems <> []
    /\ validate problems = Return tt
    /\ generated = slice0 problems (count request).
Proof.
  unfold generateSimilarProblems_try, bind, call_model.
  destruct (openai_create (llm_calls w) request) as [ | [s | ]] eqn:Ho; cbn;
    try discriminate.
  destruct (String.eqb s ""); [discriminate | ].
  destruct (JSON_parse s) as [parsed | ] eqn:Ep; [ | discriminate].
  destruct (find_problems_array parsed) as [[[ | p ps] | ] | msg] eqn:F;
    try discriminate.
  destruct (validate (p :: ps)) as [[] | msg] eqn:V; [ | discriminate].
  intros E; injection E as <- _.
  exists s, parsed, (p :: ps).
  split; [first [reflexivity | exact Ho] | ].
  split; [exact Ep | split; [exact F | ]].
  split; [discriminate | split; [exact V | reflexivity]].
Qed.

(** [generateSimilarProblems] returns what its [try] block returns, and
    throws, with the prefixed message, when the block throws. *)
Lemma generate_cases (request : GenerateSimilarRequest) (w : World) :
  (exists generated w1,
      generateSimilarProblems_try openai_create JSON_parse request w
      = (Return generated, w1)
      /\ generateSimilarProblems openai_create JSON_parse request w
         = (Return generated, w1))
  \/ (exists cause w1,
        generateSimilarProblems_try openai_create JSON_parse request w
        = (Throw cause, w1)
        /\ generateSimilarProblems openai_create JSON_parse request w
           = (Throw (String.append "Failed to generate similar problems: "
                       cause),
              mkWorld (llm_calls w1)
                (console_error w1 ++ ["Error generating similar problems:"]))).
Proof.
  unfold generateSimilarProblems, try_catch.
  destruct (generateSimilarProblems_try openai_create JSON_parse request w)
    as [[generated | cause] w1].
  - left; eauto.
  - right; exists cause, w1; split; reflexivity.
Qed.

Lemma generate_return (request : GenerateSimilarRequest) (w w' : World)
    (generated : list json) :
  generateSimilarProblems openai_create JSON_parse request w
  = (Return generated, w') ->
  1 <= count request ->
  generated <> []
  /\ Z.of_nat (List.length generated) <= count request
  /\ Forall (fun p => valid_problem p = true) generated
  /\ (count request = 1 -> exists p, generated = [p])
  /\ llm_calls w' = S (llm_calls w).
Proof.
  intros E C.
  destruct (generate_cases request w)
    as [(g & w1 & Et & Eg) | (cause & w1 & _ & Eg)];
    rewrite Eg in E; [ | discriminate].
  injection E as <- <-.
  pose proof (try_calls request w) as Hc. rewrite Et in Hc; cbn in Hc.
  destruct (try_return _ _ _ _ Et) as (s & parsed & problems & _ & _ & _ & N & V & ->).
  destruct (slice0_facts problems (count request) C N) as (S0 & N0 & L0 & _ & O0).
  repeat split; auto.
  rewrite S0. apply validate_valid in V.
  rewrite <- (firstn_skipn (Z.to_nat (count request)) problems) in V.
  apply Forall_app in V as [V _].
  revert V. apply Forall_impl. intros p [_ H]; exact H.
Qed.

End WithCollaborators.

(** X11.  When [generateSimilarProblems] returns for a count of at
    least 1, it has made one call to the model and it returns at least
    one problem and at most [count]; every problem returned has a truthy
    text, expected answer and explanation; for a count of 1 it returns
    exactly one problem. *)
Theorem generated_problems_are_complete
    (openai_create : nat -> GenerateSimilarRequest -> LlmOutcome)
    (JSON_parse : string -> option json)
    (request : GenerateSimilarRequest) (w w' : World)
    (generated : list json) :
  generateSimilarProblems openai_create JSON_parse request w
  = (Return generated, w') ->
  1 <= count request ->
  generated <> []
  /\ Z.of_nat (List.length generated) <= count request
  /\ Forall (fun p => valid_problem p = true) generated
  /\ (count request = 1 -> exists p, generated = [p])
  /\ llm_calls w' = S (llm_calls w).
Proof. apply generate_return. Qed.

Lemma generated_problems_are_complete_witness :
  exists p,
    fst (generateSimilarProblems (Sample2.generator_says "<two problems>")
           Sample2.parse2 Sample2.one_sibling Sample.world0)
    = Return [p].
Proof.
  destruct (generateSimilarProblems (Sample2.generator_says "<two problems>")
              Sample2.parse2 Sample2.one_sibling Sample.world0)
    as [[generated | msg] w'] eqn:E; [ | discriminate E].
  destruct (generated_problems_are_complete
              (Sample2.generator_says "<two problems>") Sample2.parse2
              Sample2.one_sibling Sample.world0 w' generated E)
    as (_ & _ & _ & One & _); [cbn; lia | ].
  destruct (One eq_refl) as (p & ->).
  exists p. reflexivity.
Defined.

(** X12.  The validation runs over the whole array the model sent,
    before the array is cut to [count]: one problem without a text, an
    expected answer or an explanation anywhere in the array, also beyond
    the first [count], makes the generation throw; the message starts
    with the fixed prefix. *)
Theorem one_incomplete_problem_fails_generation
    (openai_create : nat -> GenerateSimilarRequest -> LlmOutcome)
    (JSON_parse : string -> option json)
    (request : GenerateSimilarRequest) (w : World) (s : string)
    (parsed : json) (problems : list json) :
  openai_create (llm_calls w) request = LlmContent (Some s) ->
  String.eqb s "" = false ->
  JSON_parse s = Some parsed ->
  find_problems_array parsed = Return (Some problems) ->
  existsb (fun p => negb (valid_problem p)) problems = true ->
  exists cause w',
    generateSimilarProblems openai_create JSON_parse request w
    = (Throw (String.append "Failed to generate similar problems: " cause), w').
Proof.
  intros Ho Es Ep Ef Hbad.
  destruct (generate_cases openai_create JSON_parse request w)
    as [(g & w1 & Et & _) | (cause & w1 & _ & Eg)].
  - exfalso. destruct (try_return _ _ _ _ _ _ Et)
      as (s' & parsed' & problems' & Ho' & Ep' & Ef' & _ & V & _).
    rewrite Ho in Ho'; injection Ho' as <-.
    rewrite Ep in Ep'; injection Ep' as <-.
    rewrite Ef in Ef'; injection Ef' as <-.
    destruct (validate_throws problems Hbad) as (msg & T). congruence.
  - exists cause; eexists; exact Eg.
Qed.

Lemma one_incomplete_problem_fails_generation_witness :
  exists cause w',
    generateSimilarProblems
      (Sample2.generator_says "<one problem without a text>") Sample2.parse2
      Sample2.one_sibling Sample.world0
    = (Throw (String.append "Failed to generate similar problems: " cause), w').
Proof.
  eapply (one_incomplete_problem_fails_generation
            (Sample2.generator_says "<one problem without a text>")
            Sample2.parse2 Sample2.one_sibling Sample.world0
            "<one problem without a text>");
    reflexivity.
Defined.

(** X13.  When the parsed object holds an empty array under the key
    [problems], that array is the one taken, and the generation throws
    ("does not contain an array of problems") whatever the other fields
    hold: the other keys and the other array values are not looked at
    any more. *)
Theorem empty_array_shadows_later_keys
    (openai_create : nat -> GenerateSimilarRequest -> LlmOutcome)
    (JSON_parse : string -> option json)
    (request : GenerateSimilarRequest) (w : World) (s : string)
    (fields : list (string * json)) :
  openai_create (llm_calls w) request = LlmContent (Some s) ->
  String.eqb s "" = false ->
  JSON_parse s = Some (JObj fields) ->
  assoc "problems" fields = Some (JArr []) ->
  find_problems_array (JObj fields) = Return (Some [])
  /\ generateSimilarProblems openai_create JSON_parse request w
     = (Throw "Failed to generate similar problems: Response does not contain an array of problems",
        mkWorld (S (llm_calls w))
          (console_error w
           ++ ["Unable to parse GPT response:";
               "Error generating similar problems:"])).
Proof.
  intros Ho Es Ep Ha.
  assert (F : find_problems_array (JObj fields) = Return (Some [])).
  { cbn. rewrite Ha. reflexivity. }
  split; [exact F | ].
  unfold generateSimilarProblems, try_catch, generateSimilarProblems_try,
    bind, call_model.
  rewrite Ho; cbn. rewrite Es, Ep, F. cbn.
  rewrite <- app_assoc. reflexivity.
Qed.

Lemma empty_array_shadows_later_keys_witness :
  fst (generateSimilarProblems
         (Sample2.generator_says "<empty problems, then items>")
         Sample2.parse2 Sample2.one_sibling Sample.world0)
  = Throw "Failed to generate similar problems: Response does not contain an array of problems".
Proof.
  rewrite (proj2 (empty_array_shadows_later_keys
                    (Sample2.generator_says "<empty problems, then items>")
                    Sample2.parse2 Sample2.one_sibling Sample.world0
                    "<empty problems, then items>"
                    [ ("problems", JArr []);
                      ("items",
                       JArr [ Sample2.generated_problem "Add 222 to 345." ]) ]
                    eq_refl eq_refl eq_refl eq_refl)).
  reflexivity.
Defined.

End GenerateSimilarFacts.

(* ================================================================== *)
(** ** The route [POST /api/generate-similar] and the page *)

Module GenerateRouteFacts.
Import JS Srv Types GenerateSimilar.

Section WithCollaborators.

Variable openai_create : nat -> GenerateSimilarRequest -> LlmOutcome.
Variable JSON_parse : string -> option json.
Variable getProblemById : string -> M (option Problem).

(** The route, case by case. *)
Lemma generate_POST_cases (b : GenerateBody) (w : World) :
  exists r w',
    POST openai_create JSON_parse getProblemById b w = (Return r, w')
    /\ ((Evaluate.status r = 400 /\ w' = w
         /\ (problem_id b = ""
             \/ (problem_id b <> ""
                 /\ (effective_count b < 1 \/ 5 < effective_count b)
                 /\ Evaluate.body r
                    = Evaluate.error_body "count must be between 1 and 5")))
        \/ (Evaluate.status r = 404
            /\ 1 <= effective_count b <= 5
            /\ getProblemById (problem_id b) w = (Return None, w'))
        \/ (Evaluate.status r = 500 /\ 1 <= effective_count b <= 5)
        \/ (Evaluate.status r = 200
            /\ 1 <= effective_count b <= 5
            /\ exists generated,
                 Evaluate.body r
                 = JObj [ ("original_problem_id", JStr (problem_id b));
                          ("count", JNum (Z.of_nat (List.length generated)));
                          ("difficulty_adjustment",
                           JStr (difficulty_name (effective_difficulty b)));
                          ("problems", JArr generated) ]
                 /\ generated <> []
                 /\ Z.of_nat (List.length generated) <= effective_count b
                 /\ Forall (fun p => valid_problem p = true) generated
                 /\ (effective_count b = 1 -> exists p, generated = [p]))).
Proof.
  unfold POST, try_catch, bind.
  destruct (String.eqb (problem_id b) "") eqn:Ei.
  { apply String.eqb_eq in Ei.
    eexists; eexists; split; [reflexivity | ]. left; auto. }
  apply String.eqb_neq in Ei.
  destruct ((effective_count b <? 1) || (5 <? effective_count b))%bool eqn:Ec.
  { eexists; eexists; split; [reflexivity | ]. left.
    split; [reflexivity | split; [reflexivity | right]].
    split; [exact Ei | split; [ | reflexivity]].
    apply orb_true_iff in Ec as [Ec | Ec]; apply Z.ltb_lt in Ec; lia. }
  apply orb_false_iff in Ec as [E1 E5].
  apply Z.ltb_ge in E1, E5.
  destruct (getProblemById (problem_id b) w) as [[[problem | ] | msg] w1] eqn:Ep.
  3:{ eexists; eexists; split; [reflexivity | ].
      right; right; left; split; [reflexivity | lia]. }
  2:{ eexists; eexists; split; [reflexivity | ].
      right; left; split; [reflexivity | split; [lia | reflexivity]]. }
  destruct (generateSimilarProblems openai_create JSON_parse
              (mkGenerateSimilarRequest problem (effective_count b)
                 (Some (effective_difficulty b))) w1)
    as [[generated | msg] w2] eqn:Eg.
  - destruct (GenerateSimilarFacts.generate_return _ _ _ _ _ _ Eg E1)
      as (N & L & V & O & _).
    eexists; eexists; split; [reflexivity | ].
    right; right; right. split; [reflexivity | split; [lia | ]].
    exists generated. repeat split; auto.
  - eexists; eexists; split; [reflexivity | ].
    right; right; left; split; [reflexivity | lia].
Qed.

End WithCollaborators.

(** X14.  The generation route never throws and answers with status
    200, 400, 404 or 500.  With status 200 the body holds, under
    [problems], between one and [count] problems (at most 5), each with
    a truthy text, expected answer and explanation, and [count] is
    their number; a request for one problem, as the page sends it, is
    answered with exactly one. *)
Theorem generate_route_total
    (openai_create : nat -> GenerateSimilarRequest -> LlmOutcome)
    (JSON_parse : string -> option json)
    (getProblemById : string -> M (option Problem))
    (b : GenerateBody) (w : World) :
  exists r w',
    POST openai_create JSON_parse getProblemById b w = (Return r, w')
    /\ (Evaluate.status r = 200 \/ Evaluate.status r = 400
        \/ Evaluate.status r = 404 \/ Evaluate.status r = 500)
    /\ (Evaluate.status r = 200 ->
        exists generated,
          get "problems" (Evaluate.body r) = Some (JArr generated)
          /\ get "count" (Evaluate.body r)
             = Some (JNum (Z.of_nat (List.length generated)))
          /\ generated <> []
          /\ Z.of_nat (List.length generated) <= effective_count b <= 5
          /\ Forall (fun p => valid_problem p = true) generated
          /\ (effective_count b = 1 -> exists p, generated = [p])).
Proof.
  destruct (generate_POST_cases openai_create JSON_parse getProblemById b w)
    as (r & w' & E & H).
  exists r, w'. split; [exact E | ].
  destruct H as [(S & _) | [(S & _) | [(S & _) | (S & C & g & B & N & L & V & O)]]];
    rewrite S; (split; [auto | ]); intros H'; try discriminate.
  exists g. rewrite B. repeat split; auto; lia.
Qed.

Lemma generate_route_total_witness :
  exists r w',
    POST (Sample2.generator_says "<two problems>") Sample2.parse2 Sample.store
      (mastery_request "problem_00001") Sample.world0
    = (Return r, w')
    /\ (Evaluate.status r = 200 \/ Evaluate.status r = 400
        \/ Evaluate.status r = 404 \/ Evaluate.status r = 500).
Proof.
  destruct (generate_route_total (Sample2.generator_says "<two problems>")
              Sample2.parse2 Sample.store (mastery_request "problem_00001")
              Sample.world0)
    as (r & w' & E & S & _).
  exists r, w'. split; [exact E | exact S].
Defined.

(** X15.  How the route treats [count]: a count that is missing or 0
    is taken as 3, so a request for 0 problems is answered like a
    request for 3; a count below 0 or above 5 is answered with status
    400 before the store or the model is asked. *)
Theorem generate_route_count
    (openai_create : nat -> GenerateSimilarRequest -> LlmOutcome)
    (JSON_parse : string -> option json)
    (getProblemById : string -> M (option Problem))
    (id : string) (d : option Difficulty) (w : World) :
  POST openai_create JSON_parse getProblemById (mkGenerateBody id (Some 0) d) w
  = POST openai_create JSON_parse getProblemById (mkGenerateBody id (Some 3) d) w
  /\ POST openai_create JSON_parse getProblemById (mkGenerateBody id None d) w
     = POST openai_create JSON_parse getProblemById
         (mkGenerateBody id (Some 3) d) w
  /\ (forall c,
        id <> "" ->
        c < 0 \/ 5 < c ->
        POST openai_create JSON_parse getProblemById
          (mkGenerateBody id (Some c) d) w
        = (Return (Evaluate.mkHttpResponse 400
                     (Evaluate.error_body "count must be between 1 and 5")),
           w)).
Proof.
  split; [reflexivity | split; [reflexivity | ]].
  intros c Hid Hc. unfold POST, try_catch; cbn.
  apply String.eqb_neq in Hid. rewrite Hid.
  unfold effective_count; cbn.
  destruct (c =? 0) eqn:Z0; [apply Z.eqb_eq in Z0; lia | ].
  assert (G : ((c <? 1) || (5 <? c))%bool = true).
  { apply orb_true_iff. destruct Hc; [left | right]; apply Z.ltb_lt; lia. }
  rewrite G. reflexivity.
Qed.

Lemma generate_route_count_witness :
  POST Sample2.no_generator Sample.parse Sample.store
    (mkGenerateBody "problem_00001" (Some 6) None) Sample.world0
  = (Return (Evaluate.mkHttpResponse 400
               (Evaluate.error_body "count must be between 1 and 5")),
     Sample.world0).
Proof.
  apply (proj2 (proj2 (generate_route_count Sample2.no_generator Sample.parse
                         Sample.store "problem_00001" None Sample.world0))).
  - discriminate.
  - right; lia.
Defined.




End GenerateRouteFacts.

(* ================================================================== *)
(** ** The diagnostic, the practice recommendations and their route *)

Module DiagnoseRouteFacts.
Import JS Srv Types Contract DiagnoseRoute.

Section WithCollaborators.

Variable openai_create : nat -> Prompt -> LlmOutcome.
Variable openai_practice : nat -> json -> Problem -> LlmOutcome.
Variable JSON_parse : string -> option json.
Variable getProblemById : string -> M (option Problem).

Lemma incomplete_diagnostic_test (v : json) :
  (negb (truthy (get "misconception_type" v))
   || negb (truthy (get "confidence" v))
   || negb (truthy (get "description" v)))%bool
  = negb (complete_diagnostic v).
Proof.
  unfold complete_diagnostic.
  destruct (truthy (get "misconception_type" v)),
    (truthy (get "confidence" v)), (truthy (get "description" v));
    reflexivity.
Qed.

Lemma diagnoseStudent_try_return (p : Prompt) (w w1 : World) (v : json) :
  Diagnose.diagnoseStudent_try openai_create JSON_parse p w = (Return v, w1) ->
  exists s,
    openai_create (llm_calls w) p = LlmContent (Some s)
    /\ String.eqb s "" = false
    /\ JSON_parse s = Some v
    /\ complete_diagnostic v = true.
Proof.
  unfold Diagnose.diagnoseStudent_try, bind, Evaluate.call_model.
  destruct (openai_create (llm_calls w) p) as [ | [s | ]]; cbn;
    try discriminate.
  destruct (String.eqb s "") eqn:Es; [discriminate | ].
  destruct (JSON_parse s) as [v' | ] eqn:Ep; [ | discriminate].
  intros E. exists s.
  destruct v'; try discriminate;
    rewrite incomplete_diagnostic_test in E;
    match type of E with
    | context [complete_diagnostic ?x] =>
        destruct (complete_diagnostic x) eqn:C; cbn in E; try discriminate
    end;
    injection E as <- _; auto.
Qed.

(** What [diagnoseStudent] does, whatever the model does. *)
Lemma diagnoseStudent_outcome (request : Diagnose.DiagnosticRequest)
    (w : World) :
  exists v w',
    Diagnose.diagnoseStudent openai_create JSON_parse request w
    = (Return v, w')
    /\ complete_diagnostic v = true
    /\ v <> JNull
    /\ llm_calls w' = S (llm_calls w)
    /\ ((exists s,
           openai_create (llm_calls w)
             (DiagnosticPrompt (Diagnose.problem request)
                (Diagnose.conversation_history request)
                (Diagnose.student_answers request)
                (Diagnose.hints_given request)
                (Diagnose.attempts_count request)) = LlmContent (Some s)
           /\ JSON_parse s = Some v
           /\ console_error w' = console_error w)
        \/ (v = Diagnose.fallback
            /\ console_error w'
               = console_error w ++ ["Error diagnosing student:"])).
Proof.
  unfold Diagnose.diagnoseStudent.
  set (p := DiagnosticPrompt _ _ _ _ _).
  pose proof (ServerFacts.diagnoseStudent_try_world openai_create JSON_parse
                p w) as Hw.
  destruct (Diagnose.diagnoseStudent_try openai_create JSON_parse p w)
    as [[v | msg] w1] eqn:E; cbn in Hw; subst w1.
  - destruct (diagnoseStudent_try_return _ _ _ _ E) as (s & Ho & _ & Ep & C).
    exists v; eexists. unfold try_catch; rewrite E.
    split; [reflexivity | split; [exact C | split; [ | split; [reflexivity | ]]]].
    + intros ->; discriminate.
    + left; exists s; auto.
  - exists Diagnose.fallback; eexists.
    rewrite (ServerFacts.try_catch_throw _ _ _ _ _ _ E).
    split; [reflexivity | split; [reflexivity | split; [discriminate | ]]].
    split; [reflexivity | right; split; reflexivity].
Qed.

(** [getRecommendedPractice] for a diagnostic that needs no practice. *)
Lemma practice_kept_going (diagnostic : json) (problem : Problem)
    (w : World) :
  diagnostic <> JNull ->
  (is_str (get "misconception_type" diagnostic) "none"
   || is_str (get "misconception_type" diagnostic) "careless_error")%bool
  = true ->
  getRecommendedPractice openai_practice JSON_parse diagnostic problem w
  = (Return (Some keep_going), w).
Proof.
  intros N H. unfold getRecommendedPractice.
  destruct diagnostic; try congruence; rewrite H; reflexivity.
Qed.

(** [getRecommendedPractice] for any other diagnostic. *)
Lemma practice_asked (diagnostic : json) (problem : Problem) (w : World) :
  diagnostic <> JNull ->
  (is_str (get "misconception_type" diagnostic) "none"
   || is_str (get "misconception_type" diagnostic) "careless_error")%bool
  = false ->
  exists v w',
    getRecommendedPractice openai_practice JSON_parse diagnostic problem w
    = (Return v, w')
    /\ llm_calls w' = S (llm_calls w)
    /\ (v = get "recommendations" diagnostic
        \/ exists s parsed,
             openai_practice (llm_calls w) diagnostic problem
             = LlmContent (Some s)
             /\ JSON_parse s = Some parsed
             /\ truthy (get "recommendations" parsed) = true
             /\ v = get "recommendations" parsed).
Proof.
  intros N H.
  assert (E : getRecommendedPractice openai_practice JSON_parse diagnostic
                problem w
              = try_catch
                  (Srv.bind (call_practice openai_practice diagnostic problem)
                     (fun responseText =>
                        match responseText with
                        | None => ret (get "recommendations" diagnostic)
                        | Some s =>
                            if String.eqb s ""
                            then ret (get "recommendations" diagnostic)
                            else
                              match JSON_parse s with
                              | None => throw "SyntaxError"
                              | Some JNull => throw "TypeError"
                              | Some parsed =>
                                  ret (or_else (get "recommendations" parsed)
                                         (get "recommendations" diagnostic))
                              end
                        end))
                  (fun error =>
                     Srv.bind
                       (log_error "Error getting practice recommendations:")
                       (fun _ => ret (get "recommendations" diagnostic))) w).
  { unfold getRecommendedPractice.
    destruct diagnostic; try congruence; rewrite H; reflexivity. }
  rewrite E. unfold try_catch, bind, call_practice.
  destruct (openai_practice (llm_calls w) diagnostic problem)
    as [ | [s | ]] eqn:Ho; cbn.
  - eexists; eexists; split; [reflexivity | split; [reflexivity | left; reflexivity]].
  - destruct (String.eqb s "").
    { eexists; eexists; split; [reflexivity | split; [reflexivity | left; reflexivity]]. }
    destruct (JSON_parse s) as [parsed | ] eqn:Ep.
    2:{ eexists; eexists; split; [reflexivity | split; [reflexivity | left; reflexivity]]. }
    destruct parsed;
      try (eexists; eexists; split; [reflexivity | split; [reflexivity | left; reflexivity]]).
    unfold or_else, get.
    destruct (truthy (assoc "recommendations" fields)) eqn:T.
    + eexists; eexists; split; [reflexivity | split; [reflexivity | right]].
      exists s, (JObj fields). auto.
    + eexists; eexists; split; [reflexivity | split; [reflexivity | left; reflexivity]].
  - eexists; eexists; split; [reflexivity | split; [reflexivity | left; reflexivity]].
Qed.

(** Which recommendations are returned when the model is asked. *)
Lemma practice_decided (diagnostic : json) (problem : Problem) (w : World) :
  diagnostic <> JNull ->
  (is_str (get "misconception_type" diagnostic) "none"
   || is_str (get "misconception_type" diagnostic) "careless_error")%bool
  = false ->
  exists v w',
    getRecommendedPractice openai_practice JSON_parse diagnostic problem w
    = (Return v, w')
    /\ llm_calls w' = S (llm_calls w)
    /\ (forall s parsed,
          openai_practice (llm_calls w) diagnostic problem
          = LlmContent (Some s) ->
          s <> "" ->
          JSON_parse s = Some parsed ->
          truthy (get "recommendations" parsed) = true ->
          v = get "recommendations" parsed
          /\ console_error w' = console_error w)
    /\ ((openai_practice (llm_calls w) diagnostic problem = LlmThrows
         \/ openai_practice (llm_calls w) diagnostic problem
            = LlmContent None
         \/ openai_practice (llm_calls w) diagnostic problem
            = LlmContent (Some "")
         \/ (exists s,
               openai_practice (llm_calls w) diagnostic problem
               = LlmContent (Some s) /\ JSON_parse s = None)
         \/ (exists s parsed,
               openai_practice (llm_calls w) diagnostic problem
               = LlmContent (Some s) /\ JSON_parse s = Some parsed
               /\ truthy (get "recommendations" parsed) = false)) ->
        v = get "recommendations" diagnostic).
Proof.
  intros N H.
  assert (E : getRecommendedPractice openai_practice JSON_parse diagnostic
                problem w
              = try_catch
                  (Srv.bind (call_practice openai_practice diagnostic problem)
                     (fun responseText =>
                        match responseText with
                        | None => ret (get "recommendations" diagnostic)
                        | Some s =>
                            if String.eqb s ""
                            then ret (get "recommendations" diagnostic)
                            else
                              match JSON_parse s with
                              | None => throw "SyntaxError"
                              | Some JNull => throw "TypeError"
                              | Some parsed =>
                                  ret (or_else (get "recommendations" parsed)
                                         (get "recommendations" diagnostic))
                              end
                        end))
                  (fun error =>
                     Srv.bind
                       (log_error "Error getting practice recommendations:")
                       (fun _ => ret (get "recommendations" diagnostic))) w).
  { unfold getRecommendedPractice.
    destruct diagnostic; try congruence; rewrite H; reflexivity. }
  rewrite E. unfold try_catch, bind, call_practice.
  destruct (openai_practice (llm_calls w) diagnostic problem)
    as [ | [s | ]] eqn:Ho; cbn.
  - eexists; eexists; split; [reflexivity | split; [reflexivity | split]].
    + intros s parsed Hs; discriminate.
    + reflexivity.
  - destruct (String.eqb s "") eqn:Es.
    { apply String.eqb_eq in Es.
      eexists; eexists; split; [reflexivity | split; [reflexivity | split]].
      - intros s' parsed Hs Hn. injection Hs as <-. destruct (Hn Es).
      - reflexivity. }
    apply String.eqb_neq in Es.
    destruct (JSON_parse s) as [parsed | ] eqn:Ep.
    2:{ eexists; eexists; split; [reflexivity | split; [reflexivity | split]].
        - intros s' parsed Hs _ Hp. injection Hs as <-. congruence.
        - reflexivity. }
    assert (Hfall :
      forall v,
        (truthy (get "recommendations" parsed) = true ->
         v = get "recommendations" parsed) ->
        (truthy (get "recommendations" parsed) = false ->
         v = get "recommendations" diagnostic) ->
        (openai_practice (llm_calls w) diagnostic problem = LlmThrows
         \/ LlmContent (Some s) = LlmContent None
         \/ LlmContent (Some s) = LlmContent (Some "")
         \/ (exists s0,
               LlmContent (Some s) = LlmContent (Some s0)
               /\ JSON_parse s0 = None)
         \/ (exists s0 parsed0,
               LlmContent (Some s) = LlmContent (Some s0)
               /\ JSON_parse s0 = Some parsed0
               /\ truthy (get "recommendations" parsed0) = false)) ->
        v = get "recommendations" diagnostic).
    { intros v _ Hf [F | [F | [F | [(s0 & F & Hp) | (s0 & p0 & F & Hp & T)]]]].
      - congruence.
      - discriminate.
      - injection F as F. destruct (Es F).
      - injection F as <-. congruence.
      - injection F as <-. rewrite Ep in Hp. injection Hp as <-.
        apply Hf, T. }
    rewrite Ho in Hfall.
    destruct parsed;
      try (eexists; eexists;
           split; [reflexivity | split; [reflexivity | split]];
           [ intros s' parsed Hs _ Hp T; injection Hs as <-;
             rewrite Ep in Hp; injection Hp as <-; discriminate
           | apply Hfall; [discriminate | reflexivity] ]).
    unfold or_else.
    destruct (truthy (get "recommendations" (JObj fields))) eqn:T.
    + eexists; eexists; split; [reflexivity | split; [reflexivity | split]].
      * intros s' parsed Hs _ Hp _. injection Hs as <-.
        rewrite Ep in Hp. injection Hp as <-. split; reflexivity.
      * apply Hfall; [reflexivity | discriminate].
    + eexists; eexists; split; [reflexivity | split; [reflexivity | split]].
      * intros s' parsed Hs _ Hp T'. injection Hs as <-.
        rewrite Ep in Hp. injection Hp as <-. congruence.
      * reflexivity.
  - eexists; eexists; split; [reflexivity | split; [reflexivity | split]].
    + intros s parsed Hs; discriminate.
    + reflexivity.
Qed.

End WithCollaborators.

(** X17.  Whatever the model does, the value [diagnoseStudent] returns
    has a truthy [misconception_type], [confidence] and [description]:
    it is the text of the model, parsed (returned as it is, no value is
    checked against the list of misconception types), or the fallback,
    and a line is logged exactly in the second case. *)
Theorem diagnostic_always_complete
    (openai_create : nat -> Prompt -> LlmOutcome)
    (JSON_parse : string -> option json)
    (request : Diagnose.DiagnosticRequest) (w : World) :
  exists v w',
    Diagnose.diagnoseStudent openai_create JSON_parse request w
    = (Return v, w')
    /\ complete_diagnostic v = true
    /\ ((exists s,
           openai_create (llm_calls w)
             (DiagnosticPrompt (Diagnose.problem request)
                (Diagnose.conversation_history request)
                (Diagnose.student_answers request)
                (Diagnose.hints_given request)
                (Diagnose.attempts_count request)) = LlmContent (Some s)
           /\ JSON_parse s = Some v
           /\ console_error w' = console_error w)
        \/ (v = Diagnose.fallback
            /\ console_error w'
               = console_error w ++ ["Error diagnosing student:"])).
Proof.
  destruct (diagnoseStudent_outcome openai_create JSON_parse request w)
    as (v & w' & E & C & _ & _ & H).
  exists v, w'. auto.
Qed.

Lemma diagnostic_always_complete_witness :
  exists v w',
    Diagnose.diagnoseStudent Sample.model_down Sample.parse
      (Diagnose.mkDiagnosticRequest Sample.problem [] ["500"] 3 1)
      Sample.world0
    = (Return v, w')
    /\ complete_diagnostic v = true.
Proof.
  destruct (diagnostic_always_complete Sample.model_down Sample.parse
              (Diagnose.mkDiagnosticRequest Sample.problem [] ["500"] 3 1)
              Sample.world0)
    as (v & w' & E & C & _).
  exists v, w'. split; [exact E | exact C].
Defined.

(** X18.  For a diagnostic whose misconception is [none] or
    [careless_error], [getRecommendedPractice] returns its two fixed
    recommendations without calling the model; in particular for the
    fallback of [diagnoseStudent], whose own recommendations are not the
    ones returned. *)
Theorem no_practice_call_without_misconception
    (openai_practice : nat -> json -> Problem -> LlmOutcome)
    (JSON_parse : string -> option json)
    (diagnostic : json) (problem : Problem) (w : World) :
  diagnostic <> JNull ->
  is_str (get "misconception_type" diagnostic) "none" = true
  \/ is_str (get "misconception_type" diagnostic) "careless_error" = true ->
  getRecommendedPractice openai_practice JSON_parse diagnostic problem w
  = (Return (Some keep_going), w)
  /\ getRecommendedPractice openai_practice JSON_parse Diagnose.fallback
       problem w
     = (Return (Some keep_going), w)
  /\ get "recommendations" Diagnose.fallback <> Some keep_going.
Proof.
  intros N H. split; [ | split].
  - apply practice_kept_going; [exact N | ].
    destruct H as [-> | ->]; [reflexivity | apply orb_true_r].
  - reflexivity.
  - discriminate.
Qed.

Lemma no_practice_call_without_misconception_witness :
  getRecommendedPractice Sample2.no_practice Sample.parse
    (JObj [ ("misconception_type", JStr "careless_error") ]) Sample.problem
    Sample.world0
  = (Return (Some keep_going), Sample.world0).
Proof.
  apply (no_practice_call_without_misconception Sample2.no_practice
           Sample.parse
           (JObj [ ("misconception_type", JStr "careless_error") ])
           Sample.problem Sample.world0).
  - discriminate.
  - right; reflexivity.
Defined.

(** X19.  For any other diagnostic, [getRecommendedPractice] calls the
    model once and always returns.  When the text of the model is not
    empty and parses to a value whose [recommendations] are truthy,
    these are the ones returned, and nothing is logged; in every other
    case (the call throws, the text is missing, empty or cannot be
    parsed, or the parsed value has no truthy [recommendations]) the
    [recommendations] of the diagnostic are returned, which are
    [undefined] when the diagnostic has none. *)
Theorem practice_falls_back_on_the_diagnostic
    (openai_practice : nat -> json -> Problem -> LlmOutcome)
    (JSON_parse : string -> option json)
    (diagnostic : json) (problem : Problem) (w : World) :
  diagnostic <> JNull ->
  is_str (get "misconception_type" diagnostic) "none" = false ->
  is_str (get "misconception_type" diagnostic) "careless_error" = false ->
  exists v w',
    getRecommendedPractice openai_practice JSON_parse diagnostic problem w
    = (Return v, w')
    /\ llm_calls w' = S (llm_calls w)
    /\ (forall s parsed,
          openai_practice (llm_calls w) diagnostic problem
          = LlmContent (Some s) ->
          s <> "" ->
          JSON_parse s = Some parsed ->
          truthy (get "recommendations" parsed) = true ->
          v = get "recommendations" parsed
          /\ console_error w' = console_error w)
    /\ ((openai_practice (llm_calls w) diagnostic problem = LlmThrows
         \/ openai_practice (llm_calls w) diagnostic problem
            = LlmContent None
         \/ openai_practice (llm_calls w) diagnostic problem
            = LlmContent (Some "")
         \/ (exists s,
               openai_practice (llm_calls w) diagnostic problem
               = LlmContent (Some s) /\ JSON_parse s = None)
         \/ (exists s parsed,
               openai_practice (llm_calls w) diagnostic problem
               = LlmContent (Some s) /\ JSON_parse s = Some parsed
               /\ truthy (get "recommendations" parsed) = false)) ->
        v = get "recommendations" diagnostic).
Proof.
  intros N H1 H2. apply practice_decided; [exact N | ].
  rewrite H1, H2; reflexivity.
Qed.

Lemma practice_falls_back_on_the_diagnostic_witness :
  exists w',
    getRecommendedPractice (Sample2.practice_says "<recommendations>")
      Sample2.parse2
      (JObj [ ("misconception_type", JStr "arithmetic");
              ("recommendations", JArr [ JStr "Revise the tables." ]) ])
      Sample.problem Sample.world0
    = (Return (Some (JArr [ JStr "Practise carrying over into the tens." ])),
       w').
Proof.
  destruct (practice_falls_back_on_the_diagnostic
              (Sample2.practice_says "<recommendations>") Sample2.parse2
              (JObj [ ("misconception_type", JStr "arithmetic");
                      ("recommendations", JArr [ JStr "Revise the tables." ]) ])
              Sample.problem Sample.world0)
    as (v & w' & E & _ & P & _); try reflexivity; try discriminate.
  exists w'. rewrite E.
  rewrite (proj1 (P "<recommendations>" _ eq_refl ltac:(discriminate)
                    eq_refl eq_refl)).
  reflexivity.
Defined.

(** X20.  The diagnose route with the model down: for a problem of the
    store and at least one answer, the route answers with status 200,
    the fallback diagnostic and, when practice recommendations are asked
    for, the two fixed ones; the model is called once, for the
    diagnostic, and not a second time. *)
Theorem diagnose_route_with_model_down
    (openai_create : nat -> Prompt -> LlmOutcome)
    (openai_practice : nat -> json -> Problem -> LlmOutcome)
    (JSON_parse : string -> option json)
    (getProblemById : string -> M (option Problem))
    (b : DiagnoseBody) (first : string) (others : list string)
    (problem : Problem) (w w1 : World) :
  problem_id b <> "" ->
  student_answers b = Some (first :: others) ->
  getProblemById (problem_id b) w = (Return (Some problem), w1) ->
  (forall p, openai_create (llm_calls w1) p = LlmThrows) ->
  POST openai_create openai_practice JSON_parse getProblemById b w
  = (Return
       (Evaluate.mkHttpResponse 200
          (JObj (with_optional
                   [ ("problem_id", JStr (problem_id b));
                     ("attempts_analyzed",
                      JNum (Z.of_nat (List.length (first :: others))));
                     ("diagnostic", Diagnose.fallback) ]
                   "practice_recommendations"
                   (if get_practice_recommendations b
                    then Some keep_going else None)))),
     mkWorld (S (llm_calls w1))
       (console_error w1 ++ ["Error diagnosing student:"])).
Proof.
  intros Hid Ha Hp Hdown.
  apply String.eqb_neq in Hid.
  unfold POST, try_catch, bind. rewrite Ha, Hid, Hp.
  unfold Diagnose.diagnoseStudent, try_catch, Diagnose.diagnoseStudent_try,
    bind, Evaluate.call_model.
  rewrite Hdown. cbn.
  destruct (get_practice_recommendations b); reflexivity.
Qed.

Lemma diagnose_route_with_model_down_witness :
  POST Sample.model_down Sample2.no_practice Sample.parse Sample.store
    (mkDiagnoseBody "problem_00001" None (Some ["500"]) None true)
    Sample.world0
  = (Return
       (Evaluate.mkHttpResponse 200
          (JObj [ ("problem_id", JStr "problem_00001");
                  ("attempts_analyzed", JNum 1);
                  ("diagnostic", Diagnose.fallback);
                  ("practice_recommendations", keep_going) ])),
     mkWorld 1 ["Error diagnosing student:"]).
Proof.
  apply (diagnose_route_with_model_down Sample.model_down Sample2.no_practice
           Sample.parse Sample.store
           (mkDiagnoseBody "problem_00001" None (Some ["500"]) None true)
           "500" [] Sample.problem Sample.world0 Sample.world0).
  - discriminate.
  - reflexivity.
  - reflexivity.
  - reflexivity.
Defined.

(** X21.  The diagnose route never throws and answers with status 200,
    400, 404 or 500; it answers 400, before the store or the model is
    asked, exactly when the problem id is empty or there is no answer
    at all; and with status 200 the body holds a diagnostic with a
    truthy [misconception_type], [confidence] and [description], and
    the number of answers under [attempts_analyzed]. *)
Theorem diagnose_route_total
    (openai_create : nat -> Prompt -> LlmOutcome)
    (openai_practice : nat -> json -> Problem -> LlmOutcome)
    (JSON_parse : string -> option json)
    (getProblemById : string -> M (option Problem))
    (b : DiagnoseBody) (w : World) :
  exists r w',
    POST openai_create openai_practice JSON_parse getProblemById b w
    = (Return r, w')
    /\ (Evaluate.status r = 200 \/ Evaluate.status r = 400
        \/ Evaluate.status r = 404 \/ Evaluate.status r = 500)
    /\ (Evaluate.status r = 400 <->
        (problem_id b = "" \/ student_answers b = None
         \/ student_answers b = Some []))
    /\ (Evaluate.status r = 400 -> w' = w)
    /\ (Evaluate.status r = 200 ->
        exists diagnostic answers,
          student_answers b = Some answers
          /\ get "diagnostic" (Evaluate.body r) = Some diagnostic
          /\ complete_diagnostic diagnostic = true
          /\ get "attempts_analyzed" (Evaluate.body r)
             = Some (JNum (Z.of_nat (List.length answers)))).
Proof.
  unfold POST, try_catch, bind.
  destruct (student_answers b) as [[ | first others] | ] eqn:Ea.
  1,3: (eexists; eexists; split; [reflexivity | ]; cbn;
        split; [auto | split; [ | split; [reflexivity | discriminate]]];
        split; auto).
  destruct (String.eqb (problem_id b) "") eqn:Ei.
  { apply String.eqb_eq in Ei.
    eexists; eexists; split; [reflexivity | ]; cbn.
    split; [auto | split; [ | split; [reflexivity | discriminate]]].
    split; auto. }
  apply String.eqb_neq in Ei.
  assert (Not400 : ~ (problem_id b = "" \/ Some (first :: others) = None
                      \/ Some (first :: others) = Some [])).
  { intros [H | [H | H]]; [contradiction | discriminate | discriminate]. }
  destruct (getProblemById (problem_id b) w) as [[[problem | ] | msg] w1] eqn:Ep.
  3:{ eexists; eexists; split; [reflexivity | ]; cbn.
      split; [auto | split; [ | split; discriminate]].
      split; [discriminate | intros H; contradiction]. }
  2:{ eexists; eexists; split; [reflexivity | ]; cbn.
      split; [auto | split; [ | split; discriminate]].
      split; [discriminate | intros H; contradiction]. }
  match goal with
  | |- context [Diagnose.diagnoseStudent openai_create JSON_parse ?q w1] =>
      destruct (diagnoseStudent_outcome openai_create JSON_parse q w1)
        as (d & w2 & Ed & C & N & _); rewrite Ed
  end.
  assert (P : exists v w3,
             (if get_practice_recommendations b
              then getRecommendedPractice openai_practice JSON_parse d problem
              else ret None) w2 = (Return v, w3)).
  { destruct (get_practice_recommendations b); [ | eexists; eexists; reflexivity].
    destruct (is_str (get "misconception_type" d) "none"
              || is_str (get "misconception_type" d) "careless_error")%bool
      eqn:K.
    - rewrite (practice_kept_going openai_practice JSON_parse d problem w2 N K).
      eexists; eexists; reflexivity.
    - destruct (practice_asked openai_practice JSON_parse d problem w2 N K)
        as (v & w3 & E & _). rewrite E. eexists; eexists; reflexivity. }
  destruct P as (v & w3 & P). rewrite P.
  eexists; eexists; split; [reflexivity | ]; cbn.
  split; [auto | split; [ | split; [discriminate | ]]].
  - split; [discriminate | intros H; contradiction].
  - intros _. exists d, (first :: others).
    split; [reflexivity | ].
    destruct v; cbn; auto.
Qed.

Lemma diagnose_route_total_witness :
  exists r w',
    POST Sample.model_down Sample2.no_practice Sample.parse Sample.store
      (mkDiagnoseBody "problem_00001" None (Some []) None true) Sample.world0
    = (Return r, w')
    /\ Evaluate.status r = 400.
Proof.
  destruct (diagnose_route_total Sample.model_down Sample2.no_practice
              Sample.parse Sample.store
              (mkDiagnoseBody "problem_00001" None (Some []) None true)
              Sample.world0)
    as (r & w' & E & _ & F & _).
  exists r, w'. split; [exact E | ].
  apply F. right; right; reflexivity.
Defined.

End DiagnoseRouteFacts.

(* ================================================================== *)
(** ** More on the page *)

Module HomeMore.
Import JS Types Home PageInvariant.

(** *** Taking a call out of the calls in flight *)

Lemma drop_split {A : Type} (l : list A) (i : nat) (c : A) :
  nth_error l i = Some c ->
  exists l1 l2,
    l = l1 ++ c :: l2 /\ firstn i l ++ skipn (S i) l = l1 ++ l2.
Proof.
  revert i; induction l as [ | x l IH]; intros [ | i] E; cbn in E;
    try discriminate.
  - injection E as ->. exists [], l. split; reflexivity.
  - destruct (IH i E) as (l1 & l2 & E1 & E2).
    exists (x :: l1), l2. split.
    + cbn. f_equal. exact E1.
    + change (x :: (firstn i l ++ skipn (S i) l) = x :: (l1 ++ l2)).
      f_equal. exact E2.
Qed.

Lemma filter_drop_other {A : Type} (f : A -> bool) (l : list A) (i : nat)
    (c : A) :
  nth_error l i = Some c -> f c = false ->
  filter f (firstn i l ++ skipn (S i) l) = filter f l.
Proof.
  intros E F. destruct (drop_split l i c E) as (l1 & l2 & E1 & E2).
  rewrite E2, E1, !filter_app. cbn. rewrite F. reflexivity.
Qed.

Lemma filter_drop_own {A : Type} (f : A -> bool) (l : list A) (i : nat)
    (c c' : A) :
  nth_error l i = Some c -> f c = true -> filter f l = [c'] ->
  filter f (firstn i l ++ skipn (S i) l) = [].
Proof.
  intros E F S. destruct (drop_split l i c E) as (l1 & l2 & E1 & E2).
  rewrite E2. rewrite E1, filter_app in S. cbn in S. rewrite F in S.
  rewrite filter_app.
  destruct (filter f l1) as [ | x xs]; cbn in S.
  - injection S as _ S. rewrite S. reflexivity.
  - injection S as _ S. destruct xs; discriminate.
Qed.

Lemma Forall_drop {A : Type} (P : A -> Prop) (l : list A) (i : nat) :
  Forall P l -> Forall P (firstn i l ++ skipn (S i) l).
Proof.
  intros H. apply Forall_app. split.
  - rewrite <- (firstn_skipn i l) in H. apply Forall_app in H. tauto.
  - rewrite <- (firstn_skipn (S i) l) in H. apply Forall_app in H. tauto.
Qed.

Lemma existsb_drop_other {A : Type} (f : A -> bool) (l : list A) (i : nat)
    (c : A) :
  nth_error l i = Some c -> f c = false ->
  existsb f (firstn i l ++ skipn (S i) l) = existsb f l.
Proof.
  intros E F. destruct (drop_split l i c E) as (l1 & l2 & E1 & E2).
  rewrite E2, E1, !existsb_app. cbn. rewrite F. reflexivity.
Qed.

Lemma existsb_false_Forall {A : Type} (f : A -> bool) (l : list A) :
  existsb f l = false <-> Forall (fun x => f x = false) l.
Proof.
  induction l as [ | x l IH]; cbn.
  - split; [constructor | reflexivity].
  - rewrite orb_false_iff, IH. split.
    + intros [H1 H2]; constructor; assumption.
    + intros H; inversion H; subst; auto.
Qed.

Lemma existsb_drop_false {A : Type} (f : A -> bool) (l : list A) (i : nat) :
  existsb f l = false -> existsb f (firstn i l ++ skipn (S i) l) = false.
Proof.
  rewrite !existsb_false_Forall. apply Forall_drop.
Qed.

Lemma existsb_nth_false {A : Type} (f : A -> bool) (l : list A) (i : nat)
    (c : A) :
  existsb f l = false -> nth_error l i = Some c -> f c = false.
Proof.
  rewrite existsb_false_Forall, Forall_forall.
  intros H E. apply H, (nth_error_In _ _ E).
Qed.

(** *** What every state of the page satisfies *)

Lemma calls_reconcile (h : State) (a : App) :
  calls (reconcile h a) = calls a.
Proof. unfold reconcile; destruct (currentProblem h), (chat a); reflexivity. Qed.

Lemma timers_reconcile (h : State) (a : App) :
  timers (reconcile h a) = timers a.
Proof. unfold reconcile; destruct (currentProblem h), (chat a); reflexivity. Qed.

Lemma own_calls_fresh (n : nat) (l : list Call) :
  Forall (owner_known n) l -> filter (made_by (S n)) l = [].
Proof.
  induction 1 as [ | c l K _ IH]; [reflexivity | ].
  cbn. rewrite IH.
  destruct c as [o props | o | p]; cbn in *; try reflexivity;
    (destruct (Nat.eqb_spec o (S n)); [lia | reflexivity]).
Qed.

Lemma owner_known_S (n : nat) (c : Call) :
  owner_known n c -> owner_known (S n) c.
Proof. destruct c; cbn; auto. Qed.

(** After a change of the page state alone. *)
Lemma consistent_reconcile (h : State) (a : App) :
  Forall (owner_known (mounts a)) (calls a) ->
  (forall st, chat a = Some st ->
     (own_calls a = [] /\ TutorChat.isLoading st = false)
     \/ (exists c, own_calls a = [c] /\ TutorChat.isLoading st = true)) ->
  (originalProblem h <> None -> isMasteryCheck h = true) ->
  (isGeneratingMastery h = true -> existsb is_generate (calls a) = true) ->
  consistent (reconcile h a).
Proof.
  intros K O M G. unfold reconcile.
  destruct (currentProblem h) as [p | ] eqn:Ecur, (chat a) as [st | ] eqn:Ech;
    constructor; cbn; rewrite ?Ecur; auto;
    try (split; congruence); try discriminate.
  - eapply Forall_impl; [ | exact K]. apply owner_known_S.
  - intros st' E; injection E as <-. left.
    rewrite (own_calls_fresh _ _ K).
    split; reflexivity.
Qed.

Lemma call_keeps (cb : Callback) (h : State) :
  currentProblem (call cb h) = currentProblem h
  /\ originalProblem (call cb h) = originalProblem h
  /\ isMasteryCheck (call cb h) = isMasteryCheck h
  /\ isGeneratingMastery (call cb h) = isGeneratingMastery h.
Proof. destruct cb; repeat split. Qed.

Lemma resume_keeps (captured : Problem) (r : GenerateOutcome) (h : State) :
  isGeneratingMastery
    (fst (handleStartMasteryCheck_resume (Some captured) r h)) = false
  /\ ((originalProblem h <> None -> isMasteryCheck h = true) ->
      originalProblem
        (fst (handleStartMasteryCheck_resume (Some captured) r h)) <> None ->
      isMasteryCheck
        (fst (handleStartMasteryCheck_resume (Some captured) r h)) = true).
Proof.
  unfold handleStartMasteryCheck_resume, handleStartMasteryCheck_catch.
  destruct (first_problem r); cbn; auto.
Qed.

Lemma resume_idle (props : TutorChat.Props Callback) (now : Z)
    (r : TutorChat.FetchOutcome) (st : TutorChat.State) :
  TutorChat.isLoading
    (fst (TutorChat.handleSubmit_resume Callback props now r st)) = false.
Proof.
  destruct (TutorChatFacts.resume_state Callback props now r st)
    as (m & o & E & _).
  rewrite E; reflexivity.
Qed.

Lemma solution_resume_idle (now : Z) (r : TutorChat.FetchOutcome)
    (st : TutorChat.State) :
  TutorChat.isLoading
    (fst (TutorChat.handleShowSolution_resume Callback now r st)) = false.
Proof.
  unfold TutorChat.handleShowSolution_resume.
  destruct r as [ | ok [ [] | ] ]; reflexivity.
Qed.

(** A call of the chat resolves: the page is as it was, the call is
    gone, and the chat that made it, if it is the one mounted, is no
    longer loading. *)
Lemma consistent_chat_call_resolved (a : App) (i : nat) (c : Call)
    (owner : nat) (st1 : TutorChat.State) (cbs : list Callback) :
  consistent a ->
  nth_error (calls a) i = Some c ->
  is_generate c = false ->
  made_by owner c = true ->
  (forall st, mounted_chat owner a = Some st ->
     TutorChat.isLoading st1 = false) ->
  consistent
    (add_timers cbs
       (match mounted_chat owner a with
        | Some _ => with_chat st1 (drop_call i a)
        | None => drop_call i a
        end)).
Proof.
  intros C E G Mb Idle. pose proof C as [Cm Ck Co Cp Cg].
  assert (K' : Forall (owner_known (mounts a))
                 (firstn i (calls a) ++ skipn (S i) (calls a)))
    by (apply Forall_drop; exact Ck).
  assert (G' : isGeneratingMastery (home a) = true ->
               existsb is_generate
                 (firstn i (calls a) ++ skipn (S i) (calls a)) = true).
  { intros H. rewrite (existsb_drop_other _ _ _ _ E G). auto. }
  assert (Ow : made_by (mounts a) c = Nat.eqb owner (mounts a)).
  { destruct c as [o props | o | p]; cbn in *; try discriminate;
      apply Nat.eqb_eq in Mb; subst o; reflexivity. }
  unfold mounted_chat in *.
  destruct (Nat.eqb owner (mounts a)) eqn:Eo.
  - destruct (chat a) as [st | ] eqn:Ech.
    + constructor; unfold add_timers, with_chat, drop_call;
        cbn [home chat mounts calls timers]; auto.
      * split; [discriminate | ]. intros H. apply Cm in H. discriminate.
      * intros st' E'; injection E' as <-. left.
        split; [ | apply (Idle st eq_refl)].
        destruct (Co st eq_refl) as [[Q _] | (c' & Q & _)].
        -- unfold own_calls in *.
           destruct (drop_split _ _ _ E) as (l1 & l2 & E1 & _).
           rewrite E1, filter_app in Q. cbn in Q. rewrite Ow in Q.
           destruct (filter (made_by (mounts a)) l1); discriminate.
        -- unfold own_calls in *.
           apply (filter_drop_own _ _ _ _ _ E Ow Q).
    + constructor; unfold add_timers, with_chat, drop_call;
        cbn [home chat mounts calls timers]; rewrite ?Ech; auto.
      intros st' H; discriminate.
  - constructor; unfold add_timers, with_chat, drop_call;
      cbn [home chat mounts calls timers]; auto.
    intros st Ech. unfold own_calls in *; cbn [mounts calls].
    rewrite (filter_drop_other _ _ _ _ E Ow). apply Co, Ech.
Qed.

Lemma own_calls_add (a : App) (c : Call) :
  filter (made_by (mounts a)) (calls a ++ [c])
  = own_calls a ++ (if made_by (mounts a) c then [c] else []).
Proof. unfold own_calls. rewrite filter_app. reflexivity. Qed.

(** A step of the page keeps the page consistent. *)
Lemma step_consistent (ev : Event) (a : App) :
  consistent a -> consistent (fst (step ev a)).
Proof.
  intros C. pose proof C as [Cm Ck Co Cp Cg].
  destruct ev as [p | v | now | | i now r | i r | | | | | ]; unfold step.
  - (* SelectProblem *)
    cbn [fst]. apply consistent_reconcile; cbn; auto; congruence.
  - (* ChatType *)
    destruct (chat a) as [st | ] eqn:Ech; cbn [fst]; [ | exact C].
    destruct (TutorChat.input_disabled st) eqn:D; cbn [fst]; [exact C | ].
    constructor; unfold with_chat; cbn [home chat mounts calls timers]; auto.
    + split; [discriminate | ]. intros H. apply Cm in H. discriminate.
    + intros st' E; injection E as <-. cbn. apply (Co st eq_refl).
  - (* ChatSubmit *)
    destruct (currentProblem (home a)) as [problem | ] eqn:Ecur,
      (chat a) as [st | ] eqn:Ech; cbn [fst]; try exact C.
    destruct (TutorChatFacts.begin_cases Callback (chat_props problem (home a))
                now st) as [[_ E] | (L & m & q & E & _)]; rewrite E;
      cbn [fst]; [exact C | ].
    constructor; unfold add_call, with_chat;
      cbn [home chat mounts calls timers]; rewrite ?Ecur; auto.
    + split; discriminate.
    + apply Forall_app; split; [exact Ck | ]. repeat constructor.
    + intros st' E'; injection E' as <-. right.
      destruct (Co st eq_refl) as [[Q _] | (c' & _ & L')]; [ | congruence].
      eexists. unfold own_calls; cbn [mounts calls].
      rewrite own_calls_add, Q. cbn. rewrite Nat.eqb_refl.
      split; reflexivity.
    + intros H. rewrite existsb_app, (Cg H). reflexivity.
  - (* ChatShowSolution *)
    destruct (currentProblem (home a)) as [problem | ] eqn:Ecur,
      (chat a) as [st | ] eqn:Ech; cbn [fst]; try exact C.
    destruct (TutorChat.solution_button_enabled st) eqn:B; cbn [fst];
      [ | exact C].
    apply andb_true_iff in B as [_ L]. apply negb_true_iff in L.
    unfold TutorChat.handleShowSolution_begin.
    constructor; unfold add_call, with_chat;
      cbn [fst home chat mounts calls timers]; rewrite ?Ecur; auto.
    + split; discriminate.
    + apply Forall_app; split; [exact Ck | ]. repeat constructor.
    + intros st' E'; injection E' as <-. right.
      destruct (Co st eq_refl) as [[Q _] | (c' & _ & L')]; [ | congruence].
      eexists. unfold own_calls; cbn [mounts calls].
      rewrite own_calls_add, Q. cbn. rewrite Nat.eqb_refl.
      split; reflexivity.
    + intros H. rewrite existsb_app, (Cg H). reflexivity.
  - (* EvaluateResolves *)
    destruct (nth_error (calls a) i) as [[owner props | owner | p] | ] eqn:E;
      cbn [fst]; try exact C.
    + pose proof (consistent_chat_call_resolved a i
                    (EvaluateCall owner props) owner) as R.
      destruct (mounted_chat owner a) as [st | ] eqn:Em.
      * pose proof (resume_idle props now r st) as Idle.
        destruct (TutorChat.handleSubmit_resume Callback props now r st)
          as [st1 cbs].
        cbn [fst] in *. apply (R st1 cbs C E eq_refl).
        -- cbn. apply Nat.eqb_refl.
        -- intros _ _. exact Idle.
      * cbn [fst].
        apply (R TutorChat.initial _ C E eq_refl).
        -- cbn. apply Nat.eqb_refl.
        -- intros st; discriminate.
    + pose proof (consistent_chat_call_resolved a i
                    (SolutionCall owner) owner) as R.
      destruct (mounted_chat owner a) as [st | ] eqn:Em.
      * pose proof (solution_resume_idle now r st) as Idle.
        destruct (TutorChat.handleShowSolution_resume Callback now r st)
          as [st1 cbs].
        cbn [fst] in *. apply (R st1 cbs C E eq_refl).
        -- cbn. apply Nat.eqb_refl.
        -- intros _ _. exact Idle.
      * cbn [fst].
        replace (drop_call i a) with (add_timers [] (drop_call i a)).
        -- apply (R TutorChat.initial [] C E eq_refl).
           ++ cbn. apply Nat.eqb_refl.
           ++ intros st; discriminate.
        -- unfold add_timers, drop_call; cbn [home chat mounts calls timers].
           rewrite app_nil_r. reflexivity.
  - (* GenerateResolves *)
    destruct (nth_error (calls a) i) as [[owner props | owner | p] | ] eqn:E;
      cbn [fst]; try exact C.
    pose proof (resume_keeps p r (home a)) as [Kg Ko].
    destruct (handleStartMasteryCheck_resume (Some p) r (home a))
      as [h' effects].
    cbn [fst] in *. apply consistent_reconcile;
      unfold drop_call; cbn [home chat mounts calls timers].
    + apply Forall_drop, Ck.
    + intros st Ech. unfold own_calls; cbn [mounts calls].
      rewrite (filter_drop_other _ _ _ _ E eq_refl). apply Co, Ech.
    + apply Ko, Cp.
    + rewrite Kg. discriminate.
  - (* TimerFires *)
    destruct (timers a) as [ | cb rest]; cbn [fst]; [exact C | ].
    destruct (call_keeps cb (home a)) as (_ & K2 & K3 & K4).
    apply consistent_reconcile; cbn [home chat mounts calls timers]; auto.
    + rewrite K2, K3. exact Cp.
    + rewrite K4. exact Cg.
  - (* ClickStartMasteryCheck *)
    destruct (showMasteryCheckModal (home a)); cbn [fst]; [ | exact C].
    destruct (currentProblem (home a)) as [p | ] eqn:Ecur.
    + unfold handleStartMasteryCheck_begin. rewrite Ecur. cbn [fst].
      unfold reconcile; cbn [currentProblem]; rewrite ?Ecur.
      destruct (chat a) as [st | ] eqn:Ech;
        [ | exfalso; destruct Cm as [Cm1 _];
            specialize (Cm1 eq_refl); congruence].
      constructor; unfold add_call; cbn [home chat mounts calls timers];
        cbn [currentProblem originalProblem isMasteryCheck
             isGeneratingMastery]; auto; try (split; congruence).
      * apply Forall_app; split; [exact Ck | ]. repeat constructor.
      * intros st' E'; injection E' as <-.
        unfold own_calls; cbn [mounts calls].
        rewrite own_calls_add. cbn. rewrite app_nil_r.
        apply (Co st eq_refl).
      * intros _. rewrite existsb_app. cbn. apply orb_true_r.
    + unfold handleStartMasteryCheck, handleStartMasteryCheck_begin,
        handleStartMasteryCheck_resume, handleStartMasteryCheck_catch.
      rewrite Ecur. cbn [fst].
      apply consistent_reconcile; cbn; auto; discriminate.
  - (* ClickSkip *)
    destruct (showMasteryCheckModal (home a)); cbn [fst]; [ | exact C].
    apply consistent_reconcile; cbn; auto; congruence.
  - (* ClickCelebrationContinue *)
    destruct (showCelebrationModal (home a)); cbn [fst]; [ | exact C].
    apply consistent_reconcile; cbn; auto; congruence.
  - (* ClickTryAnother *)
    destruct (currentProblem (home a)); cbn [fst]; [ | exact C].
    destruct (isMasteryCheck (home a)); cbn [fst]; [exact C | ].
    apply consistent_reconcile; cbn; auto; congruence.
Qed.

Lemma run_consistent (evs : list Event) (a : App) :
  consistent a -> consistent (fst (run evs a)).
Proof.
  revert a; induction evs as [ | ev evs IH]; intros a C; cbn; [exact C | ].
  pose proof (step_consistent ev a C) as C1.
  destruct (step ev a) as [a1 e1]. cbn [fst] in C1.
  specialize (IH a1 C1).
  destruct (run evs a1) as [a2 e2]. exact IH.
Qed.

Lemma start_consistent : consistent start.
Proof.
  constructor; cbn; auto; try discriminate; try congruence.
  split; reflexivity.
Qed.

(** *** A mastery check with nothing left over from before it *)

(** The callbacks a resumed [handleSubmit] schedules are among the two
    its props hold. *)
Lemma resume_callbacks (props : TutorChat.Props Callback) (now : Z)
    (r : TutorChat.FetchOutcome) (st : TutorChat.State) :
  holds_original (EvaluateCall 0 props) = false ->
  existsb of_original
    (snd (TutorChat.handleSubmit_resume Callback props now r st)) = false.
Proof.
  intros H. cbn in H. rewrite existsb_app in H.
  apply orb_false_iff in H as [Hf Hc].
  destruct (TutorChatFacts.resume_cases Callback props now r st)
    as [(result & _ & _ & E) | E]; rewrite E; cbn [snd]; [ | reflexivity].
  rewrite HomeFacts.evaluated_timers, existsb_app.
  apply orb_false_iff; split.
  - destruct (TutorChat.offers_solution result); [ | reflexivity].
    destruct (TutorChat.isMasteryCheck props); [ | reflexivity].
    destruct (TutorChat.onMasteryFailed props); [exact Hf | reflexivity].
  - destruct (TutorChat.correct_final result); [ | reflexivity].
    destruct (TutorChat.onCorrectAnswer props); [exact Hc | reflexivity].
Qed.

Lemma chat_props_in_mastery (problem : Problem) (h : State) (n : nat) :
  isMasteryCheck h = true ->
  holds_original (EvaluateCall n (chat_props problem h)) = false.
Proof. intros M. cbn. rewrite M. reflexivity. Qed.

Lemma call_in_mastery (cb : Callback) (h : State) :
  of_original cb = false ->
  showMasteryCheckModal (call cb h) = showMasteryCheckModal h
  /\ isMasteryCheck (call cb h) = isMasteryCheck h.
Proof. destruct cb; cbn; intros H; try discriminate; split; reflexivity. Qed.

(** In a mastery check with nothing left over, whatever happens next,
    no generation request is sent, and if the page is still in a
    mastery check afterwards, then it is one with nothing left over. *)
Lemma step_clean_mastery_check (ev : Event) (a : App) :
  clean_mastery_check a ->
  filter is_generation (snd (step ev a)) = []
  /\ (isMasteryCheck (home (fst (step ev a))) = true ->
      clean_mastery_check (fst (step ev a))).
Proof.
  intros (M & S & T & K).
  assert (C : clean_mastery_check a) by (repeat split; assumption).
  destruct ev as [p | v | now | | i now r | i r | | | | | ]; unfold step.
  - (* SelectProblem *)
    split; [reflexivity | ].
    cbn [fst]. rewrite HomeFacts.home_reconcile. cbn. discriminate.
  - (* ChatType *)
    destruct (chat a) as [st | ]; [ | split; [reflexivity | intros _; exact C]].
    destruct (TutorChat.input_disabled st);
      split; try reflexivity; intros _; exact C.
  - (* ChatSubmit *)
    destruct (currentProblem (home a)) as [problem | ], (chat a) as [st | ];
      try (split; [reflexivity | intros _; exact C]).
    destruct (TutorChat.handleSubmit_begin Callback
                (chat_props problem (home a)) now st)
      as [[st1 [request | ]] | msg];
      try (split; [reflexivity | intros _; exact C]).
    split; [reflexivity | ]. intros _.
    unfold clean_mastery_check, add_call, with_chat;
      cbn [fst home chat mounts calls timers].
    repeat split; try assumption.
    rewrite existsb_app, K. cbn [existsb].
    rewrite (chat_props_in_mastery problem (home a) _ M). reflexivity.
  - (* ChatShowSolution *)
    destruct (currentProblem (home a)) as [problem | ], (chat a) as [st | ];
      try (split; [reflexivity | intros _; exact C]).
    destruct (TutorChat.solution_button_enabled st);
      [ | split; [reflexivity | intros _; exact C]].
    unfold TutorChat.handleShowSolution_begin.
    split; [reflexivity | ]. intros _.
    unfold clean_mastery_check, add_call, with_chat;
      cbn [fst home chat mounts calls timers].
    repeat split; try assumption.
    rewrite existsb_app, K. reflexivity.
  - (* EvaluateResolves *)
    destruct (nth_error (calls a) i) as [[owner props | owner | p] | ] eqn:E;
      try (split; [reflexivity | intros _; exact C]).
    + assert (H : holds_original (EvaluateCall 0 props) = false)
        by exact (existsb_nth_false _ _ _ _ K E).
      destruct (mounted_chat owner a) as [st | ].
      * pose proof (resume_callbacks props now r st H) as R.
        destruct (TutorChat.handleSubmit_resume Callback props now r st)
          as [st1 cbs].
        cbn [snd] in R. split; [reflexivity | ]. intros _.
        unfold clean_mastery_check, add_timers, with_chat, drop_call;
          cbn [fst home chat mounts calls timers].
        repeat split; try assumption.
        -- rewrite existsb_app, T, R. reflexivity.
        -- apply existsb_drop_false, K.
      * pose proof (resume_callbacks props now r TutorChat.initial H) as R.
        split; [reflexivity | ]. intros _.
        unfold clean_mastery_check, add_timers, drop_call;
          cbn [fst home chat mounts calls timers].
        repeat split; try assumption.
        -- rewrite existsb_app, T, R. reflexivity.
        -- apply existsb_drop_false, K.
    + destruct (mounted_chat owner a) as [st | ].
      * unfold TutorChat.handleShowSolution_resume.
        split; [reflexivity | ]. intros _.
        unfold clean_mastery_check, add_timers, with_chat, drop_call;
          cbn [fst home chat mounts calls timers].
        repeat split; try assumption.
        -- rewrite app_nil_r. exact T.
        -- apply existsb_drop_false, K.
      * split; [reflexivity | ]. intros _.
        unfold clean_mastery_check, drop_call;
          cbn [fst home chat mounts calls timers].
        repeat split; try assumption.
        apply existsb_drop_false, K.
  - (* GenerateResolves *)
    destruct (nth_error (calls a) i) as [[owner props | owner | p] | ] eqn:E;
      try (split; [reflexivity | intros _; exact C]).
    unfold handleStartMasteryCheck_resume, handleStartMasteryCheck_catch.
    destruct (first_problem r); cbn [fst snd]; (split; [reflexivity | ]);
      rewrite HomeFacts.home_reconcile; intros M';
      unfold clean_mastery_check;
      rewrite HomeFacts.home_reconcile, calls_reconcile, timers_reconcile;
      unfold drop_call; cbn [home chat mounts calls timers];
      cbn [isMasteryCheck showMasteryCheckModal];
      repeat split; try assumption; try reflexivity;
      apply existsb_drop_false, K.
  - (* TimerFires *)
    destruct (timers a) as [ | cb rest] eqn:Et;
      [split; [reflexivity | intros _; exact C] | ].
    cbn [existsb] in T. apply orb_false_iff in T as [Tc Tr].
    destruct (call_in_mastery cb (home a) Tc) as [K1 K2].
    split; [reflexivity | ]. cbn [fst]. intros _.
    unfold clean_mastery_check.
    rewrite HomeFacts.home_reconcile, calls_reconcile, timers_reconcile.
    cbn [home chat mounts calls timers]. rewrite K1, K2.
    repeat split; assumption.
  - (* ClickStartMasteryCheck *)
    rewrite S. split; [reflexivity | intros _; exact C].
  - (* ClickSkip *)
    rewrite S. split; [reflexivity | intros _; exact C].
  - (* ClickCelebrationContinue *)
    destruct (showCelebrationModal (home a));
      [ | split; [reflexivity | intros _; exact C]].
    split; [reflexivity | ]. cbn [fst]. rewrite HomeFacts.home_reconcile. cbn.
    discriminate.
  - (* ClickTryAnother *)
    destruct (currentProblem (home a));
      [ | split; [reflexivity | intros _; exact C]].
    rewrite M. split; [reflexivity | intros _; exact C].
Qed.

(** For as long as such a mastery check lasts, no generation request
    is sent and the offer stays closed. *)
Lemma run_clean_mastery_check (evs : list Event) (a : App) :
  clean_mastery_check a ->
  lasting evs a ->
  clean_mastery_check (fst (run evs a))
  /\ filter is_generation (snd (run evs a)) = [].
Proof.
  revert a; induction evs as [ | ev evs IH]; intros a C L; cbn.
  - split; [exact C | reflexivity].
  - destruct L as [M L].
    destruct (step_clean_mastery_check ev a C) as [G1 C1].
    specialize (C1 M).
    destruct (step ev a) as [a1 e1]. cbn [fst snd] in *.
    destruct (IH a1 C1 L) as [C2 G2].
    destruct (run evs a1) as [a2 e2]. cbn [fst snd] in *.
    split; [exact C2 | ]. rewrite filter_app, G1, G2. reflexivity.
Qed.

(** What is not kept in every state: a delayed callback is not
    cancelled when the learner leaves the problem, so the offer of a
    mastery check can open over the picker. *)
Lemma offer_can_open_over_the_picker :
  currentProblem (home (fst (run Sample.leaves_before_the_offer start))) = None
  /\ showMasteryCheckModal
       (home (fst (run Sample.leaves_before_the_offer start))) = true.
Proof. vm_compute. split; reflexivity. Qed.

(** X22.  In every state the page reaches, whatever the order in
    which the learner acts, calls resolve and timers run: the chat is
    mounted exactly when there is a current problem; every call of a
    chat in flight was made by a chat mounted so far; the mounted chat
    is loading exactly when one call of its own is in flight, and it
    never has two; an original problem is only remembered during a
    mastery check; the generation overlay is only on while a generation
    call is in flight.  A mastery check that begins with the offer
    closed and with no callback of the original attempt outstanding
    (none in a timer, none held by a call in flight) has nothing left
    over; and for as long as a mastery check with nothing left over
    lasts, whatever happens, a [correct_final] of the mastery attempt
    included, the offer stays closed and no generation request is
    sent. *)
Theorem page_stays_consistent (evs : list Event) :
  consistent (fst (run evs start))
  /\ (forall i r p sibling,
        nth_error (calls (fst (run evs start))) i = Some (GenerateCall p) ->
        first_problem r = Some sibling ->
        showMasteryCheckModal (home (fst (run evs start))) = false ->
        existsb of_original (timers (fst (run evs start))) = false ->
        existsb holds_original (calls (fst (run evs start))) = false ->
        clean_mastery_check
          (fst (step (GenerateResolves i r) (fst (run evs start)))))
  /\ (forall more,
        clean_mastery_check (fst (run evs start)) ->
        lasting more (fst (run evs start)) ->
        showMasteryCheckModal
          (home (fst (run more (fst (run evs start))))) = false
        /\ filter is_generation (snd (run more (fst (run evs start)))) = []).
Proof.
  split; [apply run_consistent, start_consistent | split].
  - intros i r p sibling E F S T K.
    unfold step. rewrite E.
    unfold handleStartMasteryCheck_resume. rewrite F. cbn [fst].
    unfold clean_mastery_check.
    rewrite HomeFacts.home_reconcile, calls_reconcile, timers_reconcile.
    unfold drop_call; cbn [home chat mounts calls timers].
    cbn [isMasteryCheck showMasteryCheckModal].
    repeat split; try assumption. apply existsb_drop_false, K.
  - intros more C L.
    destruct (run_clean_mastery_check more _ C L) as [(_ & S & _) G].
    split; assumption.
Qed.

Lemma page_stays_consistent_witness :
  clean_mastery_check
    (fst (run (Sample.solve_then_start Sample.generated) start))
  /\ lasting
       [ ChatType "567"; ChatSubmit 30;
         EvaluateResolves 0 35
           (Sample.answered
              (Sample.result "correct_final" "partial_progress" false));
         TimerFires ]
       (fst (run (Sample.solve_then_start Sample.generated) start))
  /\ showMasteryCheckModal
       (home (fst (run [ ChatType "567"; ChatSubmit 30;
                         EvaluateResolves 0 35
                           (Sample.answered
                              (Sample.result "correct_final"
                                 "partial_progress" false));
                         TimerFires ]
                     (fst (run (Sample.solve_then_start Sample.generated)
                             start))))) = false.
Proof.
  assert (C : clean_mastery_check
                (fst (run (Sample.solve_then_start Sample.generated) start)))
    by (vm_compute; repeat split).
  assert (L : lasting
                [ ChatType "567"; ChatSubmit 30;
                  EvaluateResolves 0 35
                    (Sample.answered
                       (Sample.result "correct_final" "partial_progress"
                          false));
                  TimerFires ]
                (fst (run (Sample.solve_then_start Sample.generated) start)))
    by (vm_compute; repeat split).
  split; [exact C | split; [exact L | ]].
  exact (proj1 (proj2 (proj2 (page_stays_consistent
                                (Sample.solve_then_start Sample.generated)))
                  _ C L)).
Defined.

(** X23.  Starting the mastery check does not start a new chat.  The
    click leaves the chat as it is and puts the generation call in
    flight; and when a generation call resolves with a problem while a
    chat is mounted, the page switches to that problem and the chat
    component stays mounted with the state it had, so the conversation,
    the hint counter and the solution offer of the original attempt
    carry over into the mastery check. *)
Theorem mastery_check_inherits_chat (a : App) (r : GenerateOutcome)
    (p sibling : Problem) (st : TutorChat.State) :
  chat a = Some st ->
  first_problem r = Some sibling ->
  (showMasteryCheckModal (home a) = true ->
   currentProblem (home a) = Some p ->
   chat (fst (step ClickStartMasteryCheck a)) = Some st
   /\ nth_error (calls (fst (step ClickStartMasteryCheck a)))
        (List.length (calls a))
      = Some (GenerateCall p))
  /\ (forall i,
        nth_error (calls a) i = Some (GenerateCall p) ->
        chat (fst (step (GenerateResolves i r) a)) = Some st
        /\ mounts (fst (step (GenerateResolves i r) a)) = mounts a
        /\ currentProblem (home (fst (step (GenerateResolves i r) a)))
           = Some sibling
        /\ originalProblem (home (fst (step (GenerateResolves i r) a)))
           = Some p
        /\ isMasteryCheck (home (fst (step (GenerateResolves i r) a)))
           = true).
Proof.
  intros Ech F. split.
  - intros S Ecur. unfold step. rewrite S, Ecur.
    unfold handleStartMasteryCheck_begin, reconcile, add_call.
    rewrite Ecur; cbn. rewrite Ech; cbn.
    split; [reflexivity | ].
    rewrite nth_error_app2, Nat.sub_diag; [reflexivity | lia].
  - intros i E. unfold step. rewrite E.
    unfold handleStartMasteryCheck_resume. rewrite F.
    unfold reconcile, drop_call; cbn. rewrite Ech. repeat split.
Qed.

Lemma mastery_check_inherits_chat_witness :
  option_map TutorChat.hintsUsed
    (chat (fst (step (GenerateResolves 0 Sample.generated)
                  (mkApp (handleProblemSelected Sample.problem initial)
                     (Some (TutorChat.mkState [] "" false 2 true)) 1
                     [GenerateCall Sample.problem] []))))
  = Some 2.
Proof.
  rewrite (proj1 (proj2 (mastery_check_inherits_chat
                           (mkApp (handleProblemSelected Sample.problem initial)
                              (Some (TutorChat.mkState [] "" false 2 true)) 1
                              [GenerateCall Sample.problem] [])
                           Sample.generated Sample.problem Sample.sibling
                           (TutorChat.mkState [] "" false 2 true)
                           eq_refl eq_refl)
                    0%nat eq_refl)).
  reflexivity.
Defined.

(** X24.  A problem chosen in the picker always starts a fresh chat:
    in every state the page reaches without a current problem, selecting
    a problem mounts the chat with an empty conversation, an empty
    input, a hint counter of 0 and no solution offer, outside any
    mastery check. *)
Theorem selected_problem_starts_fresh (evs : list Event) (p : Problem) :
  currentProblem (home (fst (run evs start))) = None ->
  chat (fst (step (SelectProblem p) (fst (run evs start))))
  = Some TutorChat.initial
  /\ currentProblem (home (fst (step (SelectProblem p) (fst (run evs start)))))
     = Some p
  /\ isMasteryCheck (home (fst (step (SelectProblem p) (fst (run evs start)))))
     = false
  /\ originalProblem (home (fst (step (SelectProblem p) (fst (run evs start)))))
     = None.
Proof.
  intros Ecur.
  destruct (run_consistent evs start start_consistent) as [Cm _ _ _ _].
  apply Cm in Ecur as Ech.
  unfold step, reconcile. cbn. rewrite Ech. repeat split.
Qed.

Lemma selected_problem_starts_fresh_witness :
  chat (fst (step (SelectProblem Sample.problem)
               (fst (run (Sample.solve_then_start Sample.generation_failed)
                       start))))
  = Some TutorChat.initial.
Proof.
  apply (selected_problem_starts_fresh
           (Sample.solve_then_start Sample.generation_failed) Sample.problem).
  reflexivity.
Defined.

(** X25.  Outside a mastery check, the page reacts to an evaluated turn
    in one way only: a [correct_final] result opens the offer of a
    mastery check, and every other result leaves the page as it is; a
    result that carries [show_solution_button] does not record a failed
    mastery check there. *)
Theorem original_attempt_offers_mastery_check (h : State) (problem : Problem)
    (now : Z) (result : json) (st : TutorChat.State) :
  isMasteryCheck h = false ->
  call_all
    (snd (TutorChat.handleSubmit_evaluated Callback (chat_props problem h)
            now result st)) h
  = if TutorChat.correct_final result
    then handleOriginalCorrectAnswer h
    else h.
Proof.
  intros M. rewrite HomeFacts.evaluated_timers; cbn. rewrite M.
  destruct (TutorChat.offers_solution result),
    (TutorChat.correct_final result); reflexivity.
Qed.

Lemma original_attempt_offers_mastery_check_witness :
  showMasteryCheckModal
    (call_all
       (snd (TutorChat.handleSubmit_evaluated Callback
               (chat_props Sample.problem
                  (handleProblemSelected Sample.problem initial)) 10
               (Sample.result "correct_final" "partial_progress" true)
               TutorChat.initial))
       (handleProblemSelected Sample.problem initial))
  = true.
Proof.
  rewrite (original_attempt_offers_mastery_check
             (handleProblemSelected Sample.problem initial) Sample.problem 10
             (Sample.result "correct_final" "partial_progress" true)
             TutorChat.initial eq_refl).
  reflexivity.
Defined.

End HomeMore.

(* ================================================================== *)
(** ** The chat against a route that does not know the problem *)

Module SystemMore.
Import JS Srv Types System.

(** X26.  A submission for a problem the store does not know: the
    route answers 404 without calling the model, and the chat, for which
    any status that is not ok is a failure, appends the student turn and
    the fixed apology; the hint counter and the solution offer are as
    they were, and no callback of the page is scheduled. *)
Theorem unknown_problem_submission
    (openai_create : nat -> Prompt -> LlmOutcome)
    (JSON_parse : string -> option json)
    (getProblemById : string -> M (option Problem))
    (getStudentAge : M (option Z))
    (CB : Type) (props : TutorChat.Props CB) (now : Z) (sys : System)
    (age : option Z) (w1 w2 : World) :
  String.eqb (trim (TutorChat.input (attempt sys))) "" = false ->
  TutorChat.isLoading (attempt sys) = false ->
  String.eqb (TutorChat.problemId props) "" = false ->
  getStudentAge (server sys) = (Return age, w1) ->
  getProblemById (TutorChat.problemId props) w1 = (Return None, w2) ->
  chat_submit openai_create JSON_parse getProblemById getStudentAge
    CB props now sys
  = (mkSystem (page sys)
       (TutorChat.mkState
          (TutorChat.messages (attempt sys)
           ++ [ TutorChat.mkChatMessage now student
                  (Some (JStr (trim (TutorChat.input (attempt sys)))))
                  now None;
                TutorChat.mkChatMessage (now + 1) tutor
                  (Some (JStr "Sorry, I had trouble understanding that. Could you try again?"))
                  now None ])
          "" false (TutorChat.hintsUsed (attempt sys))
          (TutorChat.showSolutionButton (attempt sys)))
       w2,
     []).
Proof.
  intros T L Hid Hage Hdb.
  unfold chat_submit, TutorChat.handleSubmit_begin. rewrite T, L; cbn.
  unfold evaluate_call, Evaluate.POST, try_catch, bind; cbn.
  rewrite Hid, T; cbn. rewrite Hage, Hdb. cbn.
  unfold TutorChat.handleSubmit_catch, TutorChat.set_isLoading,
    TutorChat.set_input, TutorChat.set_messages; cbn.
  rewrite <- app_assoc. reflexivity.
Qed.

Lemma unknown_problem_submission_witness :
  chat_submit Sample.model_down Sample.parse Sample.store Sample.no_session
    _ (Home.chat_props Sample.sibling Sample.in_mastery_check) 30
    (mkSystem Sample.in_mastery_check
       (TutorChat.mkState [] "567" false 0 false) Sample.world0)
  = (mkSystem Sample.in_mastery_check
       (TutorChat.mkState
          [ TutorChat.mkChatMessage 30 student (Some (JStr "567")) 30 None;
            TutorChat.mkChatMessage 31 tutor
              (Some (JStr "Sorry, I had trouble understanding that. Could you try again?"))
              30 None ]
          "" false 0 false)
       Sample.world0,
     []).
Proof.
  apply (unknown_problem_submission Sample.model_down Sample.parse
           Sample.store Sample.no_session _
           (Home.chat_props Sample.sibling Sample.in_mastery_check) 30
           (mkSystem Sample.in_mastery_check
              (TutorChat.mkState [] "567" false 0 false) Sample.world0)
           None Sample.world0 Sample.world0);
    reflexivity.
Defined.

(** X27.  A solution request for a problem the store does not know:
    the route answers 404, and the chat, which does not test the status
    of this response, still appends a tutor turn, whose text is
    [undefined], and withdraws the solution offer. *)
Theorem unknown_problem_solution_request
    (openai_create : nat -> Prompt -> LlmOutcome)
    (JSON_parse : string -> option json)
    (getProblemById : string -> M (option Problem))
    (getStudentAge : M (option Z))
    (CB : Type) (props : TutorChat.Props CB) (now : Z) (sys : System)
    (age : option Z) (w1 w2 : World) :
  String.eqb (TutorChat.problemId props) "" = false ->
  getStudentAge (server sys) = (Return age, w1) ->
  getProblemById (TutorChat.problemId props) w1 = (Return None, w2) ->
  chat_show_solution openai_create JSON_parse getProblemById getStudentAge
    CB props now sys
  = (mkSystem (page sys)
       (TutorChat.mkState
          (TutorChat.messages (attempt sys)
           ++ [TutorChat.mkChatMessage now tutor None now None])
          (TutorChat.input (attempt sys)) false
          (TutorChat.hintsUsed (attempt sys)) false)
       w2,
     []).
Proof.
  intros Hid Hage Hdb.
  unfold chat_show_solution, TutorChat.handleShowSolution_begin.
  unfold evaluate_call, Evaluate.POST, try_catch, bind; cbn.
  rewrite Hid; cbn. rewrite Hage, Hdb. reflexivity.
Qed.

Lemma unknown_problem_solution_request_witness :
  chat_show_solution Sample.model_down Sample.parse Sample.store
    Sample.no_session _
    (Home.chat_props Sample.sibling Sample.in_mastery_check) 40
    (mkSystem Sample.in_mastery_check
       (TutorChat.mkState [] "" false 3 true) Sample.world0)
  = (mkSystem Sample.in_mastery_check
       (TutorChat.mkState [TutorChat.mkChatMessage 40 tutor None 40 None]
          "" false 3 false)
       Sample.world0,
     []).
Proof.
  apply (unknown_problem_solution_request Sample.model_down Sample.parse
           Sample.store Sample.no_session _
           (Home.chat_props Sample.sibling Sample.in_mastery_check) 40
           (mkSystem Sample.in_mastery_check
              (TutorChat.mkState [] "" false 3 true) Sample.world0)
           None Sample.world0 Sample.world0);
    reflexivity.
Defined.

End SystemMore.

(* ================================================================== *)
(** ** The chapters of a class *)

Module ChaptersFacts.
Import JS Srv Chapters.

Lemma unique_In (xs : list Z) (c : Z) : In c (unique xs) <-> In c xs.
Proof.
  induction xs as [ | x xs IH]; cbn; [tauto | ].
  rewrite filter_In, IH.
  destruct (Z.eq_dec x c) as [-> | N].
  - tauto.
  - split.
    + intros [H | [H _]]; auto.
    + intros [H | H]; [auto | right].
      split; [exact H | ]. apply negb_true_iff, Z.eqb_neq. congruence.
Qed.

Lemma unique_NoDup (xs : list Z) : NoDup (unique xs).
Proof.
  induction xs as [ | x xs IH]; cbn; constructor.
  - rewrite filter_In. intros [_ H].
    apply negb_true_iff, Z.eqb_neq in H. congruence.
  - apply NoDup_filter, IH.
Qed.

Lemma insert_In (x : Z) (l : list Z) (c : Z) :
  In c (insert x l) <-> c = x \/ In c l.
Proof.
  induction l as [ | y l IH]; cbn.
  - split; intros [H | H]; auto; contradiction.
  - destruct (x <=? y); cbn; [split; intros [H | H]; auto | ].
    rewrite IH. tauto.
Qed.

Lemma sort_In (xs : list Z) (c : Z) : In c (sort xs) <-> In c xs.
Proof.
  induction xs as [ | x xs IH]; cbn; [tauto | ].
  rewrite insert_In, IH. split; intros [H | H]; auto.
Qed.

Lemma insert_increasing (x : Z) (l : list Z) :
  StronglySorted Z.lt l -> ~ In x l -> StronglySorted Z.lt (insert x l).
Proof.
  induction l as [ | y l IH]; intros S N; cbn.
  - repeat constructor.
  - inversion S as [ | ? ? S' F]; subst.
    destruct (x <=? y) eqn:L.
    + apply Z.leb_le in L.
      assert (x < y) by (assert (x <> y) by (intros ->; apply N; left; reflexivity); lia).
      constructor; [exact S | ].
      constructor; [assumption | ].
      rewrite Forall_forall in *. intros z Hz. specialize (F z Hz). lia.
    + apply Z.leb_gt in L.
      constructor.
      * apply IH; [exact S' | ]. intros H; apply N; right; exact H.
      * rewrite Forall_forall in *. intros z Hz.
        apply insert_In in Hz as [-> | Hz]; [lia | apply F, Hz].
Qed.

Lemma sort_increasing (xs : list Z) :
  NoDup xs -> StronglySorted Z.lt (sort xs).
Proof.
  induction 1 as [ | x xs N D IH]; cbn; [constructor | ].
  apply insert_increasing; [exact IH | ].
  rewrite sort_In. exact N.
Qed.

(** Filtering a value out of an increasing list keeps it increasing. *)
Lemma filter_increasing (f : Z -> bool) (l : list Z) :
  StronglySorted Z.lt l -> StronglySorted Z.lt (filter f l).
Proof.
  induction 1 as [ | y l S IH F]; cbn; [constructor | ].
  destruct (f y); [ | exact IH].
  constructor; [exact IH | ].
  rewrite Forall_forall in *. intros z Hz.
  apply filter_In in Hz as [Hz _]. apply F, Hz.
Qed.

Lemma unique_of_ascending (xs : list Z) :
  StronglySorted Z.le xs -> StronglySorted Z.lt (unique xs).
Proof.
  induction 1 as [ | x xs S IH F]; cbn; [constructor | ].
  constructor.
  - apply filter_increasing, IH.
  - rewrite Forall_forall in *. intros z Hz.
    apply filter_In in Hz as [Hz Hne].
    apply (proj1 (unique_In xs z)) in Hz. specialize (F z Hz).
    apply negb_true_iff, Z.eqb_neq in Hne. lia.
Qed.

(** X28.  The chapter list the route answers with: when the store
    gives the rows of the class, the route answers with status 200 and
    the chapters of the rows in strictly ascending order, each chapter
    once, whatever the order and the repetitions of the rows. *)
Theorem chapters_route_sorts_and_dedupes
    (select_chapters : string -> M Selected) (c : string) (w w' : World)
    (data : list Z) :
  c <> "" ->
  select_chapters c w = (Return (SelectRows data), w') ->
  GET select_chapters (Some c) w
  = (Return
       (Evaluate.mkHttpResponse 200
          (JObj [ ("chapters", JArr (map JNum (sort (unique data)))) ])),
     w')
  /\ StronglySorted Z.lt (sort (unique data))
  /\ (forall chapter, In chapter (sort (unique data)) <-> In chapter data).
Proof.
  intros N E. split; [ | split].
  - unfold GET, try_catch, bind.
    apply String.eqb_neq in N. rewrite N, E. reflexivity.
  - apply sort_increasing, unique_NoDup.
  - intros chapter. rewrite sort_In. apply unique_In.
Qed.

Lemma chapters_route_sorts_and_dedupes_witness :
  GET Sample2.rows_of_class_5 (Some "5") Sample.world0
  = (Return
       (Evaluate.mkHttpResponse 200
          (JObj [ ("chapters", JArr [JNum 1; JNum 2; JNum 3]) ])),
     Sample.world0).
Proof.
  apply (chapters_route_sorts_and_dedupes Sample2.rows_of_class_5 "5"
           Sample.world0 Sample.world0 [3; 1; 3; 2; 1]).
  - discriminate.
  - reflexivity.
Defined.

(** X29.  [getChaptersByClass] removes the repetitions and keeps the
    order of the rows: its result has each chapter of the rows exactly
    once, and it is strictly ascending when the store returns the rows
    in ascending order of chapter, as the query asks it to. *)
Theorem getChaptersByClass_dedupes
    (select_chapters : string -> M Selected) (classNum : string)
    (w w' : World) (data : list Z) :
  select_chapters classNum w = (Return (SelectRows data), w') ->
  getChaptersByClass select_chapters classNum w = (Return (unique data), w')
  /\ NoDup (unique data)
  /\ (forall chapter, In chapter (unique data) <-> In chapter data)
  /\ (StronglySorted Z.le data -> StronglySorted Z.lt (unique data)).
Proof.
  intros E. split; [ | split; [ | split]].
  - unfold getChaptersByClass, bind. rewrite E. reflexivity.
  - apply unique_NoDup.
  - intros chapter. apply unique_In.
  - apply unique_of_ascending.
Qed.

Lemma getChaptersByClass_dedupes_witness :
  getChaptersByClass Sample2.rows_of_class_5 "5" Sample.world0
  = (Return [3; 1; 2], Sample.world0).
Proof.
  apply (getChaptersByClass_dedupes Sample2.rows_of_class_5 "5"
           Sample.world0 Sample.world0 [3; 1; 3; 2; 1]).
  reflexivity.
Defined.

End ChaptersFacts.

(* ================================================================== *)
(** ** The badges *)

Module BadgeFacts.
Import JS Badge.

(** X30.  [getBadgeLabel] and [getBadgeColor] know the same three
    badges: each returns the empty string exactly for a badge that is
    not [partial_progress], [hint_given] or [corrective_feedback]; so a
    turn whose badge is some other truthy value (the evaluation lets any
    truthy badge through) is rendered with a pill that has neither text
    nor colour. *)
Theorem badge_label_and_colour_agree (badgeType : value) :
  (getBadgeLabel badgeType = "" <-> known_badge badgeType = false)
  /\ (getBadgeColor badgeType = "" <-> known_badge badgeType = false)
  /\ (forall m,
        TutorChat.badge_type m = badgeType ->
        badge_rendered m = true ->
        known_badge badgeType = false ->
        getBadgeLabel (TutorChat.badge_type m) = ""
        /\ getBadgeColor (TutorChat.badge_type m) = "").
Proof.
  assert (L : getBadgeLabel badgeType = "" <-> known_badge badgeType = false).
  { unfold getBadgeLabel, known_badge.
    destruct (is_str badgeType "partial_progress"),
      (is_str badgeType "hint_given"),
      (is_str badgeType "corrective_feedback"); cbn;
      split; intros H; try discriminate; reflexivity. }
  assert (C : getBadgeColor badgeType = "" <-> known_badge badgeType = false).
  { unfold getBadgeColor, known_badge.
    destruct (is_str badgeType "partial_progress"),
      (is_str badgeType "hint_given"),
      (is_str badgeType "corrective_feedback"); cbn;
      split; intros H; try discriminate; reflexivity. }
  split; [exact L | split; [exact C | ]].
  intros m -> _ K. split; [apply L | apply C]; exact K.
Qed.

Lemma badge_label_and_colour_agree_witness :
  getBadgeLabel (Some (JStr "encouragement")) = ""
  /\ getBadgeColor (Some (JStr "encouragement")) = "".
Proof.
  apply (proj2 (proj2 (badge_label_and_colour_agree
                         (Some (JStr "encouragement"))))
           (TutorChat.mkChatMessage 11 Types.tutor
              (Some (JStr "Check the tens.")) 10
              (Some (JStr "encouragement"))));
    reflexivity.
Defined.

End BadgeFacts.
